(** * CabinetForge: the CE CAB layout writer and the CAB editor

    A shallow embedding of [cabinetforge/ce_cab_writer.py] and
    [cabinetforge/cab_editor.py], with the workspaces of
    [cabinetforge/models.py] and [cabinetforge/workspace.py] and the [/add]
    route of [cabinetforge/routes.py].

    Conventions of the embedding.
    - Python [bytes] are [list byte]; a Python [int] is a [Z]; lengths and
      buffer offsets that index a list are [nat].
    - A Python [str] is a [string] whose characters are 8-bit code points:
      exactly the strings that [bytes.decode("latin-1")] produces, so that
      [str.encode("latin-1", errors="ignore")] is [list_byte_of_string].
    - A Python [dict] whose iteration order is observed is an association
      list with unique keys kept in insertion order ([PyDict]); a [dict]
      that is only looked up is a [gmap].
    - A raised exception is a value of [exn]; state that was mutated before
      the exception was raised stays mutated. *)

From Stdlib Require Import ZArith List Strings.String Strings.Ascii Strings.Byte.
From Stdlib Require Import Sorting.Sorted Permutation Lia Bool DecimalString.
From stdpp Require Import base option list gmap strings sorting.

Local Open Scope Z_scope.
Local Close Scope string_scope.
Local Open Scope list_scope.

(** ** Python [struct]: little-endian packing of fixed-layout records *)

Module Struct.

(** One item of a format string: [Pad n] is [n] times [x]; [Chars n] is
    [ns]; [UInt w] is an unsigned integer of [w] bytes ([B], [H], [I]). *)
Inductive field : Type :=
| Pad (n : nat)
| Chars (n : nat)
| UInt (w : nat).

Inductive value : Type :=
| VBytes (b : list byte)
| VInt (z : Z).

Definition fmt : Type := list field.

Definition field_size (f : field) : nat :=
  match f with Pad n => n | Chars n => n | UInt w => w end.

Fixpoint calcsize (f : fmt) : nat :=
  match f with
  | [] => 0%nat
  | x :: f' => (field_size x + calcsize f')%nat
  end.

Definition byte_of_Z (z : Z) : byte :=
  match Byte.of_N (Z.to_N (z mod 256)) with
  | Some b => b
  | None => x00
  end.

Definition Z_of_byte (b : byte) : Z := Z.of_N (Byte.to_N b).

(** [w] bytes of [z], least significant first. *)
Fixpoint le_bytes (w : nat) (z : Z) : list byte :=
  match w with
  | O => []
  | S w' => byte_of_Z z :: le_bytes w' (z / 256)
  end.

Fixpoint le_value (bs : list byte) : Z :=
  match bs with
  | [] => 0
  | b :: r => Z_of_byte b + 256 * le_value r
  end.

(** [struct.pack] of an [ns] field: truncated or NUL-padded to [n]. *)
Definition pad_to (n : nat) (b : list byte) : list byte :=
  take n b ++ replicate (n - length b) x00.

Definition in_range (w : nat) (z : Z) : bool :=
  (0 <=? z) && (z <? 256 ^ Z.of_nat w).

(** [struct.pack]: [None] is [struct.error] (wrong arity, wrong kind of
    argument, or an integer outside the field's range). *)
Fixpoint pack (f : fmt) (vs : list value) : option (list byte) :=
  match f with
  | [] => match vs with [] => Some [] | _ => None end
  | Pad n :: f' => app (replicate n x00) <$> pack f' vs
  | Chars n :: f' =>
      match vs with
      | VBytes b :: vs' => app (pad_to n b) <$> pack f' vs'
      | _ => None
      end
  | UInt w :: f' =>
      match vs with
      | VInt z :: vs' =>
          if in_range w z then app (le_bytes w z) <$> pack f' vs' else None
      | _ => None
      end
  end.

(** [struct.unpack] on a buffer of exactly [calcsize f] bytes. *)
Fixpoint unpack (f : fmt) (bs : list byte) : list value :=
  match f with
  | [] => []
  | Pad n :: f' => unpack f' (drop n bs)
  | Chars n :: f' => VBytes (take n bs) :: unpack f' (drop n bs)
  | UInt w :: f' => VInt (le_value (take w bs)) :: unpack f' (drop w bs)
  end.

(** [struct.unpack_from(f, buf, off)]: [None] is [struct.error], raised when
    fewer than [calcsize f] bytes remain at [off]. *)
Definition unpack_from (f : fmt) (buf : list byte) (off : nat) : option (list value) :=
  let s := take (calcsize f) (drop off buf) in
  if decide (length s = calcsize f) then Some (unpack f s) else None.

(** What [unpack] returns for what [pack] was given: [ns] arguments come
    back padded. *)
Fixpoint canon (f : fmt) (vs : list value) : list value :=
  match f with
  | [] => []
  | Pad n :: f' => canon f' vs
  | Chars n :: f' =>
      match vs with
      | VBytes b :: vs' => VBytes (pad_to n b) :: canon f' vs'
      | _ => []
      end
  | UInt w :: f' =>
      match vs with
      | VInt z :: vs' => VInt z :: canon f' vs'
      | _ => []
      end
  end.

Lemma Z_of_byte_range (b : byte) : 0 <= Z_of_byte b < 256.
Proof.
  unfold Z_of_byte. pose proof (Byte.to_N_bounded b). lia.
Qed.

Lemma Z_of_byte_of_Z (z : Z) : Z_of_byte (byte_of_Z z) = z mod 256.
Proof.
  unfold byte_of_Z, Z_of_byte.
  assert (Hr : 0 <= z mod 256 < 256) by (apply Z.mod_pos_bound; lia).
  destruct (Byte.of_N (Z.to_N (z mod 256))) as [b|] eqn:E.
  - apply Byte.to_of_N in E. rewrite E. lia.
  - apply Byte.of_N_None_iff in E. lia.
Qed.

Lemma byte_of_Z_of_byte (b : byte) : byte_of_Z (Z_of_byte b) = b.
Proof.
  unfold byte_of_Z. pose proof (Z_of_byte_range b) as Hr.
  rewrite Z.mod_small by lia. unfold Z_of_byte. rewrite N2Z.id.
  now rewrite Byte.of_to_N.
Qed.

Lemma length_le_bytes (w : nat) (z : Z) : length (le_bytes w z) = w.
Proof. revert z; induction w as [|w IH]; intros z; simpl; [done|]. now rewrite IH. Qed.

Lemma le_value_le_bytes (w : nat) (z : Z) :
  0 <= z < 256 ^ Z.of_nat w -> le_value (le_bytes w z) = z.
Proof.
  revert z; induction w as [|w IH]; intros z Hz.
  - simpl in *. lia.
  - cbn [le_bytes le_value]. rewrite Z_of_byte_of_Z.
    rewrite Nat2Z.inj_succ, Z.pow_succ_r in Hz by lia.
    rewrite IH.
    + pose proof (Z.div_mod z 256). lia.
    + split; [apply Z.div_pos; lia|].
      apply Z.div_lt_upper_bound; lia.
Qed.

Lemma in_range_spec (w : nat) (z : Z) :
  in_range w z = true <-> 0 <= z < 256 ^ Z.of_nat w.
Proof. unfold in_range. rewrite andb_true_iff, Z.leb_le, Z.ltb_lt. tauto. Qed.

Lemma length_pad_to (n : nat) (b : list byte) : length (pad_to n b) = n.
Proof.
  unfold pad_to. rewrite length_app, length_take, length_replicate. lia.
Qed.

Lemma pad_to_exact (n : nat) (b : list byte) : length b = n -> pad_to n b = b.
Proof.
  intros <-. unfold pad_to. rewrite take_ge by lia.
  rewrite Nat.sub_diag. simpl. apply app_nil_r.
Qed.

Lemma length_pack (f : fmt) : forall vs bs, pack f vs = Some bs -> length bs = calcsize f.
Proof.
  induction f as [|x f IH]; intros vs bs H; simpl in *.
  - destruct vs; naive_solver.
  - destruct x as [n|n|w].
    + destruct (pack f vs) as [r|] eqn:E; simplify_eq/=.
      rewrite length_app, length_replicate. erewrite IH; eauto.
    + destruct vs as [|[b|z] vs']; try done.
      destruct (pack f vs') as [r|] eqn:E; simplify_eq/=.
      rewrite length_app, length_pad_to. erewrite IH; eauto.
    + destruct vs as [|[b|z] vs']; try done.
      destruct (in_range w z); try done.
      destruct (pack f vs') as [r|] eqn:E; simplify_eq/=.
      rewrite length_app, length_le_bytes. erewrite IH; eauto.
Qed.

Lemma unpack_pack (f : fmt) :
  forall vs bs rest, pack f vs = Some bs -> unpack f (bs ++ rest) = canon f vs.
Proof.
  induction f as [|x f IH]; intros vs bs rest H; simpl in *; [done|].
  destruct x as [n|n|w].
  - destruct (pack f vs) as [r|] eqn:E; simplify_eq/=.
    rewrite <- app_assoc.
    rewrite drop_app_length' by now rewrite length_replicate. eauto.
  - destruct vs as [|[b|z] vs']; try done.
    destruct (pack f vs') as [r|] eqn:E; simplify_eq/=.
    rewrite <- app_assoc.
    rewrite take_app_length' by now rewrite length_pad_to.
    rewrite drop_app_length' by now rewrite length_pad_to.
    f_equal. eauto.
  - destruct vs as [|[b|z] vs']; try done.
    destruct (in_range w z) eqn:Hr; try done.
    destruct (pack f vs') as [r|] eqn:E; simplify_eq/=.
    rewrite <- app_assoc.
    rewrite take_app_length' by now rewrite length_le_bytes.
    rewrite drop_app_length' by now rewrite length_le_bytes.
    rewrite le_value_le_bytes by now apply in_range_spec.
    f_equal. eauto.
Qed.

(** Reading back, at its own offset, a record that was packed into a
    larger buffer. *)
Lemma unpack_from_pack (f : fmt) (vs : list value) (bs pre post : list byte) :
  pack f vs = Some bs ->
  unpack_from f (pre ++ bs ++ post) (length pre) = Some (canon f vs).
Proof.
  intros H. unfold unpack_from.
  rewrite drop_app_length.
  pose proof (length_pack _ _ _ H) as Hl.
  rewrite take_app_length' by done.
  rewrite decide_True by done.
  f_equal. rewrite <- (app_nil_r bs). eapply unpack_pack; eauto.
Qed.

End Struct.

#[global] Instance byte_eq_decision : EqDecision byte := Byte.byte_eq_dec.

(** ** Exceptions *)

Inductive exn : Type :=
| RuntimeError
| KeyError
| ValueError
| StructError
| OSError
| CorruptionError.

Inductive result (A : Type) : Type :=
| Ok (a : A)
| Raise (e : exn).

Arguments Ok {A} a.
Arguments Raise {A} e.

Definition rbind {A B : Type} (m : result A) (k : A -> result B) : result B :=
  match m with
  | Ok a => k a
  | Raise e => Raise e
  end.

Notation "'let*' x ':=' m 'in' k" := (rbind m (fun x => k))
  (at level 10, x pattern, m at level 100, k at level 200).

(** [struct.pack] inside the writer: a failure is [struct.error]. *)
Definition rpack (f : Struct.fmt) (vs : list Struct.value) : result (list byte) :=
  match Struct.pack f vs with
  | Some b => Ok b
  | None => Raise StructError
  end.

(** ** Insertion-ordered dictionaries *)

Module PyDict.

Section Ops.
Context {K V : Type} `{EqDecision K}.

Fixpoint get (k : K) (d : list (K * V)) : option V :=
  match d with
  | [] => None
  | (k', v) :: r => if decide (k = k') then Some v else get k r
  end.

(** [d[k] = v]: an existing key keeps its position. *)
Fixpoint set (k : K) (v : V) (d : list (K * V)) : list (K * V) :=
  match d with
  | [] => [(k, v)]
  | (k', v') :: r =>
      if decide (k = k') then (k, v) :: r else (k', v') :: set k v r
  end.

(** [del d[k]] for a key that is present. *)
Fixpoint del (k : K) (d : list (K * V)) : list (K * V) :=
  match d with
  | [] => []
  | (k', v') :: r => if decide (k = k') then r else (k', v') :: del k r
  end.

Definition keys (d : list (K * V)) : list K := d.*1.

Definition values (d : list (K * V)) : list V := d.*2.

Definition mem (k : K) (d : list (K * V)) : bool :=
  match get k d with Some _ => true | None => false end.

End Ops.

End PyDict.

(** ** The archive *)

(** [datetime.date] and [datetime.time] values. *)
Record Date : Type := mkDate { year : Z; month : Z; day : Z }.
Record Time : Type := mkTime { hour : Z; minute : Z; second : Z }.

(** A [cabarchive.CabFile] as this code reads it: the payload, the date and
    time, the value [_attr_encode()] returns, and the [_filename_win32]
    property. *)
Record CabFile : Type := mkCabFile {
  buf : option (list byte);
  date : option Date;
  time : option Time;
  attr : Z;
  filename_win32 : option string
}.

(** [cab_file.buf or b""] *)
Definition buf_or_empty (f : CabFile) : list byte :=
  match buf f with
  | Some b => b
  | None => []
  end.

(** [len(cab_file)]: the length of the payload. *)
Definition cabfile_len (f : CabFile) : Z := Z.of_nat (length (buf_or_empty f)).

(** Modelled from the spec: [CabFile._date_encode] and [_time_encode] of the
    cabarchive package, "modification date/time packed in MS-DOS format
    (date: 16-bit YMD, time: 16-bit HMS/2)". A file without a date or a
    time encodes as 0. *)
Definition _date_encode (f : CabFile) : Z :=
  match date f with
  | Some d => Z.shiftl (year d - 1980) 9 + Z.shiftl (month d) 5 + day d
  | None => 0
  end.

Definition _time_encode (f : CabFile) : Z :=
  match time f with
  | Some t => Z.shiftl (hour t) 11 + Z.shiftl (minute t) 5 + second t / 2
  | None => 0
  end.

Definition _attr_encode (f : CabFile) : Z := attr f.

(** A [cabarchive.CabArchive]: a [dict] from source name to [CabFile], in
    insertion order, with the cabinet's [set_id]. *)
Record CabArchive : Type := mkCabArchive {
  files : list (string * CabFile);
  set_id_of : Z
}.

Definition archive_keys (a : CabArchive) : list string := PyDict.keys (files a).

(** [archive[name]]: [KeyError] for a missing name. *)
Definition archive_item (a : CabArchive) (name : string) : result CabFile :=
  match PyDict.get name (files a) with
  | Some f => Ok f
  | None => Raise KeyError
  end.

(** ** [ce_cab_writer.py] *)

Record CabLayoutTemplate : Type := mkTemplate {
  set_id : Z;
  cb_cfheader : nat;
  cb_cffolder : nat;
  cb_cfdata : nat;
  header_reserve : list byte;
  folder_reserves : list (list byte);
  file_order : list string;
  file_folders : gmap string Z
}.

Record _FolderBuild : Type := mkFolderBuild {
  folder_key : Z;
  names : list string;
  reserve : list byte;
  blocks : list (list byte * nat)
}.

(** Modelled from the spec: the record formats [FMT_CFHEADER],
    [FMT_CFHEADER_RESERVE], [FMT_CFFOLDER], [FMT_CFFILE] and [FMT_CFDATA] of
    [cabarchive.utils], little-endian: "CFHEADER (signature, size,
    off-files, vMinor, vMajor, nFolders, nFiles, flags, setID, iCabinet);
    CFHEADER_RESERVE triple (u16 cfheader, u8 cffolder, u8 cfdata);
    CFFOLDER (u32 coffCabStart, u16 cCFData, u16 typeCompress); CFFILE (u32
    cbFile, u32 uoffFolderStart, u16 iFolder, u16 date, u16 time, u16
    attribs); CFDATA (u32 csum, u16 cbData, u16 cbUncomp)". The CFHEADER
    fields have the widths of the CAB format, with its three reserved
    words as padding. *)
Definition FMT_CFHEADER : Struct.fmt :=
  [Struct.Chars 4; Struct.Pad 4; Struct.UInt 4; Struct.Pad 4; Struct.UInt 4;
   Struct.Pad 4; Struct.UInt 1; Struct.UInt 1; Struct.UInt 2; Struct.UInt 2;
   Struct.UInt 2; Struct.UInt 2; Struct.UInt 2].

Definition FMT_CFHEADER_RESERVE : Struct.fmt :=
  [Struct.UInt 2; Struct.UInt 1; Struct.UInt 1].

Definition FMT_CFFOLDER : Struct.fmt :=
  [Struct.UInt 4; Struct.UInt 2; Struct.UInt 2].

Definition FMT_CFFILE : Struct.fmt :=
  [Struct.UInt 4; Struct.UInt 4; Struct.UInt 2; Struct.UInt 2; Struct.UInt 2;
   Struct.UInt 2].

Definition FMT_CFDATA : Struct.fmt :=
  [Struct.UInt 4; Struct.UInt 2; Struct.UInt 2].

(** The bytes [M S C F]. *)
Definition MSCF : list byte := [x4d; x53; x43; x46].

(** [buf[a:b]] for [0 <= a]. *)
Definition slice (buf : list byte) (a b : nat) : list byte :=
  take (b - a) (drop a buf).

Fixpoint index_of (b : byte) (l : list byte) : option nat :=
  match l with
  | [] => None
  | x :: r => if decide (x = b) then Some 0%nat else S <$> index_of b r
  end.

(** [buf.find(bytes([b]), start)]; [None] is the result -1. *)
Definition bytes_find (b : byte) (buf : list byte) (start : nat) : option nat :=
  (fun i => (start + i)%nat) <$> index_of b (drop start buf).

(** The folder-table loop of [parse_cab_layout]. *)
Fixpoint parse_folders (n : nat) (buf : list byte) (cb_cffolder : nat)
    (offset : nat) (folder_reserves : list (list byte)) : option (list (list byte)) :=
  match n with
  | O => Some folder_reserves
  | S n' =>
      match Struct.unpack_from FMT_CFFOLDER buf offset with
      | None => None
      | Some _ =>
          let offset := (offset + Struct.calcsize FMT_CFFOLDER)%nat in
          let reserve :=
            if decide (cb_cffolder = 0%nat) then []
            else slice buf offset (offset + cb_cffolder) in
          parse_folders n' buf cb_cffolder (offset + cb_cffolder)
            (folder_reserves ++ [reserve])
      end
  end.

(** The file-table loop of [parse_cab_layout]. *)
Fixpoint parse_files (n : nat) (buf : list byte) (offset : nat)
    (file_order : list string) (file_folders : gmap string Z)
    : option (list string * gmap string Z) :=
  match n with
  | O => Some (file_order, file_folders)
  | S n' =>
      match Struct.unpack_from FMT_CFFILE buf offset with
      | Some [Struct.VInt _usize; Struct.VInt _uoff; Struct.VInt folder_idx;
              Struct.VInt _date; Struct.VInt _time; Struct.VInt _attr] =>
          let offset := (offset + Struct.calcsize FMT_CFFILE)%nat in
          match bytes_find x00 buf offset with
          | None => None
          | Some end_ =>
              let name := string_of_list_byte (slice buf offset end_) in
              parse_files n' buf (end_ + 1)
                (file_order ++ [name]) (<[name := folder_idx]> file_folders)
          end
      | _ => None
      end
  end.

(** The optional reserve descriptor and header reserve:
    [(cb_cfheader, cb_cffolder, cb_cfdata, header_reserve, offset)]. *)
Definition parse_reserve (buf : list byte) (flags : Z) (offset : nat)
    : option (nat * nat * nat * list byte * nat) :=
  if decide (Z.land flags 4 = 0) then Some (0, 0, 0, [], offset)%nat
  else
    match Struct.unpack_from FMT_CFHEADER_RESERVE buf offset with
    | Some [Struct.VInt h; Struct.VInt f; Struct.VInt d] =>
        let offset := (offset + Struct.calcsize FMT_CFHEADER_RESERVE)%nat in
        let cb := Z.to_nat h in
        Some (cb, Z.to_nat f, Z.to_nat d, slice buf offset (offset + cb),
              (offset + cb)%nat)
    | _ => None
    end.

Definition parse_cab_layout (buf : list byte) : option CabLayoutTemplate :=
  match Struct.unpack_from FMT_CFHEADER buf 0 with
  | Some [Struct.VBytes sig; Struct.VInt _cab_size; Struct.VInt off_cffile;
          Struct.VInt _ver_minor; Struct.VInt _ver_major;
          Struct.VInt nr_folders; Struct.VInt nr_files; Struct.VInt flags;
          Struct.VInt set_id; Struct.VInt _idx_cab] =>
      if decide (sig = MSCF) then
        match parse_reserve buf flags (Struct.calcsize FMT_CFHEADER) with
        | None => None
        | Some (cb_cfheader, cb_cffolder, cb_cfdata, header_reserve, offset) =>
            match parse_folders (Z.to_nat nr_folders) buf cb_cffolder offset [] with
            | None => None
            | Some folder_reserves =>
                match parse_files (Z.to_nat nr_files) buf (Z.to_nat off_cffile) [] ∅ with
                | None => None
                | Some (file_order, file_folders) =>
                    Some (mkTemplate set_id cb_cfheader cb_cffolder cb_cfdata
                            header_reserve folder_reserves file_order file_folders)
                end
            end
        end
      else None
  | _ => None
  end.

(** Modelled from the spec: [_chunkify] of [cabarchive.utils], "Split into
    32 768-byte uncompressed chunks (last chunk may be short)": the
    successive slices [arr[i : i + size]] for [i] in
    [range(0, len(arr), size)]; no chunk for an empty input. The loop runs
    at most [len(arr)] times, which is the fuel given to it. *)
Fixpoint chunkify_loop (fuel : nat) (arr : list byte) (size : nat) : list (list byte) :=
  match fuel with
  | O => []
  | S fuel' =>
      match arr with
      | [] => []
      | _ :: _ => take size arr :: chunkify_loop fuel' (drop size arr) size
      end
  end.

Definition _chunkify (arr : list byte) (size : nat) : list (list byte) :=
  chunkify_loop (length arr) arr size.

(** [0x8000] *)
Definition CHUNK_SIZE : nat := Z.to_nat 32768.

(** The bytes [C K]. *)
Definition CK : list byte := [x43; x4b].

(** [sorted(names)] on strings: ascending by code points. *)
Definition sorted (l : list string) : list string := merge_sort String.le l.

(** [max(d.values(), default=-1)] *)
Definition max_values (d : gmap string Z) : Z :=
  match (map_to_list d).*2 with
  | [] => -1
  | v :: vs => foldl Z.max v vs
  end.

(** [d[name]] on a dictionary built inside the writer. *)
Definition dict_item (d : gmap string Z) (name : string) : result Z :=
  match d !! name with
  | Some v => Ok v
  | None => Raise KeyError
  end.

Section Writer.

(** The order in which Python iterates over the [set] of names that a call
    of [_order_names] is left with. CPython derives it from the hashes of
    the strings, which change from one process to the next, and from the
    way the set was filled: it is a parameter of the call. *)
Variable set_iteration : gset string -> list string.

(** [zlib.compressobj(9, zlib.DEFLATED, -zlib.MAX_WBITS)]: [compress(plain)]
    followed by [flush()]. *)
Variable deflate : list byte -> list byte.

(** [_checksum_compute(data, seed)] of [cabarchive.utils]. *)
Variable _checksum_compute : list byte -> Z -> Z.

(** The loop of [_order_names] over [template.file_order]. *)
Fixpoint order_loop (file_order : list string) (ordered : list string)
    (names : gset string) : list string * gset string :=
  match file_order with
  | [] => (ordered, names)
  | name :: rest =>
      if decide (name ∈ names)
      then order_loop rest (ordered ++ [name]) (names ∖ {[name]})
      else order_loop rest ordered names
  end.

Definition _order_names (archive : CabArchive)
    (template : option CabLayoutTemplate) (sort : bool) : list string :=
  let names : gset string := list_to_set (archive_keys archive) in
  let '(ordered, names) :=
    match template with
    | Some t => order_loop (file_order t) [] names
    | None => ([], names)
    end in
  let extras := if sort then sorted (set_iteration names) else set_iteration names in
  ordered ++ extras.

(** [keyed.setdefault(key, []).append(name)] *)
Definition keyed_append (key : Z) (name : string)
    (keyed : list (Z * list string)) : list (Z * list string) :=
  match PyDict.get key keyed with
  | Some l => PyDict.set key (l ++ [name]) keyed
  | None => PyDict.set key [name] keyed
  end.

(** The first loop of [_build_folders]. *)
Fixpoint assign_keys (ordered_names : list string) (file_folders : gmap string Z)
    (next_key : Z) (keyed : list (Z * list string)) : list (Z * list string) :=
  match ordered_names with
  | [] => keyed
  | name :: rest =>
      match file_folders !! name with
      | Some key => assign_keys rest file_folders next_key (keyed_append key name keyed)
      | None =>
          assign_keys rest file_folders (next_key + 1) (keyed_append next_key name keyed)
      end
  end.

(** The reserve of the folder with key [key]. *)
Definition folder_reserve (template : CabLayoutTemplate) (key : Z) : list byte :=
  let cb := cb_cffolder template in
  let reserve := replicate cb x00 in
  let reserve :=
    if (0 <=? key) && (key <? Z.of_nat (length (folder_reserves template)))
    then default reserve (folder_reserves template !! Z.to_nat key)
    else reserve in
  let reserve :=
    if (length reserve <? cb)%nat
    then reserve ++ replicate (cb - length reserve) x00
    else reserve in
  take cb reserve.

(** [b"".join((archive[name].buf or b"") for name in names)] *)
Fixpoint join_payloads (archive : CabArchive) (names : list string) : result (list byte) :=
  match names with
  | [] => Ok []
  | name :: rest =>
      let* f := archive_item archive name in
      let* tail := join_payloads archive rest in
      Ok (buf_or_empty f ++ tail)
  end.

Definition encode_block (compress : bool) (chunk : list byte) : list byte * nat :=
  let plain := chunk in
  let encoded := if compress then CK ++ deflate plain else plain in
  (encoded, length plain).

Definition build_folder (archive : CabArchive) (template : CabLayoutTemplate)
    (compress : bool) (key : Z) (names : list string) : result _FolderBuild :=
  let reserve := folder_reserve template key in
  let* raw := join_payloads archive names in
  let chunks := _chunkify raw CHUNK_SIZE in
  let chunks := match chunks with [] => [[]] | _ => chunks end in
  let blocks := map (encode_block compress) chunks in
  Ok (mkFolderBuild key names reserve blocks).

(** The second loop of [_build_folders], over [keyed.keys()]. *)
Fixpoint build_folders_loop (archive : CabArchive) (template : CabLayoutTemplate)
    (compress : bool) (keyed : list (Z * list string)) : result (list _FolderBuild) :=
  match keyed with
  | [] => Ok []
  | (key, names) :: rest =>
      let* fb := build_folder archive template compress key names in
      let* out := build_folders_loop archive template compress rest in
      Ok (fb :: out)
  end.

Definition _build_folders (archive : CabArchive) (ordered_names : list string)
    (template : CabLayoutTemplate) (compress : bool) : result (list _FolderBuild) :=
  let max_existing := max_values (file_folders template) in
  let next_key := max_existing + 1 in
  let keyed := assign_keys ordered_names (file_folders template) next_key [] in
  build_folders_loop archive template compress keyed.

(** The inner loop of [_build_uncompressed_offsets]. *)
Fixpoint offsets_in_folder (archive : CabArchive) (names : list string)
    (offset : Z) (offsets : gmap string Z) : result (gmap string Z) :=
  match names with
  | [] => Ok offsets
  | name :: rest =>
      let offsets := <[name := offset]> offsets in
      let* f := archive_item archive name in
      offsets_in_folder archive rest (offset + cabfile_len f) offsets
  end.

Fixpoint offsets_loop (archive : CabArchive) (folders : list _FolderBuild)
    (offsets : gmap string Z) : result (gmap string Z) :=
  match folders with
  | [] => Ok offsets
  | folder :: rest =>
      let* offsets := offsets_in_folder archive (names folder) 0 offsets in
      offsets_loop archive rest offsets
  end.

Definition _build_uncompressed_offsets (archive : CabArchive)
    (folders : list _FolderBuild) : result (gmap string Z) :=
  offsets_loop archive folders ∅.

(** The loop of [build_ce_cab_bytes] that fills [folder_index_by_name],
    from index [idx] on. *)
Fixpoint folder_index_loop (idx : nat) (folder_builds : list _FolderBuild)
    (m : gmap string Z) : gmap string Z :=
  match folder_builds with
  | [] => m
  | folder :: rest =>
      folder_index_loop (S idx) rest
        (foldl (fun m name => <[name := Z.of_nat idx]> m) m (names folder))
  end.

(** [getattr(cab_file, "_filename_win32", None) or name] *)
Definition wire_name (cab_file : CabFile) (name : string) : string :=
  match filename_win32 cab_file with
  | Some f => if decide (f = EmptyString) then name else f
  | None => name
  end.

Fixpoint _build_cffile_blob (archive : CabArchive) (ordered_names : list string)
    (offsets_by_name : gmap string Z) (folder_index_by_name : gmap string Z)
    : result (list byte) :=
  match ordered_names with
  | [] => Ok []
  | name :: rest =>
      let* cab_file := archive_item archive name in
      let filename := wire_name cab_file name in
      let encoded_name := list_byte_of_string filename in
      let* off := dict_item offsets_by_name name in
      let* idx := dict_item folder_index_by_name name in
      let* rec := rpack FMT_CFFILE
        [Struct.VInt (cabfile_len cab_file); Struct.VInt off; Struct.VInt idx;
         Struct.VInt (_date_encode cab_file); Struct.VInt (_time_encode cab_file);
         Struct.VInt (_attr_encode cab_file)] in
      let* tail := _build_cffile_blob archive rest offsets_by_name folder_index_by_name in
      Ok (rec ++ (encoded_name ++ [x00]) ++ tail)
  end.

(** The inner loop of [_build_folder_and_data_blobs]: the data bytes of one
    folder and their number. *)
Fixpoint data_blocks_loop (blocks : list (list byte * nat)) (cb_cfdata : nat)
    : result (list byte * nat) :=
  match blocks with
  | [] => Ok ([], 0%nat)
  | (encoded, plain_size) :: rest =>
      let checksum := _checksum_compute encoded 0 in
      let* hdr := rpack [Struct.UInt 2; Struct.UInt 2]
        [Struct.VInt (Z.of_nat (length encoded)); Struct.VInt (Z.of_nat plain_size)] in
      let checksum := _checksum_compute hdr checksum in
      let* rec := rpack FMT_CFDATA
        [Struct.VInt checksum; Struct.VInt (Z.of_nat (length encoded));
         Struct.VInt (Z.of_nat plain_size)] in
      let pad := if decide (cb_cfdata = 0%nat) then [] else replicate cb_cfdata x00 in
      let* (tail, block_bytes) := data_blocks_loop rest cb_cfdata in
      Ok (rec ++ pad ++ encoded ++ tail,
          (Struct.calcsize FMT_CFDATA + cb_cfdata + length encoded + block_bytes)%nat)
  end.

Fixpoint folder_and_data_loop (folder_builds : list _FolderBuild) (cursor : nat)
    (cb_cffolder cb_cfdata : nat) (compress : bool) : result (list byte * list byte) :=
  match folder_builds with
  | [] => Ok ([], [])
  | folder :: rest =>
      let* (data, block_bytes) := data_blocks_loop (blocks folder) cb_cfdata in
      let compression_type := if compress then 1 else 0 in
      let* rec := rpack FMT_CFFOLDER
        [Struct.VInt (Z.of_nat cursor); Struct.VInt (Z.of_nat (length (blocks folder)));
         Struct.VInt compression_type] in
      let res := if decide (cb_cffolder = 0%nat) then [] else reserve folder in
      let* (folder_tail, data_tail) :=
        folder_and_data_loop rest (cursor + block_bytes) cb_cffolder cb_cfdata compress in
      Ok (rec ++ res ++ folder_tail, data ++ data_tail)
  end.

Definition _build_folder_and_data_blobs (folder_builds : list _FolderBuild)
    (cfdata_start : nat) (cb_cffolder cb_cfdata : nat) (compress : bool)
    : result (list byte * list byte) :=
  folder_and_data_loop folder_builds cfdata_start cb_cffolder cb_cfdata compress.

(** The template [build_ce_cab_bytes] makes when it is given none. *)
Definition default_template (archive : CabArchive) : CabLayoutTemplate :=
  mkTemplate (set_id_of archive) 0 0 0 [] [] [] ∅.

Definition use_reserve_of (template : CabLayoutTemplate) : bool :=
  negb (Nat.eqb (cb_cfheader template) 0) || negb (Nat.eqb (cb_cffolder template) 0)
  || negb (Nat.eqb (cb_cfdata template) 0)
  || negb (Nat.eqb (length (header_reserve template)) 0).

Definition build_ce_cab_bytes (archive : CabArchive) (compress : bool)
    (template : option CabLayoutTemplate) (sort : bool) : result (list byte) :=
  let ordered_names := _order_names archive template sort in
  match ordered_names with
  | [] => Raise ValueError
  | _ :: _ =>
  let template := match template with Some t => t | None => default_template archive end in
  let use_reserve := use_reserve_of template in
  let flags := if use_reserve then 4 else 0 in
  let* folder_builds := _build_folders archive ordered_names template compress in
  let folder_count := length folder_builds in
  match folder_count with
  | O => Raise ValueError
  | S _ =>
  let header_size :=
    (Struct.calcsize FMT_CFHEADER +
     (if use_reserve
      then Struct.calcsize FMT_CFHEADER_RESERVE + cb_cfheader template else 0))%nat in
  let folder_table_size :=
    (folder_count * (Struct.calcsize FMT_CFFOLDER + cb_cffolder template))%nat in
  let coff_files := (header_size + folder_table_size)%nat in
  let folder_index_by_name := folder_index_loop 0 folder_builds ∅ in
  let* offsets_by_name := _build_uncompressed_offsets archive folder_builds in
  let* cffile_blob :=
    _build_cffile_blob archive ordered_names offsets_by_name folder_index_by_name in
  let cfdata_start := (coff_files + length cffile_blob)%nat in
  let* (cffolder_blob, cfdata_blob) :=
    _build_folder_and_data_blobs folder_builds cfdata_start
      (cb_cffolder template) (cb_cfdata template) compress in
  let cabinet_size :=
    (header_size + length cffolder_blob + length cffile_blob + length cfdata_blob)%nat in
  let* header := rpack FMT_CFHEADER
    [Struct.VBytes MSCF; Struct.VInt (Z.of_nat cabinet_size);
     Struct.VInt (Z.of_nat coff_files); Struct.VInt 3; Struct.VInt 1;
     Struct.VInt (Z.of_nat folder_count);
     Struct.VInt (Z.of_nat (length ordered_names)); Struct.VInt flags;
     Struct.VInt (set_id template); Struct.VInt 0] in
  let* reserve_blocks :=
    if use_reserve then
      let* descr := rpack FMT_CFHEADER_RESERVE
        [Struct.VInt (Z.of_nat (cb_cfheader template));
         Struct.VInt (Z.of_nat (cb_cffolder template));
         Struct.VInt (Z.of_nat (cb_cfdata template))] in
      let reserve := take (cb_cfheader template) (header_reserve template) in
      let reserve :=
        if (length reserve <? cb_cfheader template)%nat
        then reserve ++ replicate (cb_cfheader template - length reserve) x00
        else reserve in
      Ok (descr ++ reserve)
    else Ok [] in
  Ok (header ++ reserve_blocks ++ cffolder_blob ++ cffile_blob ++ cfdata_blob)
  end
  end.

End Writer.

(** ** [xml.etree.ElementTree] elements and the paths the editor uses *)

Module Xml.

(** An element: its tag, its attribute dictionary and its children. The
    tree is mutable in the source; here every mutation returns the new
    tree. *)
#[local] Unset Elimination Schemes.
Inductive Element : Type :=
| Elem (tag : string) (attrib : list (string * string)) (children : list Element).

#[local] Set Elimination Schemes.

Definition tag (e : Element) : string := match e with Elem t _ _ => t end.
Definition attrib (e : Element) : list (string * string) :=
  match e with Elem _ a _ => a end.
Definition children (e : Element) : list Element :=
  match e with Elem _ _ c => c end.

(** [e.attrib.get(name, "")] *)
Definition attr_get (name : string) (e : Element) : string :=
  match PyDict.get name (attrib e) with
  | Some v => v
  | None => EmptyString
  end.

(** [e.set(name, v)] *)
Definition attr_set (name v : string) (e : Element) : Element :=
  Elem (tag e) (PyDict.set name v (attrib e)) (children e).

Definition with_children (e : Element) (c : list Element) : Element :=
  Elem (tag e) (attrib e) c.

(** The path step [tag[@name='v']]: an element with this tag whose
    attribute [name] is present and equal to [v]. *)
Definition step_matches (t name v : string) (e : Element) : bool :=
  bool_decide (tag e = t) && bool_decide (PyDict.get name (attrib e) = Some v).

Definition is_characteristic (e : Element) : bool :=
  bool_decide (tag e = "characteristic").

(** [e.find("./characteristic[@type='v']")] *)
Definition find_characteristic (v : string) (e : Element) : option Element :=
  head (filter (fun c => step_matches "characteristic" "type" v c) (children e)).

(** [e.findall("./characteristic")] *)
Definition child_characteristics (e : Element) : list Element :=
  filter (fun c => is_characteristic c) (children e).

(** [e.findall(".//characteristic")]: the descendants of [e] with this tag,
    in document order. *)
Fixpoint descendant_characteristics (e : Element) : list Element :=
  match e with
  | Elem _ _ cs =>
      (fix go (l : list Element) : list Element :=
         match l with
         | [] => []
         | c :: r =>
             (if is_characteristic c then [c] else [])
               ++ descendant_characteristics c ++ go r
         end) cs
  end.

(** [e.find("./characteristic[@type='t']/parm[@name='n']")] *)
Definition find_parm (t n : string) (e : Element) : option Element :=
  head (flat_map
          (fun c => filter (fun p => step_matches "parm" "name" n p) (children c))
          (filter (fun c => step_matches "characteristic" "type" t c) (children e))).

(** [file_node.find("./characteristic[@type='Extract']/parm[@name='Source']")] *)
Definition find_extract (file_node : Element) : option Element :=
  find_parm "Extract" "Source" file_node.

(** Replace, in a list of children, the first one that satisfies [P] by
    what [f] makes of it; [None] when no child satisfies [P] or [f] has
    nothing to change in that child. *)
Fixpoint update_first (P : Element -> bool) (f : Element -> option Element)
    (l : list Element) : option (list Element) :=
  match l with
  | [] => None
  | x :: r =>
      if P x then (fun x' => x' :: r) <$> f x
      else cons x <$> update_first P f r
  end.

(** Apply [f] to the first child on which it succeeds. *)
Fixpoint update_first_success (f : Element -> option Element)
    (l : list Element) : option (list Element) :=
  match l with
  | [] => None
  | x :: r =>
      match f x with
      | Some x' => Some (x' :: r)
      | None => cons x <$> update_first_success f r
      end
  end.

(** [parent.remove(child)] for the first child that satisfies [P]. *)
Fixpoint remove_first (P : Element -> bool) (l : list Element) : option (list Element) :=
  match l with
  | [] => None
  | x :: r => if P x then Some r else cons x <$> remove_first P r
  end.

End Xml.

(** ** [cab_editor.py] *)

Record CabRecord : Type := mkCabRecord {
  display_name : string;
  source_name : string;
  size : nat;
  modified : string;
  parent_type : string
}.

(** A reading of [dt.datetime.now()]. *)
Record DateTime : Type := mkDateTime { dt_date : Date; dt_time : Time }.

(** What the editor calls outside this repository's modules: string and
    path methods, ElementTree's parser and serializer, the cabarchive
    package, the file system and the signature probe. *)
Record Externals : Type := mkExternals {
  (** [s.lower()], [s.upper()], [s.strip()], [ch.isalnum()] *)
  lower : string -> string;
  upper : string -> string;
  strip : string -> string;
  isalnum : ascii -> bool;
  (** [Path(s).name], [Path(s).stem], [Path(s).suffix] *)
  path_name : string -> string;
  path_stem : string -> string;
  path_suffix : string -> string;
  (** [werkzeug.utils.secure_filename] *)
  secure_filename : string -> string;
  (** [ET.tostring(root, encoding="utf-8")] *)
  tostring : Xml.Element -> list byte;
  (** [ET.fromstring(raw.decode(encoding))]; [None] when either raises *)
  decode_fromstring : string -> list byte -> option Xml.Element;
  (** [str(date)] and [time.strftime('%H:%M:%S')] *)
  date_str : Date -> string;
  time_str : Time -> string;
  (** [int(now.timestamp())] *)
  timestamp : DateTime -> Z;
  (** the attributes of a [CabFile] that was constructed from a payload *)
  default_attr : Z;
  (** [path.read_bytes()] *)
  read_bytes : string -> result (list byte);
  (** [CabArchive(data)] *)
  cab_parse : list byte -> result CabArchive;
  (** [archive.save(compress=c, sort=s)] *)
  cab_save : CabArchive -> bool -> bool -> result (list byte);
  (** [get_signature_status(path)] of [signature.py], which runs a
      subprocess *)
  get_signature_status : string -> result (list (string * string))
}.

Record CabEditor : Type := mkCabEditor {
  path : option string;
  loaded_name : string;
  archive : option CabArchive;
  xml_root : option Xml.Element;
  setup_encoding : string;
  records : list CabRecord;
  directories : list string;
  signature_before : list (string * string)
}.

(** [CabEditor.__init__] *)
Definition new_editor : CabEditor :=
  mkCabEditor None "cabinetforge_output" None None "utf-8" [] [] [].

Definition with_archive (e : CabEditor) (a : option CabArchive) : CabEditor :=
  mkCabEditor (path e) (loaded_name e) a (xml_root e) (setup_encoding e)
    (records e) (directories e) (signature_before e).

Definition with_xml_root (e : CabEditor) (r : option Xml.Element) : CabEditor :=
  mkCabEditor (path e) (loaded_name e) (archive e) r (setup_encoding e)
    (records e) (directories e) (signature_before e).

Definition with_index (e : CabEditor) (recs : list CabRecord) (dirs : list string)
    : CabEditor :=
  mkCabEditor (path e) (loaded_name e) (archive e) (xml_root e) (setup_encoding e)
    recs dirs (signature_before e).

(** [not self.archive]: no archive, or an archive without entries. *)
Definition no_archive (e : CabEditor) : bool :=
  match archive e with
  | None => true
  | Some a => match files a with [] => true | _ :: _ => false end
  end.

(** [archive[name] = f]. The cabarchive package also records the key as
    the name of the file, from which it derives [_filename_win32]; the
    writer reads [_filename_win32 or name], which is the key either way
    unless the key holds a slash. The model leaves [filename_win32] as it
    is. *)
Definition archive_set (a : CabArchive) (name : string) (f : CabFile) : CabArchive :=
  mkCabArchive (PyDict.set name f (files a)) (set_id_of a).

(** [del archive[name]] *)
Definition archive_del (a : CabArchive) (name : string) : CabArchive :=
  mkCabArchive (PyDict.del name (files a)) (set_id_of a).

(** Decimal digits of a natural number and of an integer ([str(n)]). *)
Definition str_of_nat (n : nat) : string := NilZero.string_of_uint (Nat.to_uint n).
Definition str_of_Z (z : Z) : string := NilZero.string_of_int (Z.to_int z).

Definition str_or (s fallback : string) : string :=
  if decide (s = EmptyString) then fallback else s.

(** [s[:n]] on a string *)
Definition str_take (n : nat) (s : string) : string :=
  string_of_list_ascii (take n (list_ascii_of_string s)).

Definition str_filter (P : ascii -> bool) (s : string) : string :=
  string_of_list_ascii (filter (fun c => P c) (list_ascii_of_string s)).

(** [s.startswith("\\")] *)
Definition starts_with_backslash (s : string) : bool :=
  match s with
  | String c _ => bool_decide (c = "\"%char)
  | EmptyString => false
  end.

(** *** The manifest helpers *)

Section Manifest.

Variable X : Externals.

Definition find_fileop (root : Xml.Element) : option Xml.Element :=
  Xml.find_characteristic "FileOperation" root.

Definition is_fileop (e : Xml.Element) : bool :=
  Xml.step_matches "characteristic" "type" "FileOperation" e.

(** The file nodes under one [parent] of [iter_file_nodes]. *)
Definition file_nodes_of (parent : Xml.Element)
    : list (Xml.Element * Xml.Element * Xml.Element) :=
  flat_map
    (fun file_node =>
       match Xml.find_extract file_node with
       | Some extract => [(parent, file_node, extract)]
       | None => []
       end)
    (Xml.child_characteristics parent).

Definition iter_file_nodes (root : Xml.Element)
    : list (Xml.Element * Xml.Element * Xml.Element) :=
  match find_fileop root with
  | None => []
  | Some fileop => flat_map file_nodes_of (Xml.descendant_characteristics fileop)
  end.

(** The test of [remove_xml_file_node] on one child of a parent. *)
Definition source_matches (source_name : string) (file_node : Xml.Element) : bool :=
  Xml.is_characteristic file_node &&
  match Xml.find_extract file_node with
  | None => false
  | Some extract =>
      bool_decide (lower X (Xml.attr_get "value" extract) = lower X source_name)
  end.

(** One [parent] of the outer loop of [remove_xml_file_node]: remove its
    first matching child. *)
Definition remove_under (source_name : string) (parent : Xml.Element)
    : option Xml.Element :=
  if Xml.is_characteristic parent
  then Xml.with_children parent
         <$> Xml.remove_first (source_matches source_name) (Xml.children parent)
  else None.

(** The outer loop of [remove_xml_file_node] over the descendants of [e],
    in document order, as a rebuild of [e]: [None] when no parent has a
    matching child. *)
Fixpoint remove_in_descendants (source_name : string) (e : Xml.Element)
    : option Xml.Element :=
  match e with
  | Xml.Elem t a cs =>
      Xml.Elem t a <$>
      (fix go (l : list Xml.Element) : option (list Xml.Element) :=
         match l with
         | [] => None
         | c :: r =>
             match remove_under source_name c with
             | Some c' => Some (c' :: r)
             | None =>
                 match remove_in_descendants source_name c with
                 | Some c' => Some (c' :: r)
                 | None => cons c <$> go r
                 end
             end
         end) cs
  end.

(** [remove_xml_file_node(root, source_name)]: the tree after the call and
    the value returned. *)
Definition remove_xml_file_node (root : Xml.Element) (source_name : string)
    : Xml.Element * bool :=
  match Xml.update_first is_fileop (remove_in_descendants source_name)
          (Xml.children root) with
  | Some cs => (Xml.with_children root cs, true)
  | None => (root, false)
  end.

(** The element [append_xml_file_node] builds. *)
Definition new_file_node (display_name source_name : string) : Xml.Element :=
  Xml.Elem "characteristic" [("type", display_name); ("translation", "install")]
    [Xml.Elem "characteristic" [("type", "Extract")]
       [Xml.Elem "parm" [("name", "Source"); ("value", source_name)] []]].

(** [append_xml_file_node(parent, display_name, source_name)] *)
Definition append_xml_file_node (parent : Xml.Element)
    (display_name source_name : string) : Xml.Element :=
  Xml.with_children parent
    (Xml.children parent ++ [new_file_node display_name source_name]).

(** The node [resolve_target_parent] returns, as a place below the
    [FileOperation] element: one of its children, or the element itself. *)
Inductive target : Type :=
| TargetChild (i : nat)
| TargetFileop.

(** The index of the first element of [l] that satisfies [P]. *)
Fixpoint index_where (P : Xml.Element -> bool) (l : list Xml.Element) : option nat :=
  match l with
  | [] => None
  | x :: r => if P x then Some 0%nat else S <$> index_where P r
  end.

Definition is_install (e : Xml.Element) : bool :=
  Xml.is_characteristic e &&
  bool_decide (PyDict.get "translation" (Xml.attrib e) = Some "install").

(** [resolve_target_parent(root, directory)]; [None] when the manifest has
    no [FileOperation] element. The source splices [directory] between
    single quotes into the path expression [./characteristic[@type='...']]:
    this is the function for the directories that hold no single quote,
    for which the expression selects the children whose [type] is the
    directory. *)
Definition resolve_target_parent (root : Xml.Element) (directory : string)
    : option target :=
  match find_fileop root with
  | None => None
  | Some fileop =>
      let by_name :=
        if decide (directory = EmptyString) then None
        else index_where (Xml.step_matches "characteristic" "type" directory)
               (Xml.children fileop) in
      match by_name with
      | Some i => Some (TargetChild i)
      | None =>
          match index_where is_install (Xml.children fileop) with
          | Some i => Some (TargetChild i)
          | None => Some TargetFileop
          end
      end
  end.

(** [append_xml_file_node] applied to the node at [tg]. *)
Definition append_at (root : Xml.Element) (tg : target)
    (display_name source_name : string) : Xml.Element :=
  let in_fileop (fileop : Xml.Element) : option Xml.Element :=
    match tg with
    | TargetFileop => Some (append_xml_file_node fileop display_name source_name)
    | TargetChild i =>
        Some (Xml.with_children fileop
                (alter (fun p => append_xml_file_node p display_name source_name) i
                   (Xml.children fileop)))
    end in
  match Xml.update_first is_fileop in_fileop (Xml.children root) with
  | Some cs => Xml.with_children root cs
  | None => root
  end.

(** The [NumFiles] parameter: [root.find("./characteristic[@type='Install']
    /parm[@name='NumFiles']")]. *)
Definition find_numfiles (root : Xml.Element) : option Xml.Element :=
  Xml.find_parm "Install" "NumFiles" root.

(** [parm.set("value", v)] on that parameter, when it exists. *)
Definition set_numfiles (root : Xml.Element) (v : string) : Xml.Element :=
  let in_install (c : Xml.Element) : option Xml.Element :=
    if Xml.step_matches "characteristic" "type" "Install" c
    then Xml.with_children c
           <$> Xml.update_first (Xml.step_matches "parm" "name" "NumFiles")
                 (fun p => Some (Xml.attr_set "value" v p)) (Xml.children c)
    else None in
  match Xml.update_first_success in_install (Xml.children root) with
  | Some cs => Xml.with_children root cs
  | None => root
  end.

End Manifest.

(** *** The editor *)

Section Editor.

Variable X : Externals.

(** [CabFile(payload, mtime=now)] *)
Definition new_CabFile (payload : list byte) (now : DateTime) : CabFile :=
  mkCabFile (Some payload) (Some (dt_date now)) (Some (dt_time now))
    (default_attr X) None.

Definition format_cabfile_time (cab_file : CabFile) : string :=
  match date cab_file with
  | None => EmptyString
  | Some d =>
      match time cab_file with
      | Some t => String.append (date_str X d) (String.append " " (time_str X t))
      | None => date_str X d
      end
  end.

(** The loop of [generate_source_name] over [range(idx, idx + n)]. *)
Fixpoint candidate_loop (n idx : nat) (stem ext : string) (existing_lower : gset string)
    : option string :=
  match n with
  | O => None
  | S n' =>
      let candidate :=
        String.append stem
          (String.append "~" (String.append (str_of_nat idx) (String.append "." ext))) in
      if decide (lower X candidate ∈ existing_lower)
      then candidate_loop n' (S idx) stem ext existing_lower
      else Some candidate
  end.

Definition generate_source_name (now : DateTime) (display_name : string)
    (existing_lower : gset string) : result string :=
  let name := path_name X display_name in
  let stem := str_or (str_filter (isalnum X) (upper X (path_stem X name))) "PYFILE" in
  let ext :=
    str_filter (isalnum X)
      (upper X (str_filter (fun c => negb (bool_decide (c = "."%char)))
                  (path_suffix X name))) in
  let ext := str_or (str_take 3 ext) "BIN" in
  let stem := str_take 6 stem in
  match candidate_loop 999 1 stem ext existing_lower with
  | Some candidate => Ok candidate
  | None =>
      let fallback :=
        String.append "PY" (String.append (str_of_Z (timestamp X now)) ".DAT") in
      if decide (lower X fallback ∈ existing_lower)
      then Raise RuntimeError
      else Ok fallback
  end.

(** The loop of [_load_setup_xml] over the encodings. *)
Fixpoint try_encodings (encodings : list string) (raw : list byte)
    : option (Xml.Element * string) :=
  match encodings with
  | [] => None
  | encoding :: rest =>
      match decode_fromstring X encoding raw with
      | Some root => Some (root, encoding)
      | None => try_encodings rest raw
      end
  end.

Definition _load_setup_xml (e : CabEditor) : CabEditor :=
  let e := mkCabEditor (path e) (loaded_name e) (archive e) None "utf-8"
             (records e) (directories e) (signature_before e) in
  if no_archive e then e
  else
    match archive e with
    | None => e
    | Some a =>
        match PyDict.get "_setup.xml" (files a) with
        | None => e
        | Some f =>
            let raw := buf_or_empty f in
            match try_encodings ["utf-8"; "utf-16"; "utf-16le"; "latin-1"] raw with
            | Some (root, encoding) =>
                mkCabEditor (path e) (loaded_name e) (archive e) (Some root) encoding
                  (records e) (directories e) (signature_before e)
            | None => e
            end
        end
    end.

(** The record [_rebuild_index] makes of one archive entry when there is
    no manifest. *)
Definition plain_record (entry : string * CabFile) : CabRecord :=
  mkCabRecord entry.1 entry.1 (length (buf_or_empty entry.2))
    (format_cabfile_time entry.2) EmptyString.

(** The record, if any, that [_rebuild_index] makes of one triple of
    [iter_file_nodes]. *)
Definition manifest_record (a : CabArchive)
    (triple : Xml.Element * Xml.Element * Xml.Element) : list CabRecord :=
  let '(parent, file_node, extract_node) := triple in
  let display_name := Xml.attr_get "type" file_node in
  let source_name := Xml.attr_get "value" extract_node in
  let parent_type := Xml.attr_get "type" parent in
  if decide (display_name = EmptyString) then []
  else if decide (source_name = EmptyString) then []
  else
    match PyDict.get source_name (files a) with
    | None => []
    | Some cab_file =>
        [mkCabRecord display_name source_name (length (buf_or_empty cab_file))
           (format_cabfile_time cab_file) parent_type]
    end.

(** [sorted({rec.parent_type for rec in records if ...})]: sorting makes
    the result independent of the order in which the set is iterated. *)
Definition directories_of (recs : list CabRecord) : list string :=
  sorted (elements (list_to_set (C := gset string)
    (filter (fun p => bool_decide (p <> EmptyString) && starts_with_backslash p)
       (map parent_type recs)))).

Definition _rebuild_index (e : CabEditor) : CabEditor :=
  let e := with_index e [] [] in
  if no_archive e then e
  else
    match archive e with
    | None => e
    | Some a =>
        match xml_root e with
        | None => with_index e (map plain_record (files a)) []
        | Some root =>
            let recs := flat_map (manifest_record a) (iter_file_nodes root) in
            with_index e recs (directories_of recs)
        end
    end.

Definition _update_numfiles (e : CabEditor) : CabEditor :=
  match xml_root e with
  | None => e
  | Some root =>
      with_xml_root e (Some (set_numfiles root (str_of_nat (length (records e)))))
  end.

Definition _sync_setup_xml (now : DateTime) (e : CabEditor) : CabEditor :=
  if no_archive e then e
  else
    match archive e, xml_root e with
    | Some a, Some root =>
        let xml_bytes := tostring X root in
        with_archive e (Some (archive_set a "_setup.xml" (new_CabFile xml_bytes now)))
    | _, _ => e
    end.

(** [load(path, display_name)]; the state returned with an exception is
    the state the editor is left in. *)
Definition load (p : string) (display : option string) (e : CabEditor)
    : CabEditor * result unit :=
  let e := mkCabEditor (Some p) (loaded_name e) (archive e) (xml_root e)
             (setup_encoding e) (records e) (directories e) (signature_before e) in
  let candidate :=
    strip X (match display with
             | Some d => if decide (d = EmptyString) then path_stem X p else d
             | None => path_stem X p
             end) in
  let e := mkCabEditor (path e) (str_or (path_stem X candidate) "cabinetforge_output")
             (archive e) (xml_root e) (setup_encoding e) (records e) (directories e)
             (signature_before e) in
  match read_bytes X p with
  | Raise x => (e, Raise x)
  | Ok data =>
      match cab_parse X data with
      | Raise x => (e, Raise x)
      | Ok a =>
          let e := with_archive e (Some a) in
          let e := _load_setup_xml e in
          let e := _rebuild_index e in
          match get_signature_status X p with
          | Raise x => (e, Raise x)
          | Ok s =>
              (mkCabEditor (path e) (loaded_name e) (archive e) (xml_root e)
                 (setup_encoding e) (records e) (directories e) s, Ok tt)
          end
      end
  end.

(** [update_file(source_name, upload)], with [payload = upload.read()] and
    [now] the clock reading that stamps the entry. *)
Definition update_file (now : DateTime) (source : string) (payload : list byte)
    (e : CabEditor) : CabEditor * result unit :=
  if no_archive e then (e, Raise RuntimeError)
  else
    match archive e with
    | None => (e, Raise RuntimeError)
    | Some a =>
        if negb (PyDict.mem source (files a)) then (e, Raise KeyError)
        else
          match payload with
          | [] => (e, Raise ValueError)
          | _ :: _ =>
              let e := with_archive e (Some (archive_set a source (new_CabFile payload now))) in
              (_rebuild_index e, Ok tt)
          end
    end.

(** [remove_file(source_name)]; [now] stamps the resynchronized
    [_setup.xml] entry. *)
Definition remove_file (now : DateTime) (source : string) (e : CabEditor)
    : CabEditor * result unit :=
  if no_archive e then (e, Raise RuntimeError)
  else
    match archive e with
    | None => (e, Raise RuntimeError)
    | Some a =>
        let e :=
          if PyDict.mem source (files a)
          then with_archive e (Some (archive_del a source))
          else e in
        match xml_root e with
        | None => (_rebuild_index e, Ok tt)
        | Some root =>
            let '(root', removed) := remove_xml_file_node X root source in
            let e := with_xml_root e (Some root') in
            if negb removed then (e, Raise KeyError)
            else
              let e := _update_numfiles e in
              let e := _sync_setup_xml now e in
              (_rebuild_index e, Ok tt)
        end
    end.

(** [add_file(upload, display_name, directory)], with
    [upload_filename = upload.filename or ""] and [payload = upload.read()];
    [now_name], [now_file] and [now_sync] are the clock readings of
    [generate_source_name], of the new entry and of the resynchronization. *)
Definition add_file (now_name now_file now_sync : DateTime)
    (upload_filename : string) (payload : list byte) (display directory : string)
    (e : CabEditor) : CabEditor * result unit :=
  if no_archive e then (e, Raise RuntimeError)
  else
    match archive e with
    | None => (e, Raise RuntimeError)
    | Some a =>
        let filename := secure_filename X upload_filename in
        match payload with
        | [] => (e, Raise ValueError)
        | _ :: _ =>
            let final_name :=
              if decide (display = EmptyString) then filename else strip X display in
            if decide (final_name = EmptyString) then (e, Raise ValueError)
            else
              let existing : gset string := list_to_set (map (lower X) (archive_keys a)) in
              match generate_source_name now_name final_name existing with
              | Raise x => (e, Raise x)
              | Ok source =>
                  let e :=
                    with_archive e (Some (archive_set a source (new_CabFile payload now_file))) in
                  match xml_root e with
                  | None => (_rebuild_index e, Ok tt)
                  | Some root =>
                      match resolve_target_parent root directory with
                      | None => (e, Raise ValueError)
                      | Some target_parent =>
                          let e :=
                            with_xml_root e
                              (Some (append_at root target_parent final_name source)) in
                          let e := _update_numfiles e in
                          let e := _sync_setup_xml now_sync e in
                          (_rebuild_index e, Ok tt)
                      end
                  end
              end
        end
    end.

Definition get_file_bytes (source : string) (e : CabEditor) : result (list byte) :=
  if no_archive e then Raise RuntimeError
  else
    match archive e with
    | None => Raise RuntimeError
    | Some a =>
        match PyDict.get source (files a) with
        | None => Raise KeyError
        | Some f => Ok (buf_or_empty f)
        end
    end.

(** [build_cab_bytes(compress)]; [now] stamps the resynchronized
    [_setup.xml] entry. *)
Definition build_cab_bytes (now : DateTime) (compress : bool) (e : CabEditor)
    : CabEditor * result (list byte) :=
  if no_archive e then (e, Raise RuntimeError)
  else
    let e := match xml_root e with Some _ => _sync_setup_xml now e | None => e end in
    match archive e with
    | None => (e, Raise RuntimeError)
    | Some a => (e, cab_save X a compress true)
    end.

End Editor.

(** * Workspaces ([models.py], [workspace.py]) *)

(** A [Workspace]: the editor and the time of the last access. Times are
    integers (a [datetime] counted in microseconds); the locks are left
    out, the functions below being what runs while the lock is held. *)
Record Workspace : Type := mkWorkspace {
  editor : CabEditor;
  last_access : Z
}.

(** [Workspace()]: the default factories make a new editor and read the
    clock. *)
Definition new_Workspace (now : Z) : Workspace := mkWorkspace new_editor now.

(** [Workspace.touch], with [now] the value of [datetime.utcnow()] *)
Definition touch (now : Z) (ws : Workspace) : Workspace :=
  mkWorkspace (editor ws) now.

(** A [WorkspaceManager]: the time to live and the [dict] of the
    workspaces by session id. *)
Record WorkspaceManager : Type := mkWorkspaceManager {
  _ttl : Z;
  _state : gmap string Workspace
}.

(** [WorkspaceManager.__init__(ttl_seconds)] *)
Definition new_WorkspaceManager (ttl_seconds : Z) : WorkspaceManager :=
  mkWorkspaceManager (ttl_seconds * 1000000) ∅.

(** [_purge_expired], with [now] the value of [datetime.utcnow()] *)
Definition _purge_expired (now : Z) (m : WorkspaceManager) : WorkspaceManager :=
  let cutoff := now - _ttl m in
  let stale :=
    (filter (fun item : string * Workspace => last_access item.2 < cutoff)
       (map_to_list (_state m))).*1 in
  mkWorkspaceManager (_ttl m) (foldl (fun st wsid => delete wsid st) (_state m) stale).

(** [current()]. [session] is what [session.get("wsid")] returns, [fresh]
    what [uuid4().hex] returns when it is called, and the three times are
    the clock readings of [_purge_expired], of [Workspace()] and of
    [touch]. The result is the manager, the session's [wsid] afterwards,
    and the key of the workspace that is returned: it is the object the
    [dict] holds under that key. *)
Definition current (now_purge now_new now_touch : Z) (fresh : string)
    (session : option string) (m : WorkspaceManager)
    : WorkspaceManager * option string * string :=
  let m := _purge_expired now_purge m in
  let '(wsid, session) :=
    match session with
    | Some w => if decide (w = EmptyString) then (fresh, Some fresh) else (w, Some w)
    | None => (fresh, Some fresh)
    end in
  let st :=
    match _state m !! wsid with
    | Some _ => _state m
    | None => <[wsid := new_Workspace now_new]> (_state m)
    end in
  (mkWorkspaceManager (_ttl m) (alter (touch now_touch) wsid st), session, wsid).

(** * The [/add] route ([routes.py]) *)

(** An uploaded file as the route reads it: [upload.filename or ""] and the
    bytes [upload.read()] returns. A [FileStorage] is false when its
    filename is empty. *)
Record Upload : Type := mkUpload {
  up_filename : string;
  up_payload : list byte
}.

(** What the route flashes before it redirects to the index page. *)
Inductive add_flash : Type :=
  | SelectFiles              (* "Select file(s) to add", error *)
  | Added (added_count : nat) (* "Added n file(s)", ok *)
  | AddFailed (x : exn).     (* "Add failed: ...", error *)

Section AddRoute.

Variable X : Externals.

(** The clock readings of the call of [add_file] for the upload at each
    position of the list. *)
Variable times : nat -> DateTime * DateTime * DateTime.

(** The loop of the route over [uploads], from position [i] on; [n] is
    [len(uploads)]. It stops at the first exception. *)
Fixpoint add_loop (i n : nat) (display_name directory : string)
    (uploads : list Upload) (added_count : nat) (e : CabEditor)
    : CabEditor * result nat :=
  match uploads with
  | [] => (e, Ok added_count)
  | upload :: rest =>
      if decide (up_filename upload = EmptyString)
      then add_loop (S i) n display_name directory rest added_count e
      else
        let current_name :=
          if decide (n = 1%nat) then display_name else EmptyString in
        let '(now_name, now_file, now_sync) := times i in
        match add_file X now_name now_file now_sync (up_filename upload)
                (up_payload upload) current_name directory e with
        | (e', Ok _) => add_loop (S i) n display_name directory rest (S added_count) e'
        | (e', Raise x) => (e', Raise x)
        end
  end.

(** The route: [files] is [request.files.getlist("files")], [single] is
    [request.files.get("file")], [display_name] and [directory] are the
    form fields (the empty string when absent), and [e] is the editor of
    the session's workspace. *)
Definition add_file_route (files : list Upload) (single : option Upload)
    (display_name directory : string) (e : CabEditor) : CabEditor * add_flash :=
  let uploads :=
    match files with
    | [] =>
        match single with
        | Some s => if decide (up_filename s = EmptyString) then [] else [s]
        | None => []
        end
    | _ :: _ => files
    end in
  match uploads with
  | [] => (e, SelectFiles)
  | _ :: _ =>
      match add_loop 0 (length uploads) display_name directory uploads 0 e with
      | (e', Ok added_count) => (e', Added added_count)
      | (e', Raise x) => (e', AddFailed x)
      end
  end.

End AddRoute.

(** * Properties *)

(** ** The order of the names ([_order_names]) *)

(** Each name of [l] once, at its first occurrence, skipping the names of
    [seen]. *)
Fixpoint keep_first (seen : gset string) (l : list string) : list string :=
  match l with
  | [] => []
  | x :: r =>
      if decide (x ∈ seen) then keep_first seen r
      else x :: keep_first ({[x]} ∪ seen) r
  end.

(** The names of the template's [file_order] that are keys of the archive,
    each once, in template order. *)
Definition template_part (a : CabArchive) (template : option CabLayoutTemplate)
    : list string :=
  let present : gset string := list_to_set (archive_keys a) in
  let order := match template with Some t => file_order t | None => [] end in
  keep_first ∅ (filter (fun n => n ∈ present) order).

(** The keys of the archive that the template's [file_order] does not
    list. *)
Definition remaining_names (a : CabArchive) (template : option CabLayoutTemplate)
    : gset string :=
  let order := match template with Some t => file_order t | None => [] end in
  list_to_set (archive_keys a) ∖ list_to_set order.

Lemma order_loop_spec (present : gset string) (fo : list string) :
  forall (ordered : list string) (seen : gset string),
    order_loop fo ordered (present ∖ seen)
    = (ordered ++ keep_first seen (filter (fun n => n ∈ present) fo),
       present ∖ (seen ∪ list_to_set fo)).
Proof.
  induction fo as [|x fo IH]; intros ordered seen; simpl.
  - rewrite app_nil_r. f_equal. set_solver.
  - rewrite filter_cons. destruct (decide (x ∈ present ∖ seen)) as [Hin|Hnin].
    + assert (Hp : x ∈ present) by set_solver.
      assert (Hs : x ∉ seen) by set_solver.
      rewrite decide_True by done. simpl. rewrite decide_False by done.
      replace (present ∖ seen ∖ {[x]}) with (present ∖ ({[x]} ∪ seen)) by set_solver.
      rewrite IH. rewrite <- app_assoc. simpl. f_equal. set_solver.
    + rewrite IH. destruct (decide (x ∈ present)) as [Hp|Hp].
      * assert (Hs : x ∈ seen) by set_solver.
        simpl. rewrite decide_True by done. f_equal. set_solver.
      * f_equal. set_solver.
Qed.

Lemma keep_first_NoDup (l : list string) :
  NoDup l -> forall seen, (forall x, x ∈ l -> x ∉ seen) -> keep_first seen l = l.
Proof.
  induction 1 as [|x l Hx Hnd IH]; intros seen Hs; simpl; [done|].
  rewrite decide_False by (apply Hs; left).
  f_equal. apply IH. intros y Hy. specialize (Hs y (list_elem_of_further _ _ _ Hy)).
  set_solver.
Qed.

Section OrderNames.

Variable set_iteration : gset string -> list string.

Lemma order_names_unfold (a : CabArchive) (template : option CabLayoutTemplate)
    (sort : bool) :
  _order_names set_iteration a template sort
  = template_part a template
    ++ (if sort then sorted (set_iteration (remaining_names a template))
        else set_iteration (remaining_names a template)).
Proof.
  unfold _order_names, template_part, remaining_names.
  destruct template as [t|].
  - pose proof (order_loop_spec (list_to_set (archive_keys a)) (file_order t) [] ∅) as H.
    replace (list_to_set (archive_keys a) ∖ ∅)
      with (list_to_set (archive_keys a) : gset string) in H by set_solver.
    rewrite H. simpl.
    replace (list_to_set (archive_keys a) ∖ (∅ ∪ list_to_set (file_order t)))
      with (list_to_set (archive_keys a) ∖ list_to_set (file_order t) : gset string)
      by set_solver.
    done.
  - simpl. by rewrite difference_empty_L.
Qed.

(** C7, amended. [_order_names] returns the names of the template's
    [file_order] that are keys of the archive (each once, in template
    order), followed by the remaining keys of the archive: in ascending
    order without repetition when [sort] is true, and in the order in which
    Python iterates over the set of remaining names when [sort] is false:
    some arrangement of those names, each once, which need not be the order
    in which the archive holds them. *)
Theorem order_names_spec (a : CabArchive) (template : option CabLayoutTemplate)
    (sort : bool) :
  (forall s, set_iteration s ≡ₚ elements s) ->
  exists extras,
    _order_names set_iteration a template sort = template_part a template ++ extras
    /\ extras ≡ₚ elements (remaining_names a template)
    /\ (sort = true -> StronglySorted String.le extras /\ NoDup extras)
    /\ (sort = false -> extras = set_iteration (remaining_names a template)).
Proof.
  intros Hperm. rewrite order_names_unfold. eexists; split; [reflexivity|].
  destruct sort.
  - split; [|split; [|done]].
    + unfold sorted. rewrite merge_sort_Permutation. apply Hperm.
    + intros _. split.
      * apply (StronglySorted_merge_sort String.le).
      * unfold sorted. rewrite merge_sort_Permutation, Hperm. apply NoDup_elements.
  - split; [apply Hperm|]. split; [done|]. reflexivity.
Qed.

End OrderNames.

(** When the template lists no name twice, the template part is the
    template's [file_order] restricted to the keys of the archive. *)
Lemma template_part_NoDup (a : CabArchive) (t : CabLayoutTemplate) :
  NoDup (file_order t) ->
  template_part a (Some t)
  = filter (fun n => n ∈ (list_to_set (archive_keys a) : gset string)) (file_order t).
Proof.
  intros Hnd. unfold template_part.
  apply (keep_first_NoDup _ (NoDup_filter _ _ Hnd) ∅).
  intros x _. apply not_elem_of_empty.
Qed.

(** The keys of the archive that the template does not list, in the
    archive's insertion order. *)
Definition remaining_in_insertion_order (a : CabArchive)
    (template : option CabLayoutTemplate) : list string :=
  let order := match template with Some t => file_order t | None => [] end in
  filter (fun n => n ∉ (list_to_set order : gset string)) (archive_keys a).

Definition ex_date : Date := mkDate 2024 5 17.
Definition ex_time : Time := mkTime 10 30 12.

Definition ex_file (payload : list byte) : CabFile :=
  mkCabFile (Some payload) (Some ex_date) (Some ex_time) 32 None.

Definition ex_archive_ab : CabArchive :=
  mkCabArchive [("a.txt", ex_file [x61]); ("b.txt", ex_file [x62])] 0.

Definition ex_archive_ba : CabArchive :=
  mkCabArchive [("b.txt", ex_file [x62]); ("a.txt", ex_file [x61])] 0.

Definition ex_template_b : CabLayoutTemplate :=
  mkTemplate 0 0 0 0 [] [[]] ["gone.txt"; "b.txt"] {["gone.txt" := 0; "b.txt" := 0]}.

Definition ex_archive_abc : CabArchive :=
  mkCabArchive
    [("c.txt", ex_file [x63]); ("b.txt", ex_file [x62]); ("a.txt", ex_file [x61])] 0.

Lemma order_names_spec_witness :
  exists extras,
    _order_names elements ex_archive_abc (Some ex_template_b) true
    = template_part ex_archive_abc (Some ex_template_b) ++ extras
    /\ extras ≡ₚ elements (remaining_names ex_archive_abc (Some ex_template_b))
    /\ (true = true -> StronglySorted String.le extras /\ NoDup extras)
    /\ (true = false ->
        extras = elements (remaining_names ex_archive_abc (Some ex_template_b))).
Proof.
  apply (order_names_spec elements ex_archive_abc (Some ex_template_b) true).
  intros s. reflexivity.
Defined.

(** On this archive the template's name comes first and the other two keys
    follow in ascending order. *)
Example order_names_example :
  _order_names elements ex_archive_abc (Some ex_template_b) true
  = ["b.txt"; "a.txt"; "c.txt"].
Proof. vm_compute. reflexivity. Qed.

(** An iteration order: the names in descending order. *)
Definition descending (s : gset string) : list string :=
  reverse (sorted (elements s)).

(** C7 as stated fails for [sort = false]: the remaining names come in the
    order of a Python set, which the language leaves open, and not in the
    order in which the archive holds them. Where the set [{a.txt, b.txt}]
    is iterated with [b.txt] first, the archive that holds [a.txt] before
    [b.txt] is written with [b.txt] first. *)
Lemma order_names_unsorted_not_insertion_order :
  ~ (forall (set_iteration : gset string -> list string) a template,
       (forall s, set_iteration s ≡ₚ elements s) ->
       _order_names set_iteration a template false
       = template_part a template ++ remaining_in_insertion_order a template).
Proof.
  intros H.
  assert (Hperm : forall s, descending s ≡ₚ elements s).
  { intros s. unfold descending, sorted.
    by rewrite reverse_Permutation, merge_sort_Permutation. }
  specialize (H descending ex_archive_ab None Hperm).
  vm_compute in H. discriminate H.
Qed.

(** ** Inversion of the writer's monadic steps *)

Lemma rbind_Ok {A B : Type} (m : result A) (k : A -> result B) (b : B) :
  rbind m k = Ok b -> exists a, m = Ok a /\ k a = Ok b.
Proof. destruct m as [a|e]; simpl; [eauto|discriminate]. Qed.

Lemma rpack_Ok (f : Struct.fmt) (vs : list Struct.value) (bs : list byte) :
  rpack f vs = Ok bs -> Struct.pack f vs = Some bs.
Proof. unfold rpack. destruct (Struct.pack f vs); intros H; by inversion H. Qed.

Ltac rbind_inv H :=
  let a := fresh "a" in
  let Ha := fresh "Ha" in
  apply rbind_Ok in H; destruct H as (a & Ha & H).

(** ** Chunks *)

Lemma chunkify_loop_spec (size : nat) :
  (0 < size)%nat ->
  forall (fuel : nat) (arr : list byte),
    (length arr <= fuel)%nat ->
    concat (chunkify_loop fuel arr size) = arr
    /\ Forall (fun c => (0 < length c <= size)%nat) (chunkify_loop fuel arr size).
Proof.
  intros Hsize. induction fuel as [|fuel IH]; intros arr Hlen.
  - destruct arr; simpl in *; [split; [done|constructor]|lia].
  - destruct arr as [|b arr]; [split; [done|constructor]|].
    cbn [chunkify_loop].
    destruct (IH (drop size (b :: arr))) as [IH1 IH2].
    { rewrite length_drop. simpl in *. lia. }
    split.
    + cbn [concat]. rewrite IH1. apply take_drop.
    + constructor; [|done]. rewrite length_take. simpl. lia.
Qed.

Lemma chunkify_concat (arr : list byte) (size : nat) :
  (0 < size)%nat -> concat (_chunkify arr size) = arr.
Proof. intros H. by apply chunkify_loop_spec. Qed.

Lemma chunkify_lengths (arr : list byte) (size : nat) :
  (0 < size)%nat ->
  Forall (fun c => (0 < length c <= size)%nat) (_chunkify arr size).
Proof. intros H. by apply chunkify_loop_spec. Qed.

Lemma CHUNK_SIZE_pos : (0 < CHUNK_SIZE)%nat.
Proof. unfold CHUNK_SIZE. lia. Qed.

(** The chunks [_build_folders] encodes for a folder whose concatenated
    payload is [raw]: a single empty chunk when [raw] is empty. *)
Definition folder_chunks (raw : list byte) : list (list byte) :=
  match _chunkify raw CHUNK_SIZE with
  | [] => [[]]
  | c :: cs => c :: cs
  end.

Lemma folder_chunks_spec (raw : list byte) :
  folder_chunks raw <> []
  /\ concat (folder_chunks raw) = raw
  /\ Forall (fun c => (length c <= CHUNK_SIZE)%nat) (folder_chunks raw).
Proof.
  unfold folder_chunks.
  pose proof (chunkify_concat raw CHUNK_SIZE CHUNK_SIZE_pos) as Hc.
  pose proof (chunkify_lengths raw CHUNK_SIZE CHUNK_SIZE_pos) as Hl.
  destruct (_chunkify raw CHUNK_SIZE) as [|c cs].
  - simpl in Hc. subst raw. repeat split; [done|].
    constructor; [simpl; lia|constructor].
  - repeat split; [done|done|].
    eapply Forall_impl; [exact Hl|]. simpl. intros; lia.
Qed.

(** ** The writer, step by step *)

(** The template [build_ce_cab_bytes] works with. *)
Definition effective_template (a : CabArchive) (template : option CabLayoutTemplate)
    : CabLayoutTemplate :=
  match template with
  | Some t => t
  | None => default_template a
  end.

(** The header reserve as written: cut or NUL-padded to [cb_cfheader]. *)
Definition written_header_reserve (t : CabLayoutTemplate) : list byte :=
  Struct.pad_to (cb_cfheader t) (header_reserve t).

Definition header_size_of (t : CabLayoutTemplate) : nat :=
  (Struct.calcsize FMT_CFHEADER +
   (if use_reserve_of t
    then Struct.calcsize FMT_CFHEADER_RESERVE + cb_cfheader t else 0))%nat.

(** The padding of the header reserve as [build_ce_cab_bytes] writes it. *)
Lemma source_header_reserve (t : CabLayoutTemplate) :
  (let reserve := take (cb_cfheader t) (header_reserve t) in
   if (length reserve <? cb_cfheader t)%nat
   then reserve ++ replicate (cb_cfheader t - length reserve) x00
   else reserve)
  = written_header_reserve t.
Proof.
  cbv zeta. unfold written_header_reserve, Struct.pad_to.
  rewrite length_take.
  destruct (Nat.ltb_spec (cb_cfheader t `min` length (header_reserve t))
              (cb_cfheader t)) as [Hlt|Hge].
  - f_equal. f_equal. lia.
  - replace (cb_cfheader t - length (header_reserve t))%nat with 0%nat by lia.
    simpl. by rewrite app_nil_r.
Qed.

Section WriterSteps.

Variable set_iteration : gset string -> list string.
Variable deflate : list byte -> list byte.
Variable checksum : list byte -> Z -> Z.

Lemma build_ce_cab_bytes_inv (a : CabArchive) (compress : bool)
    (template : option CabLayoutTemplate) (sort : bool) (out : list byte) :
  build_ce_cab_bytes set_iteration deflate checksum a compress template sort = Ok out ->
  let ordered := _order_names set_iteration a template sort in
  let t := effective_template a template in
  exists fbs offsets cffile cffolder cfdata header,
    ordered <> []
    /\ _build_folders deflate a ordered t compress = Ok fbs
    /\ fbs <> []
    /\ _build_uncompressed_offsets a fbs = Ok offsets
    /\ _build_cffile_blob a ordered offsets (folder_index_loop 0 fbs ∅) = Ok cffile
    /\ _build_folder_and_data_blobs checksum fbs
         (header_size_of t + length fbs * (Struct.calcsize FMT_CFFOLDER + cb_cffolder t)
          + length cffile)
         (cb_cffolder t) (cb_cfdata t) compress = Ok (cffolder, cfdata)
    /\ Struct.pack FMT_CFHEADER
         [Struct.VBytes MSCF;
          Struct.VInt (Z.of_nat (header_size_of t + length cffolder + length cffile
                                 + length cfdata));
          Struct.VInt (Z.of_nat (header_size_of t
             + length fbs * (Struct.calcsize FMT_CFFOLDER + cb_cffolder t)));
          Struct.VInt 3; Struct.VInt 1;
          Struct.VInt (Z.of_nat (length fbs));
          Struct.VInt (Z.of_nat (length ordered));
          Struct.VInt (if use_reserve_of t then 4 else 0);
          Struct.VInt (set_id t); Struct.VInt 0] = Some header
    /\ ((use_reserve_of t = false
         /\ out = header ++ cffolder ++ cffile ++ cfdata)
        \/ (use_reserve_of t = true
            /\ exists descr,
                 Struct.pack FMT_CFHEADER_RESERVE
                   [Struct.VInt (Z.of_nat (cb_cfheader t));
                    Struct.VInt (Z.of_nat (cb_cffolder t));
                    Struct.VInt (Z.of_nat (cb_cfdata t))] = Some descr
                 /\ out = header ++ (descr ++ written_header_reserve t)
                            ++ cffolder ++ cffile ++ cfdata)).
Proof.
  intros H ordered t. unfold build_ce_cab_bytes in H.
  fold ordered in H. fold (effective_template a template) in H. fold t in H.
  destruct ordered as [|n0 ns] eqn:Eo; [discriminate|].
  rbind_inv H. rename a0 into fbs.
  destruct (length fbs) as [|k] eqn:Ek; [discriminate|].
  rbind_inv H. rename a0 into offsets.
  rbind_inv H. rename a0 into cffile.
  rbind_inv H. destruct a0 as [cffolder cfdata].
  rbind_inv H. rename a0 into header.
  rbind_inv H. rename a0 into rb.
  inversion H; subst out; clear H.
  fold (header_size_of t) in *.
  exists fbs, offsets, cffile, cffolder, cfdata, header.
  rewrite <- Ek in *.
  split; [done|]. split; [done|].
  split; [intros ->; discriminate|].
  split; [done|]. split; [done|]. split; [done|].
  split; [by apply rpack_Ok|].
  destruct (use_reserve_of t) eqn:Eu.
  - right. split; [done|].
    match goal with Hr : rbind (rpack FMT_CFHEADER_RESERVE _) _ = Ok rb |- _ =>
      apply rbind_Ok in Hr; destruct Hr as (descr & Hd & Hr);
      inversion Hr; subst rb; clear Hr end.
    exists descr. split; [by apply rpack_Ok|].
    by rewrite source_header_reserve.
  - left. split; [done|].
    match goal with Hr : Ok _ = Ok rb |- _ => inversion Hr; subst rb end.
    done.
Qed.

End WriterSteps.

(** ** Data blocks ([_build_folders], [_build_folder_and_data_blobs]) *)

Section DataBlocks.

Variable set_iteration : gset string -> list string.
Variable deflate : list byte -> list byte.
Variable checksum : list byte -> Z -> Z.

(** A data block as it stands in the output: the 8-byte CFDATA header, the
    per-block reserve, and the encoded bytes. *)
Definition block_image (cb_cfdata : nat) (encoded image : list byte) : Prop :=
  exists hdr,
    length hdr = Struct.calcsize FMT_CFDATA
    /\ image = hdr ++ replicate cb_cfdata x00 ++ encoded.


Lemma build_folder_inv (a : CabArchive) (t : CabLayoutTemplate) (compress : bool)
    (key : Z) (ns : list string) (fb : _FolderBuild) :
  build_folder deflate a t compress key ns = Ok fb ->
  exists raw,
    join_payloads a ns = Ok raw
    /\ fb = mkFolderBuild key ns (folder_reserve t key)
              (map (encode_block deflate compress) (folder_chunks raw)).
Proof.
  unfold build_folder. intros H. rbind_inv H. rename a0 into raw.
  exists raw. split; [done|]. inversion H. unfold folder_chunks.
  by destruct (_chunkify raw CHUNK_SIZE).
Qed.

Lemma build_folders_loop_inv (a : CabArchive) (t : CabLayoutTemplate)
    (compress : bool) (keyed : list (Z * list string)) :
  forall fbs,
    build_folders_loop deflate a t compress keyed = Ok fbs ->
    Forall2
      (fun kn fb =>
         exists raw,
           join_payloads a kn.2 = Ok raw
           /\ fb = mkFolderBuild kn.1 kn.2 (folder_reserve t kn.1)
                     (map (encode_block deflate compress) (folder_chunks raw)))
      keyed fbs.
Proof.
  induction keyed as [|[key ns] keyed IH]; intros fbs H; simpl in H.
  - inversion H. constructor.
  - rbind_inv H. rbind_inv H. inversion H; subst fbs.
    constructor; [|by apply IH]. simpl. by apply build_folder_inv.
Qed.

Lemma data_blocks_loop_inv (cb_cfdata : nat) (blks : list (list byte * nat)) :
  forall data n,
    data_blocks_loop checksum blks cb_cfdata = Ok (data, n) ->
    n = length data
    /\ exists images,
         data = concat images
         /\ Forall2 (fun b image => block_image cb_cfdata b.1 image) blks images.
Proof.
  induction blks as [|[encoded plain_size] blks IH]; intros data n H; simpl in H.
  - inversion H. split; [done|]. exists []. split; [done|constructor].
  - rbind_inv H. rename a into hdr. rbind_inv H. rename a into rec.
    rbind_inv H. destruct a as [tail block_bytes]. inversion H; subst data n.
    destruct (IH _ _ Ha1) as (-> & images & -> & Himg).
    apply rpack_Ok, Struct.length_pack in Ha0.
    assert (Hpad : (if decide (cb_cfdata = 0%nat) then [] else replicate cb_cfdata x00)
                   = replicate cb_cfdata x00).
    { destruct (decide (cb_cfdata = 0%nat)) as [-> |]; done. }
    rewrite Hpad. split.
    + rewrite !length_app, length_replicate, Ha0.
      change (Struct.calcsize FMT_CFDATA) with 8%nat. lia.
    + exists ((rec ++ replicate cb_cfdata x00 ++ encoded) :: images). split.
      * simpl. by rewrite <- !app_assoc.
      * constructor; [|done]. exists rec. by split.
Qed.



End DataBlocks.

(** ** Folder assignment ([_build_folders], first loop) *)

(** The distinct elements of [l] in the order of their first occurrence. *)
Definition first_use {A : Type} `{EqDecision A} (l : list A) : list A :=
  foldl (fun acc k => if decide (k ∈ acc) then acc else acc ++ [k]) [] l.

Section FirstUse.
Context {A : Type} `{EqDecision A}.

Lemma first_use_snoc (l : list A) (x : A) :
  first_use (l ++ [x])
  = if decide (x ∈ first_use l) then first_use l else first_use l ++ [x].
Proof. unfold first_use. by rewrite foldl_app. Qed.

Lemma first_use_elem_of (l : list A) (x : A) : x ∈ first_use l <-> x ∈ l.
Proof.
  induction l as [|y l IH] using rev_ind.
  - done.
  - rewrite first_use_snoc. destruct (decide (y ∈ first_use l)) as [Hin|Hnin].
    + rewrite elem_of_app, list_elem_of_singleton. split; [tauto|].
      intros [?| ->]; tauto.
    + rewrite !elem_of_app, IH. tauto.
Qed.

Lemma first_use_NoDup (l : list A) : NoDup (first_use l).
Proof.
  induction l as [|y l IH] using rev_ind.
  - constructor.
  - rewrite first_use_snoc. destruct (decide (y ∈ first_use l)) as [Hin|Hnin]; [done|].
    apply NoDup_app. split; [done|]. split; [|apply NoDup_singleton].
    intros z Hz Hz'%list_elem_of_singleton. by subst.
Qed.

End FirstUse.

(** The dictionary [keyed] after the names [processed], all of which the
    template maps to a folder key ([kf]): one entry per key, in the order of
    first use, holding the names of that key in order. *)
Definition grouped (kf : string -> Z) (processed : list string) : list (Z * list string) :=
  map (fun k => (k, filter (fun n => kf n = k) processed))
    (first_use (map kf processed)).

Lemma PyDict_get_map_key {V : Type} (F : Z -> V) (ks : list Z) (k : Z) :
  PyDict.get k (map (fun k' => (k', F k')) ks)
  = if decide (k ∈ ks) then Some (F k) else None.
Proof.
  induction ks as [|k' ks IH]; simpl.
  - destruct (decide (k ∈ [])) as [Hin|]; [by apply elem_of_nil in Hin|done].
  - destruct (decide (k = k')) as [-> |Hne].
    + by rewrite decide_True by left.
    + rewrite IH. destruct (decide (k ∈ ks)) as [Hin|Hnin].
      * by rewrite decide_True by (by right).
      * rewrite decide_False; [done|]. by intros [?|?]%elem_of_cons.
Qed.

Lemma PyDict_set_map_key_in {V : Type} (F : Z -> V) (v : V) (ks : list Z) (k : Z) :
  NoDup ks -> k ∈ ks ->
  PyDict.set k v (map (fun k' => (k', F k')) ks)
  = map (fun k' => (k', if decide (k' = k) then v else F k')) ks.
Proof.
  intros Hnd Hin. induction Hnd as [|k' ks Hk' Hnd IH]; simpl.
  - by apply elem_of_nil in Hin.
  - destruct (decide (k = k')) as [-> |Hne].
    + rewrite decide_True by done. f_equal. apply map_ext_in.
      intros k'' Hk''%list_elem_of_In.
      rewrite decide_False; [done|]. by intros ->.
    + rewrite decide_False by done. f_equal. apply IH.
      by apply elem_of_cons in Hin as [?|?].
Qed.

Lemma PyDict_set_map_key_new {V : Type} (F : Z -> V) (v : V) (ks : list Z) (k : Z) :
  k ∉ ks ->
  PyDict.set k v (map (fun k' => (k', F k')) ks)
  = map (fun k' => (k', F k')) ks ++ [(k, v)].
Proof.
  intros Hnin. induction ks as [|k' ks IH]; simpl; [done|].
  rewrite decide_False by (intros ->; apply Hnin; left).
  f_equal. apply IH. intros ?. apply Hnin. by right.
Qed.

Lemma filter_none {A : Type} (P : A -> Prop) `{forall x, Decision (P x)} (l : list A) :
  (forall x, x ∈ l -> ~ P x) -> filter P l = [].
Proof.
  induction l as [|x l IH]; intros Hl; [done|].
  rewrite filter_cons_False by (apply Hl; left).
  apply IH. intros y Hy. apply Hl. by right.
Qed.

Lemma filter_all {A : Type} (P : A -> Prop) `{forall x, Decision (P x)} (l : list A) :
  (forall x, x ∈ l -> P x) -> filter P l = l.
Proof.
  induction l as [|x l IH]; intros Hl; [done|].
  rewrite filter_cons_True by (apply Hl; left).
  f_equal. apply IH. intros y Hy. apply Hl. by right.
Qed.

Lemma keyed_append_grouped (kf : string -> Z) (processed : list string) (n : string) :
  keyed_append (kf n) n (grouped kf processed) = grouped kf (processed ++ [n]).
Proof.
  unfold keyed_append, grouped.
  rewrite PyDict_get_map_key, map_app.
  change (map kf [n]) with [kf n]. rewrite first_use_snoc.
  destruct (decide (kf n ∈ first_use (map kf processed))) as [Hin|Hnin].
  - rewrite PyDict_set_map_key_in by (done || apply first_use_NoDup).
    apply map_ext. intros k. f_equal. rewrite filter_app.
    destruct (decide (k = kf n)) as [-> |Hne].
    + by rewrite filter_cons_True.
    + rewrite filter_cons_False by done. by rewrite app_nil_r.
  - rewrite PyDict_set_map_key_new by done. rewrite map_app. simpl.
    f_equal.
    + apply map_ext_in. intros k Hk%list_elem_of_In. f_equal.
      rewrite filter_app, filter_cons_False; [by rewrite app_nil_r|].
      intros E. by rewrite E in Hnin.
    + f_equal. f_equal. rewrite filter_app, filter_cons_True by done.
      replace (filter (fun n0 => kf n0 = kf n) processed) with (@nil string); [done|].
      symmetry. apply filter_none. intros m Hm Hk.
      apply Hnin, first_use_elem_of, list_elem_of_fmap. by exists m.
Qed.

(** While every name has a key in the template, the first loop of
    [_build_folders] never draws a fresh key. *)
Lemma assign_keys_grouped (ff : gmap string Z) (kf : string -> Z) (rest : list string) :
  (forall n, n ∈ rest -> ff !! n = Some (kf n)) ->
  forall processed next_key,
    assign_keys rest ff next_key (grouped kf processed)
    = grouped kf (processed ++ rest).
Proof.
  induction rest as [|n rest IH]; intros Hkf processed next_key; simpl.
  - by rewrite app_nil_r.
  - rewrite (Hkf n) by left. rewrite keyed_append_grouped.
    rewrite IH by (intros; apply Hkf; by right).
    by rewrite <- app_assoc.
Qed.

(** ** Reading back what the writer wrote *)

Lemma index_of_app_first (b : byte) (l post : list byte) :
  b ∉ l -> index_of b (l ++ b :: post) = Some (length l).
Proof.
  induction l as [|x l IH]; intros Hnin; simpl.
  - by rewrite decide_True.
  - rewrite decide_False by (intros ->; apply Hnin; left).
    rewrite IH; [done|]. intros ?. apply Hnin. by right.
Qed.

Lemma bytes_find_at (b : byte) (pre l post : list byte) :
  b ∉ l ->
  bytes_find b (pre ++ l ++ b :: post) (length pre) = Some (length pre + length l)%nat.
Proof.
  intros Hnin. unfold bytes_find. rewrite drop_app_length.
  by rewrite index_of_app_first.
Qed.

Lemma slice_at (pre l post : list byte) :
  slice (pre ++ l ++ post) (length pre) (length pre + length l) = l.
Proof.
  unfold slice. rewrite drop_app_length.
  replace (length pre + length l - length pre)%nat with (length l) by lia.
  by rewrite take_app_length.
Qed.

(** One entry of the file table: a CFFILE record that names folder [idx],
    then the name and its terminator. *)
Definition file_entry (wname : string) (idx : Z) (entry : list byte) : Prop :=
  exists rec usize uoff d t at_,
    Struct.pack FMT_CFFILE
      [Struct.VInt usize; Struct.VInt uoff; Struct.VInt idx;
       Struct.VInt d; Struct.VInt t; Struct.VInt at_] = Some rec
    /\ entry = rec ++ list_byte_of_string wname ++ [x00].

Lemma parse_files_concat (items : list (string * Z)) :
  forall (entries : list (list byte)),
    Forall2 (fun it e => file_entry it.1 it.2 e /\ x00 ∉ list_byte_of_string it.1)
      items entries ->
    forall (pre post : list byte) (fo : list string) (ff : gmap string Z),
      parse_files (length items) (pre ++ concat entries ++ post) (length pre) fo ff
      = Some (fo ++ items.*1, foldl (fun m it => <[it.1 := it.2]> m) ff items).
Proof.
  induction items as [|[wname idx] items IH]; intros entries HF pre post fo ff.
  - simpl. by rewrite app_nil_r.
  - inversion HF as [|? entry ? entries' [Hentry Hnul] Hrest]; subst. simpl in *.
    destruct Hentry as (rec & usize & uoff & d & t & at_ & Hpack & ->).
    pose proof (Struct.length_pack _ _ _ Hpack) as Hlen.
    change (Struct.calcsize FMT_CFFILE) with 16%nat in Hlen.
    set (nb := list_byte_of_string wname) in *.
    set (rest := concat entries' ++ post).
    replace (pre ++ ((rec ++ nb ++ [x00]) ++ concat entries') ++ post)
      with (pre ++ rec ++ (nb ++ x00 :: rest))
      by (unfold rest; by rewrite <- !app_assoc).
    rewrite (Struct.unpack_from_pack _ _ _ _ _ Hpack). simpl Struct.canon. cbv iota beta.
    change (Struct.calcsize FMT_CFFILE) with 16%nat.
    replace (length pre + 16)%nat with (length (pre ++ rec))
      by (rewrite length_app; lia).
    rewrite (app_assoc pre rec).
    rewrite bytes_find_at by done.
    replace (nb ++ x00 :: rest) with (nb ++ [x00] ++ rest) by done.
    rewrite slice_at. subst nb. rewrite string_of_list_byte_of_string.
    set (nb := list_byte_of_string wname) in *.
    replace ((pre ++ rec) ++ nb ++ [x00] ++ rest)
      with ((pre ++ rec ++ nb ++ [x00]) ++ concat entries' ++ post)
      by (unfold rest; by rewrite <- !app_assoc).
    replace (length (pre ++ rec) + length nb + 1)%nat
      with (length (pre ++ rec ++ nb ++ [x00]))
      by (rewrite !length_app; simpl; lia).
    rewrite (IH _ Hrest). by rewrite <- app_assoc.
Qed.

(** One entry of the folder table: a CFFOLDER record and the folder's
    reserve. *)
Definition folder_entry (res entry : list byte) : Prop :=
  exists rec vs,
    Struct.pack FMT_CFFOLDER vs = Some rec /\ entry = rec ++ res.

Lemma parse_folders_concat (cb : nat) (ress : list (list byte)) :
  forall (entries : list (list byte)),
    Forall2 (fun res e => folder_entry res e /\ length res = cb) ress entries ->
    forall (pre post : list byte) (acc : list (list byte)),
      parse_folders (length ress) (pre ++ concat entries ++ post) cb (length pre) acc
      = Some (acc ++ ress).
Proof.
  induction ress as [|res ress IH]; intros entries HF pre post acc.
  - simpl. by rewrite app_nil_r.
  - inversion HF as [|? entry ? entries' [Hentry Hres] Hrest]; subst. simpl in *.
    destruct Hentry as (rec & vs & Hpack & ->).
    pose proof (Struct.length_pack _ _ _ Hpack) as Hlen.
    change (Struct.calcsize FMT_CFFOLDER) with 8%nat in Hlen.
    set (rest := concat entries' ++ post).
    replace (pre ++ ((rec ++ res) ++ concat entries') ++ post)
      with (pre ++ rec ++ (res ++ rest))
      by (unfold rest; by rewrite <- !app_assoc).
    rewrite (Struct.unpack_from_pack _ _ _ _ _ Hpack).
    change (Struct.calcsize FMT_CFFOLDER) with 8%nat.
    assert (Hreserve :
      (if decide (length res = 0%nat) then []
       else slice (pre ++ rec ++ res ++ rest) (length pre + 8)
              (length pre + 8 + length res)) = res).
    { destruct (decide (length res = 0%nat)) as [Hz|Hnz].
      - symmetry. by apply nil_length_inv.
      - replace (length pre + 8)%nat with (length (pre ++ rec))
          by (rewrite length_app; lia).
        rewrite (app_assoc pre rec). apply slice_at. }
    rewrite Hreserve.
    replace (pre ++ rec ++ res ++ rest)
      with ((pre ++ rec ++ res) ++ concat entries' ++ post)
      by (unfold rest; by rewrite <- !app_assoc).
    replace (length pre + 8 + length res)%nat with (length (pre ++ rec ++ res))
      by (rewrite !length_app; lia).
    rewrite (IH _ Hrest). by rewrite <- app_assoc.
Qed.

(** ** The tables the writer emits *)

Lemma build_cffile_blob_inv (a : CabArchive) (offsets findex : gmap string Z)
    (ns : list string) :
  forall blob,
    _build_cffile_blob a ns offsets findex = Ok blob ->
    exists entries,
      blob = concat entries
      /\ Forall2
           (fun name entry =>
              exists f idx,
                PyDict.get name (files a) = Some f
                /\ findex !! name = Some idx
                /\ file_entry (wire_name f name) idx entry)
           ns entries.
Proof.
  induction ns as [|name ns IH]; intros blob H; simpl in H.
  - inversion H. exists []. split; [done|constructor].
  - rbind_inv H. rename a0 into f. rbind_inv H. rename a0 into off.
    rbind_inv H. rename a0 into idx. rbind_inv H. rename a0 into rec.
    rbind_inv H. rename a0 into tail. inversion H; subst blob.
    destruct (IH _ Ha3) as (entries & -> & HF).
    exists ((rec ++ list_byte_of_string (wire_name f name) ++ [x00]) :: entries).
    split; [simpl; by rewrite <- !app_assoc|]. constructor; [|done].
    exists f, idx. repeat split.
    + unfold archive_item in Ha. by destruct (PyDict.get name (files a)); inversion Ha.
    + unfold dict_item in Ha1. by destruct (findex !! name); inversion Ha1.
    + apply rpack_Ok in Ha2. by repeat eexists.
Qed.

Section FolderTable.

Variable checksum : list byte -> Z -> Z.

Lemma folder_and_data_loop_folders (cb_cffolder cb_cfdata : nat) (compress : bool)
    (fbs : list _FolderBuild) :
  forall cursor folder_blob data,
    folder_and_data_loop checksum fbs cursor cb_cffolder cb_cfdata compress
    = Ok (folder_blob, data) ->
    exists entries,
      folder_blob = concat entries
      /\ Forall2
           (fun fb entry =>
              folder_entry
                (if decide (cb_cffolder = 0%nat) then [] else reserve fb) entry)
           fbs entries.
Proof.
  induction fbs as [|fb fbs IH]; intros cursor folder_blob data H; simpl in H.
  - inversion H. exists []. split; [done|constructor].
  - rbind_inv H. destruct a as [d block_bytes]. rbind_inv H. rename a into rec.
    rbind_inv H. destruct a as [folder_tail data_tail]. inversion H; subst.
    destruct (IH _ _ _ Ha1) as (entries & -> & HF).
    exists ((rec ++ (if decide (cb_cffolder = 0%nat) then [] else reserve fb))
              :: entries).
    split; [simpl; by rewrite <- app_assoc|].
    constructor; [|done]. apply rpack_Ok in Ha0. by repeat eexists.
Qed.

End FolderTable.

Lemma length_folder_reserve (t : CabLayoutTemplate) (key : Z) :
  length (folder_reserve t key) = cb_cffolder t.
Proof.
  unfold folder_reserve.
  set (r := if (0 <=? key) && (key <? Z.of_nat (length (folder_reserves t)))
            then default (replicate (cb_cffolder t) x00)
                   (folder_reserves t !! Z.to_nat key)
            else replicate (cb_cffolder t) x00).
  rewrite length_take.
  destruct (Nat.ltb_spec (length r) (cb_cffolder t)).
  - rewrite length_app, length_replicate. lia.
  - lia.
Qed.

(** A folder whose key indexes a reserve of the right length keeps that
    reserve. *)
Lemma folder_reserve_lookup (t : CabLayoutTemplate) (i : nat) (r : list byte) :
  folder_reserves t !! i = Some r -> length r = cb_cffolder t ->
  folder_reserve t (Z.of_nat i) = r.
Proof.
  intros Hi Hr. unfold folder_reserve.
  pose proof (lookup_lt_Some _ _ _ Hi) as Hlt.
  replace ((0 <=? Z.of_nat i) && (Z.of_nat i <? Z.of_nat (length (folder_reserves t))))
    with true by (symmetry; apply andb_true_iff; split; [apply Z.leb_le|apply Z.ltb_lt]; lia).
  rewrite Nat2Z.id, Hi. simpl. rewrite Hr, Nat.ltb_irrefl.
  rewrite <- Hr. apply take_ge. lia.
Qed.

(** ** The folder index of each name *)

Lemma insert_names_lookup (v : Z) (ns : list string) (name : string) :
  forall (m : gmap string Z),
    foldl (fun m n => <[n := v]> m) m ns !! name
    = if decide (name ∈ ns) then Some v else m !! name.
Proof.
  induction ns as [|n ns IH]; intros m; simpl.
  - destruct (decide (name ∈ [])) as [Hin|]; [by apply elem_of_nil in Hin|done].
  - rewrite IH. destruct (decide (name ∈ ns)) as [Hin|Hnin].
    + by rewrite decide_True by (by right).
    + destruct (decide (name = n)) as [-> |Hne].
      * rewrite decide_True by left. apply lookup_insert_eq.
      * rewrite decide_False by (by intros [?|?]%elem_of_cons).
        by apply lookup_insert_ne.
Qed.

Lemma folder_index_loop_absent (name : string) (fbs : list _FolderBuild) :
  Forall (fun fb => name ∉ names fb) fbs ->
  forall idx m, folder_index_loop idx fbs m !! name = m !! name.
Proof.
  induction 1 as [|fb fbs Hfb _ IH]; intros idx m; simpl; [done|].
  rewrite IH, insert_names_lookup. by rewrite decide_False.
Qed.

Lemma folder_index_loop_lookup (name : string) (fbs : list _FolderBuild) :
  forall (i idx : nat) (m : gmap string Z) (fb : _FolderBuild),
    fbs !! i = Some fb -> name ∈ names fb ->
    Forall (fun fb' => name ∉ names fb') (drop (S i) fbs) ->
    folder_index_loop idx fbs m !! name = Some (Z.of_nat (idx + i)).
Proof.
  induction fbs as [|fb0 fbs IH]; intros i idx m fb Hi Hin Hlater; [done|].
  destruct i as [|i]; simpl in *.
  - inversion Hi; subst fb0. rewrite drop_0 in Hlater.
    rewrite folder_index_loop_absent by done.
    rewrite insert_names_lookup, decide_True by done.
    do 2 f_equal. lia.
  - rewrite (IH i (S idx) _ fb) by done. do 2 f_equal. lia.
Qed.

(** ** What [parse_cab_layout] guarantees about the names it returns *)

Lemma index_of_take (b : byte) (l : list byte) :
  forall i, index_of b l = Some i -> b ∉ take i l.
Proof.
  induction l as [|x l IH]; intros i H; simpl in H; [done|].
  destruct (decide (x = b)) as [-> |Hne].
  - inversion H. simpl. apply not_elem_of_nil.
  - destruct (index_of b l) as [j|] eqn:E; [|done]. inversion H; subst i.
    simpl. intros [?|?]%elem_of_cons; [done|]. by apply (IH j).
Qed.

Definition nul_free (name : string) : Prop := x00 ∉ list_byte_of_string name.

Lemma parse_files_names (buf : list byte) (n : nat) :
  forall offset fo ff fo' ff',
    parse_files n buf offset fo ff = Some (fo', ff') ->
    (Forall nul_free fo /\ forall name, is_Some (ff !! name) <-> name ∈ fo) ->
    Forall nul_free fo' /\ forall name, is_Some (ff' !! name) <-> name ∈ fo'.
Proof.
  induction n as [|n IH]; intros offset fo ff fo' ff' H Hinv; cbn [parse_files] in H.
  - by inversion H; subst.
  - destruct (Struct.unpack_from FMT_CFFILE buf offset)
      as [[|[?|?] [|[?|?] [|[?|folder_idx] [|[?|?] [|[?|?] [|[?|?] [|??]]]]]]]|];
      try discriminate.
    destruct (bytes_find x00 buf (offset + Struct.calcsize FMT_CFFILE)) as [end_|] eqn:Ef;
      [|discriminate].
    apply IH in H; [done|]. destruct Hinv as [Hnul Hdom]. split.
    + apply Forall_app. split; [done|]. constructor; [|constructor].
      unfold nul_free. rewrite list_byte_of_string_of_list_byte.
      unfold bytes_find in Ef.
      destruct (index_of x00 (drop (offset + Struct.calcsize FMT_CFFILE) buf))
        as [i|] eqn:Ei; [|discriminate].
      simpl in Ef. inversion Ef; subst end_. unfold slice.
      change (Struct.calcsize FMT_CFFILE) with 16%nat in *.
      replace (offset + 16 + i - (offset + 16))%nat with i by lia.
      by apply index_of_take.
    + intros name. rewrite elem_of_app, list_elem_of_singleton, <- Hdom.
      rewrite lookup_insert_is_Some. destruct (decide (name = string_of_list_byte
        (slice buf (offset + Struct.calcsize FMT_CFFILE) end_))); naive_solver.
Qed.

Lemma parse_cab_layout_names (buf : list byte) (t : CabLayoutTemplate) :
  parse_cab_layout buf = Some t ->
  Forall nul_free (file_order t)
  /\ forall name, is_Some (file_folders t !! name) <-> name ∈ file_order t.
Proof.
  unfold parse_cab_layout. intros H.
  destruct (Struct.unpack_from FMT_CFHEADER buf 0)
    as [[|[sig|?] [|[?|?] [|[?|off] [|[?|?] [|[?|?] [|[?|nfo] [|[?|nfi] [|[?|fl]
        [|[?|sid] [|[?|?] [|??]]]]]]]]]]]|]; try discriminate.
  destruct (decide (sig = MSCF)); [|discriminate].
  destruct (parse_reserve buf fl (Struct.calcsize FMT_CFHEADER))
    as [[[[[cbh cbf] cbd] hr] offset]|]; [|discriminate].
  destruct (parse_folders (Z.to_nat nfo) buf cbf offset []) as [frs|]; [|discriminate].
  destruct (parse_files (Z.to_nat nfi) buf (Z.to_nat off) [] ∅) as [[fo ff]|] eqn:Ef;
    [|discriminate].
  inversion H; subst t; simpl.
  apply (parse_files_names _ _ _ _ _ _ _ Ef). split; [constructor|].
  intros name. rewrite lookup_empty. split; [by intros [? ?]|by intros ?%elem_of_nil].
Qed.

(** ** Layout preservation *)

(** The folder keys of the template's files, in the order of their first
    use along [file_order]. *)
Definition folder_use_order (t : CabLayoutTemplate) : list Z :=
  first_use (omap (fun n => file_folders t !! n) (file_order t)).

(** The key the template gives a name (0 for a name it does not know). *)
Definition key_of (t : CabLayoutTemplate) (n : string) : Z :=
  default 0 (file_folders t !! n).

Lemma omap_key_of (t : CabLayoutTemplate) (l : list string) :
  (forall n, n ∈ l -> is_Some (file_folders t !! n)) ->
  omap (fun n => file_folders t !! n) l = map (key_of t) l.
Proof.
  induction l as [|n l IH]; intros Hl; [done|].
  simpl. destruct (Hl n) as [k Hk]; [left|]. unfold key_of at 1. rewrite Hk. simpl.
  f_equal. apply IH. intros m Hm. apply Hl. by right.
Qed.

Section AllListed.

Variable set_iteration : gset string -> list string.

Lemma order_names_all_listed (a : CabArchive) (t : CabLayoutTemplate) (sort : bool) :
  set_iteration ∅ = [] ->
  NoDup (file_order t) ->
  archive_keys a ≡ₚ file_order t ->
  _order_names set_iteration a (Some t) sort = file_order t.
Proof.
  intros Hempty Hnd Hperm. rewrite order_names_unfold, template_part_NoDup by done.
  assert (Hrem : remaining_names a (Some t) = ∅).
  { unfold remaining_names. rewrite Hperm. set_solver. }
  rewrite Hrem, Hempty.
  replace (if sort then sorted [] else []) with (@nil string) by (by destruct sort).
  rewrite app_nil_r. apply filter_all.
  intros n Hn. apply elem_of_list_to_set. by rewrite Hperm.
Qed.

End AllListed.

(** The position of the first [k] in [ks]. *)
Fixpoint index_of_key (k : Z) (ks : list Z) : nat :=
  match ks with
  | [] => 0
  | k' :: r => if decide (k = k') then 0 else S (index_of_key k r)
  end.

Lemma index_of_key_lookup (k : Z) (ks : list Z) :
  k ∈ ks -> ks !! index_of_key k ks = Some k.
Proof.
  induction ks as [|k' ks IH]; intros Hin; simpl.
  - by apply elem_of_nil in Hin.
  - destruct (decide (k = k')) as [-> |Hne]; [done|].
    simpl. apply IH. by apply elem_of_cons in Hin as [?|?].
Qed.

Lemma index_of_key_at (ks : list Z) (i : nat) (k : Z) :
  NoDup ks -> ks !! i = Some k -> index_of_key k ks = i.
Proof.
  intros Hnd Hi.
  assert (Hin : k ∈ ks) by (apply list_elem_of_lookup; by exists i).
  eapply NoDup_lookup; [done| |done]. by apply index_of_key_lookup.
Qed.

(** The folder keys in use, as [_build_folders] meets them. *)
Definition used_keys (t : CabLayoutTemplate) : list Z :=
  first_use (map (key_of t) (file_order t)).

(** The index, in the output, of the folder that holds [name]: the
    position of the name's key in the order of first use. *)
Definition output_folder_index (t : CabLayoutTemplate) (name : string) : Z :=
  Z.of_nat (index_of_key (key_of t name) (used_keys t)).

(** The layout of the writer's output for a template [t] all of whose
    names are in the archive: the folders are those in use, in the order of
    first use, each with the reserve of its key. *)
Definition reparsed_layout (t : CabLayoutTemplate) : CabLayoutTemplate :=
  mkTemplate (set_id t) (cb_cfheader t) (cb_cffolder t) (cb_cfdata t)
    (written_header_reserve t)
    (map (folder_reserve t) (used_keys t))
    (file_order t)
    (foldl (fun m it => <[it.1 := it.2]> m) ∅
       (map (fun m => (m, output_folder_index t m)) (file_order t))).

Section FolderBuilds.

Variable deflate : list byte -> list byte.

(** The folders [_build_folders] makes when every name has a key in the
    template: one per key in use, in the order of first use. *)
Lemma build_folders_grouped (a : CabArchive) (t : CabLayoutTemplate)
    (compress : bool) (fbs : list _FolderBuild) :
  (forall m, m ∈ file_order t -> is_Some (file_folders t !! m)) ->
  _build_folders deflate a (file_order t) t compress = Ok fbs ->
  length fbs = length (used_keys t)
  /\ forall i k, used_keys t !! i = Some k ->
       exists fb,
         fbs !! i = Some fb
         /\ names fb = filter (fun m => key_of t m = k) (file_order t)
         /\ reserve fb = folder_reserve t k.
Proof.
  intros Hdom H. unfold _build_folders in H.
  change (@nil (Z * list string)) with (grouped (key_of t) []) in H.
  rewrite (assign_keys_grouped _ (key_of t)) in H.
  2:{ intros m Hm. destruct (Hdom m Hm) as [k Hk]. unfold key_of. by rewrite Hk. }
  simpl in H. apply build_folders_loop_inv in H.
  unfold grouped in H. fold (used_keys t) in H.
  pose proof (Forall2_length _ _ _ H) as Hlen.
  rewrite length_map in Hlen. split; [done|].
  intros i k Hi.
  assert (Hg : map (fun k => (k, filter (fun m => key_of t m = k) (file_order t)))
                 (used_keys t) !! i
               = Some (k, filter (fun m => key_of t m = k) (file_order t))).
  { by rewrite list_lookup_fmap, Hi. }
  destruct (Forall2_lookup_l _ _ _ _ _ H Hg) as (fb & Hfb & raw & _ & ->).
  by eexists.
Qed.

End FolderBuilds.

Lemma folder_index_grouped (t : CabLayoutTemplate) (fbs : list _FolderBuild)
    (name : string) :
  (forall i k, used_keys t !! i = Some k ->
     exists fb, fbs !! i = Some fb
       /\ names fb = filter (fun m => key_of t m = k) (file_order t)) ->
  length fbs = length (used_keys t) ->
  name ∈ file_order t ->
  folder_index_loop 0 fbs ∅ !! name = Some (output_folder_index t name).
Proof.
  intros Hfbs Hlen Hin. unfold output_folder_index.
  pose proof (first_use_NoDup (map (key_of t) (file_order t))) as Hnd.
  fold (used_keys t) in Hnd.
  assert (Hk : key_of t name ∈ used_keys t).
  { apply first_use_elem_of, list_elem_of_fmap. by exists name. }
  set (i := index_of_key (key_of t name) (used_keys t)).
  pose proof (index_of_key_lookup _ _ Hk) as Hi. fold i in Hi.
  destruct (Hfbs i _ Hi) as (fb & Hfb & Hnames).
  rewrite (folder_index_loop_lookup name fbs i 0 ∅ fb); [done|done| |].
  - rewrite Hnames. by apply list_elem_of_filter.
  - apply Forall_forall. intros fb' Hfb'.
    apply list_elem_of_lookup in Hfb' as (j & Hj).
    rewrite lookup_drop in Hj.
    pose proof (lookup_lt_Some _ _ _ Hj) as Hjn. rewrite Hlen in Hjn.
    destruct (lookup_lt_is_Some_2 _ _ Hjn) as [k' Hk'].
    destruct (Hfbs _ _ Hk') as (fb'' & Hfb'' & Hnames'').
    rewrite Hj in Hfb''. inversion Hfb''; subst fb''.
    rewrite Hnames''. intros [Hkey _]%list_elem_of_filter.
    rewrite <- Hkey in Hk'.
    pose proof (NoDup_lookup _ _ _ _ Hnd Hi Hk'). lia.
Qed.

Lemma insert_items_lookup (kf : string -> Z) (fo : list string) (name : string) :
  forall (m : gmap string Z),
    foldl (fun m it => <[it.1 := it.2]> m) m (map (fun n => (n, kf n)) fo) !! name
    = if decide (name ∈ fo) then Some (kf name) else m !! name.
Proof.
  induction fo as [|n fo IH]; intros m; simpl.
  - destruct (decide (name ∈ [])) as [Hin|]; [by apply elem_of_nil in Hin|done].
  - rewrite IH. destruct (decide (name ∈ fo)) as [Hin|Hnin].
    + by rewrite decide_True by (by right).
    + destruct (decide (name = n)) as [-> |Hne].
      * rewrite decide_True by left. apply lookup_insert_eq.
      * rewrite decide_False by (by intros [?|?]%elem_of_cons).
        by apply lookup_insert_ne.
Qed.

Lemma length_folder_entries (cb : nat) (ress entries : list (list byte)) :
  Forall2 (fun res e => folder_entry res e /\ length res = cb) ress entries ->
  length (concat entries) = (length ress * (Struct.calcsize FMT_CFFOLDER + cb))%nat.
Proof.
  induction 1 as [|res e ress entries [(rec & vs & Hpack & ->) Hres] _ IH]; [done|].
  cbn [concat length]. rewrite !length_app, IH, Hres, (Struct.length_pack _ _ _ Hpack).
  change (Struct.calcsize FMT_CFFOLDER) with 8%nat. lia.
Qed.

Lemma PyDict_get_elem_of {K V : Type} `{EqDecision K} (k : K) (v : V)
    (d : list (K * V)) :
  PyDict.get k d = Some v -> (k, v) ∈ d.
Proof.
  induction d as [|[k' v'] d IH]; simpl; [done|].
  destruct (decide (k = k')) as [-> |Hne].
  - intros H; inversion H. left.
  - intros H. right. by apply IH.
Qed.

Lemma use_reserve_false (t : CabLayoutTemplate) :
  use_reserve_of t = false ->
  cb_cfheader t = 0%nat /\ cb_cffolder t = 0%nat /\ cb_cfdata t = 0%nat
  /\ header_reserve t = [].
Proof.
  unfold use_reserve_of. rewrite !orb_false_iff, !negb_false_iff, !Nat.eqb_eq.
  intros [[[? ?] ?] ?]. repeat split; try done. by apply nil_length_inv.
Qed.

(** What [reparsed_layout] keeps of the template. *)

Lemma reparsed_folders_lookup (t : CabLayoutTemplate) (name : string) :
  file_folders (reparsed_layout t) !! name
  = if decide (name ∈ file_order t) then Some (output_folder_index t name) else None.
Proof.
  unfold reparsed_layout. cbn [file_folders]. rewrite insert_items_lookup.
  by rewrite lookup_empty.
Qed.

(** Two names of the template share a folder in the output exactly when
    they share one in the template. *)
Lemma reparsed_grouping (t : CabLayoutTemplate) (n m : string) :
  (forall x, x ∈ file_order t -> is_Some (file_folders t !! x)) ->
  n ∈ file_order t -> m ∈ file_order t ->
  (file_folders (reparsed_layout t) !! n = file_folders (reparsed_layout t) !! m
   <-> file_folders t !! n = file_folders t !! m).
Proof.
  intros Hdom Hn Hm. rewrite !reparsed_folders_lookup, !decide_True by done.
  destruct (Hdom n Hn) as [kn Hkn]. destruct (Hdom m Hm) as [km Hkm].
  unfold output_folder_index.
  assert (Hin : forall x, x ∈ file_order t -> key_of t x ∈ used_keys t).
  { intros x Hx. apply first_use_elem_of, list_elem_of_fmap. by exists x. }
  assert (Ekn : key_of t n = kn) by (unfold key_of; by rewrite Hkn).
  assert (Ekm : key_of t m = km) by (unfold key_of; by rewrite Hkm).
  rewrite Hkn, Hkm. split.
  - intros [= E%Nat2Z.inj].
    pose proof (index_of_key_lookup _ _ (Hin n Hn)) as H1.
    pose proof (index_of_key_lookup _ _ (Hin m Hm)) as H2.
    rewrite E in H1. rewrite H1 in H2. congruence.
  - intros [= E]. congruence.
Qed.

(** When the folders are first used in the order 0, 1, ..., n - 1 and the
    reserves are complete, the output has the layout of the template. *)
Lemma reparsed_in_order (t : CabLayoutTemplate) :
  (forall x, is_Some (file_folders t !! x) <-> x ∈ file_order t) ->
  Forall (fun r => length r = cb_cffolder t) (folder_reserves t) ->
  used_keys t = map Z.of_nat (seq 0 (length (folder_reserves t))) ->
  folder_reserves (reparsed_layout t) = folder_reserves t
  /\ file_folders (reparsed_layout t) = file_folders t.
Proof.
  intros Hdom Hfr Huse. split.
  - unfold reparsed_layout. cbn [folder_reserves]. rewrite Huse.
    apply list_eq. intros i. rewrite !list_lookup_fmap.
    destruct (decide (i < length (folder_reserves t))%nat) as [Hi|Hi].
    + rewrite lookup_seq_lt by done. simpl.
      destruct (lookup_lt_is_Some_2 _ _ Hi) as [r Hr]. rewrite Hr. f_equal.
      apply folder_reserve_lookup; [done|].
      rewrite Forall_forall in Hfr. apply Hfr, list_elem_of_lookup. by exists i.
    + rewrite lookup_seq_ge by lia. simpl. symmetry. apply lookup_ge_None. lia.
  - apply map_eq. intros name. rewrite reparsed_folders_lookup.
    destruct (decide (name ∈ file_order t)) as [Hin|Hnin].
    + destruct (proj2 (Hdom name) Hin) as [k Hk]. rewrite Hk. f_equal.
      unfold output_folder_index.
      assert (Hkey : key_of t name = k) by (unfold key_of; by rewrite Hk).
      assert (Hku : k ∈ used_keys t).
      { rewrite <- Hkey. apply first_use_elem_of, list_elem_of_fmap. by exists name. }
      rewrite Hkey. rewrite Huse in Hku |- *.
      apply list_elem_of_fmap in Hku as (i & -> & Hi%elem_of_seq). f_equal.
      apply index_of_key_at.
      * apply (NoDup_fmap_2 _). apply NoDup_seq.
      * rewrite list_lookup_fmap, lookup_seq_lt by lia. done.
    + symmetry. apply eq_None_not_Some. by rewrite Hdom.
Qed.

(** What the bytes [out], written for the template [T], keep of [T] when
    they are parsed again. *)
Definition layout_kept (T : CabLayoutTemplate) (out : list byte) : Prop :=
  exists T',
    parse_cab_layout out = Some T'
    /\ set_id T' = set_id T
    /\ cb_cfheader T' = cb_cfheader T
    /\ cb_cffolder T' = cb_cffolder T
    /\ cb_cfdata T' = cb_cfdata T
    /\ header_reserve T' = Struct.pad_to (cb_cfheader T) (header_reserve T)
    /\ (length (header_reserve T) = cb_cfheader T ->
        header_reserve T' = header_reserve T)
    /\ file_order T' = file_order T
    /\ (forall n m, n ∈ file_order T -> m ∈ file_order T ->
          (file_folders T' !! n = file_folders T' !! m
           <-> file_folders T !! n = file_folders T !! m))
    /\ folder_reserves T' = map (folder_reserve T) (folder_use_order T)
    /\ (Forall (fun r => length r = cb_cffolder T) (folder_reserves T) ->
        folder_use_order T = map Z.of_nat (seq 0 (length (folder_reserves T))) ->
        folder_reserves T' = folder_reserves T
        /\ file_folders T' = file_folders T).

Section LayoutRoundTrip.

Variable set_iteration : gset string -> list string.
Variable deflate : list byte -> list byte.
Variable checksum : list byte -> Z -> Z.

(** Re-parsing the output of [build_ce_cab_bytes], for a template obtained
    from a buffer and an archive that holds the files of that buffer. *)
Lemma layout_reparsed (B : list byte) (T : CabLayoutTemplate) (a : CabArchive)
    (compress sort : bool) (out : list byte) :
  parse_cab_layout B = Some T ->
  NoDup (file_order T) ->
  set_iteration ∅ = [] ->
  archive_keys a ≡ₚ file_order T ->
  Forall (fun entry => wire_name entry.2 entry.1 = entry.1) (files a) ->
  build_ce_cab_bytes set_iteration deflate checksum a compress (Some T) sort = Ok out ->
  parse_cab_layout out = Some (reparsed_layout T).
Proof.
  intros Hparse Hnd Hempty Hkeys Hwire Hbuild.
  destruct (parse_cab_layout_names _ _ Hparse) as [Hnul Hdom].
  assert (Hdom' : forall m, m ∈ file_order T -> is_Some (file_folders T !! m))
    by (intros m Hm; by apply Hdom).
  destruct (build_ce_cab_bytes_inv _ _ _ _ _ _ _ _ Hbuild)
    as (fbs & offsets & cffile & cffolder & cfdata & header
        & _ & Hfb & _ & _ & Hfile & Hblobs & Hhdr & Hout).
  rewrite order_names_all_listed in Hfb, Hfile, Hhdr by done.
  change (effective_template a (Some T)) with T in *.
  destruct (build_folders_grouped _ _ _ _ _ Hdom' Hfb) as [Hlen Hfbs].
  (* the folder table *)
  unfold _build_folder_and_data_blobs in Hblobs.
  destruct (folder_and_data_loop_folders _ _ _ _ _ _ _ _ Hblobs)
    as (fentries & -> & Hfentries).
  set (ress := map (folder_reserve T) (used_keys T)).
  assert (Hress : Forall2 (fun res e => folder_entry res e /\ length res = cb_cffolder T)
                    ress fentries).
  { apply Forall2_same_length_lookup. split.
    - apply Forall2_length in Hfentries. unfold ress. rewrite length_map. lia.
    - intros i r e Hr He. unfold ress in Hr. rewrite list_lookup_fmap in Hr.
      destruct (used_keys T !! i) as [k|] eqn:Hk; [|done].
      simpl in Hr. inversion Hr; subst r. clear Hr.
      destruct (Hfbs i k Hk) as (fb & Hfb' & _ & Hres).
      pose proof (Forall2_lookup_lr _ _ _ _ _ _ Hfentries Hfb' He) as Hentry.
      simpl in Hentry. pose proof (length_folder_reserve T k) as Hrl.
      split; [|done]. rewrite Hres in Hentry.
      destruct (decide (cb_cffolder T = 0%nat)) as [Hz|]; [|done].
      rewrite Hz in Hrl. apply nil_length_inv in Hrl. by rewrite Hrl. }
  pose proof (length_folder_entries _ _ _ Hress) as Hflen.
  assert (Hrlen : length ress = length fbs)
    by (unfold ress; rewrite length_map; lia).
  (* the file table *)
  destruct (build_cffile_blob_inv _ _ _ _ _ Hfile) as (entries & -> & Hentries).
  set (items := map (fun m => (m, output_folder_index T m)) (file_order T)).
  assert (Hitems : Forall2
            (fun it e => file_entry it.1 it.2 e /\ x00 ∉ list_byte_of_string it.1)
            items entries).
  { apply Forall2_same_length_lookup. split.
    - apply Forall2_length in Hentries. unfold items. by rewrite length_map.
    - intros i [m k] e Hit He. unfold items in Hit.
      rewrite list_lookup_fmap in Hit.
      destruct (file_order T !! i) as [m'|] eqn:Hm; [|done].
      simpl in Hit. inversion Hit; subst m' k. clear Hit.
      assert (Hin : m ∈ file_order T) by (apply list_elem_of_lookup; by exists i).
      destruct (Forall2_lookup_lr _ _ _ _ _ _ Hentries Hm He)
        as (f & idx & Hf & Hidx & Hentry).
      rewrite (folder_index_grouped T fbs m) in Hidx; try done.
      2:{ intros j k Hj. destruct (Hfbs j k Hj) as (fb & ? & ? & ?). by exists fb. }
      inversion Hidx; subst idx.
      apply PyDict_get_elem_of in Hf. rewrite Forall_forall in Hwire.
      pose proof (Hwire _ Hf) as Hw. simpl in Hw. rewrite Hw in Hentry.
      split; [done|].
      rewrite Forall_forall in Hnul. by apply Hnul. }
  assert (Hfo : items.*1 = file_order T).
  { unfold items. rewrite <- list_fmap_compose. apply list_fmap_id. }
  assert (Hcount : length items = length (file_order T))
    by (unfold items; by rewrite length_map).
  pose proof (Struct.length_pack _ _ _ Hhdr) as Hhlen.
  change (Struct.calcsize FMT_CFHEADER) with 36%nat in Hhlen.
  (* the header *)
  unfold parse_cab_layout.
  assert (Hunpack : forall rest, Struct.unpack_from FMT_CFHEADER (header ++ rest) 0
            = Some (Struct.canon FMT_CFHEADER
                [Struct.VBytes MSCF;
                 Struct.VInt (Z.of_nat (header_size_of T + length (concat fentries)
                                        + length (concat entries) + length cfdata));
                 Struct.VInt (Z.of_nat (header_size_of T
                    + length fbs * (Struct.calcsize FMT_CFFOLDER + cb_cffolder T)));
                 Struct.VInt 3; Struct.VInt 1;
                 Struct.VInt (Z.of_nat (length fbs));
                 Struct.VInt (Z.of_nat (length (file_order T)));
                 Struct.VInt (if use_reserve_of T then 4 else 0);
                 Struct.VInt (set_id T); Struct.VInt 0])).
  { intros rest. apply (Struct.unpack_from_pack _ _ _ [] rest Hhdr). }
  destruct Hout as [(Hu & ->)|(Hu & descr & Hdescr & ->)].
  - (* no reserve areas *)
    destruct (use_reserve_false _ Hu) as (Hcbh & Hcbf & Hcbd & Hhr0).
    rewrite Hunpack. cbn [Struct.canon FMT_CFHEADER]. rewrite Hu.
    change (Struct.pad_to 4 MSCF) with MSCF. rewrite decide_True by done.
    unfold parse_reserve. rewrite decide_True by done.
    rewrite !Nat2Z.id.
    replace (header_size_of T + length fbs * (Struct.calcsize FMT_CFFOLDER + cb_cffolder T))%nat
      with (length (header ++ concat fentries)).
    2:{ rewrite length_app, Hflen, Hhlen, Hrlen. unfold header_size_of. rewrite Hu.
        change (Struct.calcsize FMT_CFHEADER) with 36%nat. lia. }
    rewrite <- Hrlen.
    change (Struct.calcsize FMT_CFHEADER) with 36%nat.
    rewrite <- Hhlen at 1.
    replace (header ++ concat fentries ++ concat entries ++ cfdata)
      with (header ++ concat fentries ++ (concat entries ++ cfdata)) by done.
    rewrite <- Hcbf at 1.
    rewrite (parse_folders_concat _ _ _ Hress). simpl app.
    rewrite (app_assoc header). rewrite <- Hcount.
    rewrite (parse_files_concat _ _ Hitems). simpl app. rewrite Hfo.
    f_equal. unfold reparsed_layout, written_header_reserve.
    fold ress. fold items. rewrite Hhr0, Hcbh, Hcbf, Hcbd. reflexivity.
  - (* with reserve areas *)
    pose proof (Struct.length_pack _ _ _ Hdescr) as Hdlen.
    change (Struct.calcsize FMT_CFHEADER_RESERVE) with 4%nat in Hdlen.
    pose proof (Struct.length_pad_to (cb_cfheader T) (header_reserve T)) as Hwlen.
    fold (written_header_reserve T) in Hwlen.
    rewrite Hunpack. cbn [Struct.canon FMT_CFHEADER]. rewrite Hu.
    change (Struct.pad_to 4 MSCF) with MSCF. rewrite decide_True by done.
    unfold parse_reserve. rewrite decide_False by done.
    change (Struct.calcsize FMT_CFHEADER) with 36%nat.
    rewrite <- Hhlen at 1.
    rewrite <- (app_assoc descr).
    rewrite (Struct.unpack_from_pack _ _ _ header _ Hdescr).
    cbn [Struct.canon FMT_CFHEADER_RESERVE]. rewrite !Nat2Z.id.
    change (Struct.calcsize FMT_CFHEADER_RESERVE) with 4%nat.
    replace (header_size_of T + length fbs * (Struct.calcsize FMT_CFFOLDER + cb_cffolder T))%nat
      with (length ((header ++ descr ++ written_header_reserve T) ++ concat fentries)).
    2:{ rewrite !length_app, Hflen, Hhlen, Hdlen, Hrlen, Hwlen. unfold header_size_of.
        rewrite Hu. change (Struct.calcsize FMT_CFHEADER) with 36%nat.
        change (Struct.calcsize FMT_CFHEADER_RESERVE) with 4%nat. lia. }
    assert (Hslice : slice (header ++ descr ++ written_header_reserve T
                            ++ concat fentries ++ concat entries ++ cfdata)
                       (36 + 4) (36 + 4 + cb_cfheader T) = written_header_reserve T).
    { replace (36 + 4)%nat with (length (header ++ descr))
        by (rewrite length_app; lia).
      rewrite <- Hwlen. rewrite (app_assoc header descr). apply slice_at. }
    rewrite Hslice.
    replace (header ++ descr ++ written_header_reserve T
             ++ concat fentries ++ concat entries ++ cfdata)
      with ((header ++ descr ++ written_header_reserve T)
             ++ concat fentries ++ (concat entries ++ cfdata))
      by (by rewrite <- !app_assoc).
    replace (36 + 4 + cb_cfheader T)%nat
      with (length (header ++ descr ++ written_header_reserve T))
      by (rewrite !length_app; lia).
    rewrite <- Hrlen.
    rewrite (parse_folders_concat _ _ _ Hress). simpl app.
    rewrite (app_assoc (header ++ descr ++ written_header_reserve T)). rewrite <- Hcount.
    rewrite (parse_files_concat _ _ Hitems). simpl app. rewrite Hfo.
    reflexivity.
Qed.

(** C4, amended. Let [T = parse_cab_layout(B)] for a buffer [B] whose file
    names are distinct, and let the archive hold exactly the files of [B]
    under their own names. Re-parsing what [build_ce_cab_bytes] returns for
    this archive and [T] succeeds and yields the [set_id], the reserve
    sizes and the file order of [T]; the header reserve of [T] cut or
    padded to [cb_cfheader] (the header reserve itself when it is
    complete); the same grouping of the names into folders; and, as
    per-folder reserves, the reserves of the folders in use, in the order in
    which the file table first uses them. When the reserves are complete
    and the file table uses the folders in the order 0, 1, ..., n - 1, these
    are the per-folder reserves of [T], and every name keeps its folder
    index. *)
Theorem layout_preserved (B : list byte) (T : CabLayoutTemplate) (a : CabArchive)
    (compress sort : bool) (out : list byte) :
  parse_cab_layout B = Some T ->
  NoDup (file_order T) ->
  set_iteration ∅ = [] ->
  archive_keys a ≡ₚ file_order T ->
  Forall (fun entry => wire_name entry.2 entry.1 = entry.1) (files a) ->
  build_ce_cab_bytes set_iteration deflate checksum a compress (Some T) sort = Ok out ->
  layout_kept T out.
Proof.
  intros Hparse Hnd Hempty Hkeys Hwire Hbuild.
  exists (reparsed_layout T).
  destruct (parse_cab_layout_names _ _ Hparse) as [_ Hdom].
  assert (Huk : folder_use_order T = used_keys T).
  { unfold folder_use_order, used_keys. rewrite omap_key_of; [done|].
    intros m Hm. by apply Hdom. }
  split; [by eapply layout_reparsed|].
  repeat (split; [reflexivity|]).
  split; [intros Hhr; by apply Struct.pad_to_exact|].
  split; [reflexivity|].
  split; [intros n m Hn Hm; apply reparsed_grouping; [|done|done];
          intros x Hx; by apply Hdom|].
  split; [by rewrite Huk|].
  intros Hfr Huse. rewrite Huk in Huse. by apply reparsed_in_order.
Qed.

End LayoutRoundTrip.

(** ** Instances of the external functions, for concrete runs *)

(** A DEFLATE encoder that does not compress: one final stored block. *)
Definition stored_deflate (plain : list byte) : list byte :=
  let len := Z.of_nat (length plain) in
  [x01] ++ Struct.le_bytes 2 len ++ Struct.le_bytes 2 (65535 - len) ++ plain.

(** A checksum in the manner of the CAB block checksum: the exclusive or of
    the seed with the 32-bit little-endian words of the data and with the
    word accumulated from the residual bytes. *)
Fixpoint xor_checksum (data : list byte) (seed : Z) : Z :=
  match data with
  | b0 :: b1 :: b2 :: b3 :: rest =>
      xor_checksum rest (Z.lxor seed (Struct.le_value [b0; b1; b2; b3]))
  | tail => Z.lxor seed (foldl (fun w b => w * 256 + Struct.Z_of_byte b) 0 tail)
  end.

(** A template with reserve areas and two folders, used in file order. *)
Definition ex_layout : CabLayoutTemplate :=
  mkTemplate 513 2 1 0 [xaa; xbb] [[x11]; [x22]] ["a.txt"; "b.txt"]
    {["a.txt" := 0; "b.txt" := 1]}.

(** The same, with the file of folder 1 listed before the file of
    folder 0. *)
Definition ex_layout_swapped : CabLayoutTemplate :=
  mkTemplate 513 2 1 0 [xaa; xbb] [[x11]; [x22]] ["a.txt"; "b.txt"]
    {["a.txt" := 1; "b.txt" := 0]}.

(** A stored cabinet with reserve areas: two folders (reserves [11] and
    [22]), the file [a.txt] in folder 0 and the file [b.txt] in folder 1. *)
Definition ex_cab_header : list byte :=
  [x4d; x53; x43; x46; x00; x00; x00; x00; x7a; x00; x00; x00; x00; x00; x00; x00;
   x3c; x00; x00; x00; x00; x00; x00; x00; x03; x01; x02; x00; x02; x00; x04; x00;
   x01; x02; x00; x00;
   x02; x00; x01; x00; xaa; xbb].

Definition ex_cab_folders : list byte :=
  [x68; x00; x00; x00; x01; x00; x00; x00; x11;
   x71; x00; x00; x00; x01; x00; x00; x00; x22].

(** A CFFILE entry for a file of one byte in folder [i]. *)
Definition ex_cab_file (i : byte) (name : list byte) : list byte :=
  [x01; x00; x00; x00; x00; x00; x00; x00; i; x00; xb1; x58; xc6; x53; x20; x00]
    ++ name ++ [x00].

Definition ex_cab_data : list byte :=
  [x60; x00; x01; x00; x01; x00; x01; x00; x61;
   x63; x00; x01; x00; x01; x00; x01; x00; x62].

Definition ex_cab : list byte :=
  ex_cab_header ++ ex_cab_folders
    ++ ex_cab_file x00 [x61; x2e; x74; x78; x74]
    ++ ex_cab_file x01 [x62; x2e; x74; x78; x74]
    ++ ex_cab_data.

(** The same cabinet with the file of folder 1 listed first. *)
Definition ex_cab_swapped : list byte :=
  ex_cab_header ++ ex_cab_folders
    ++ ex_cab_file x01 [x61; x2e; x74; x78; x74]
    ++ ex_cab_file x00 [x62; x2e; x74; x78; x74]
    ++ ex_cab_data.

Example parse_ex_cab : parse_cab_layout ex_cab = Some ex_layout.
Proof. vm_compute. reflexivity. Qed.

Example parse_ex_cab_swapped : parse_cab_layout ex_cab_swapped = Some ex_layout_swapped.
Proof. vm_compute. reflexivity. Qed.

Example build_ex_cab :
  build_ce_cab_bytes elements stored_deflate xor_checksum ex_archive_ab false
    (Some ex_layout) true = Ok ex_cab.
Proof. vm_compute. reflexivity. Qed.

Lemma layout_preserved_witness : layout_kept ex_layout ex_cab.
Proof.
  apply (layout_preserved elements stored_deflate xor_checksum
           ex_cab ex_layout ex_archive_ab false true ex_cab).
  - vm_compute. reflexivity.
  - apply (bool_decide_unpack (NoDup (file_order ex_layout))). vm_compute. exact I.
  - reflexivity.
  - reflexivity.
  - repeat constructor.
  - vm_compute. reflexivity.
Defined.

(** On [ex_cab], whose file table uses folder 0 and then folder 1, the
    output is the buffer itself and its layout is the template. *)
Example layout_preserved_in_order :
  build_ce_cab_bytes elements stored_deflate xor_checksum ex_archive_ab false
    (Some ex_layout) true = Ok ex_cab
  /\ parse_cab_layout ex_cab = Some ex_layout.
Proof. split; vm_compute; reflexivity. Qed.

(** C4 as stated: for every parseable buffer [B] with layout [T] and the
    archive that holds the files of [B], re-parsing the output gives back
    the [set_id], the reserve sizes, the header reserve, the per-folder
    reserves and the file order of [B], and two names share a folder in the
    output exactly when they do in [T]. *)
Definition layout_claim (set_iteration : gset string -> list string)
    (deflate : list byte -> list byte) (checksum : list byte -> Z -> Z) : Prop :=
  forall (B : list byte) (T : CabLayoutTemplate) (a : CabArchive)
         (compress : bool) (out : list byte),
    parse_cab_layout B = Some T ->
    archive_keys a ≡ₚ file_order T ->
    Forall (fun entry => wire_name entry.2 entry.1 = entry.1) (files a) ->
    build_ce_cab_bytes set_iteration deflate checksum a compress (Some T) true = Ok out ->
    exists T',
      parse_cab_layout out = Some T'
      /\ set_id T' = set_id T
      /\ cb_cfheader T' = cb_cfheader T
      /\ cb_cffolder T' = cb_cffolder T
      /\ cb_cfdata T' = cb_cfdata T
      /\ header_reserve T' = header_reserve T
      /\ folder_reserves T' = folder_reserves T
      /\ file_order T' = file_order T
      /\ (forall n m, n ∈ file_order T -> m ∈ file_order T ->
            (file_folders T' !! n = file_folders T' !! m
             <-> file_folders T !! n = file_folders T !! m)).

(** C4 as stated fails on [ex_cab_swapped]: the writer emits the folders in
    the order in which the file table first uses them, so the folder of
    [a.txt] (reserve [22]) is written first and the re-parsed per-folder
    reserves are [22], [11] instead of [11], [22]. *)
Lemma layout_not_preserved_swapped :
  ~ layout_claim elements stored_deflate xor_checksum.
Proof.
  intros H.
  destruct (H ex_cab_swapped ex_layout_swapped ex_archive_ab false
              (ex_cab_header
                 ++ [x68; x00; x00; x00; x01; x00; x00; x00; x22;
                     x71; x00; x00; x00; x01; x00; x00; x00; x11]
                 ++ ex_cab_file x00 [x61; x2e; x74; x78; x74]
                 ++ ex_cab_file x01 [x62; x2e; x74; x78; x74]
                 ++ ex_cab_data))
    as (T' & Hparse & _ & _ & _ & _ & _ & Hfr & _).
  - vm_compute. reflexivity.
  - reflexivity.
  - repeat constructor.
  - vm_compute. reflexivity.
  - vm_compute in Hparse. inversion Hparse; subst T'. discriminate Hfr.
Qed.

(** The same for every iteration order of sets, DEFLATE encoder and
    checksum with which the writer returns at all on this input: by
    [layout_reparsed] the re-parsed per-folder reserves are those of the
    folders in their order of first use, which here is 1, 0. *)
Lemma layout_not_preserved_any_writer :
  ~ (exists (set_iteration : gset string -> list string)
            (deflate : list byte -> list byte) (checksum : list byte -> Z -> Z),
       set_iteration ∅ = []
       /\ (exists out,
             build_ce_cab_bytes set_iteration deflate checksum ex_archive_ab false
               (Some ex_layout_swapped) true = Ok out)
       /\ layout_claim set_iteration deflate checksum).
Proof.
  intros (si & deflate & cs & Hempty & (out & Hbuild) & Hclaim).
  assert (Hparse : parse_cab_layout ex_cab_swapped = Some ex_layout_swapped)
    by (vm_compute; reflexivity).
  assert (Hkeys : archive_keys ex_archive_ab ≡ₚ file_order ex_layout_swapped)
    by reflexivity.
  assert (Hwire : Forall (fun entry => wire_name entry.2 entry.1 = entry.1)
                    (files ex_archive_ab)) by (repeat constructor).
  assert (Hnd : NoDup (file_order ex_layout_swapped)).
  { apply (bool_decide_unpack (NoDup (file_order ex_layout_swapped))).
    vm_compute. exact I. }
  destruct (Hclaim _ _ _ _ _ Hparse Hkeys Hwire Hbuild)
    as (T1 & Hp1 & _ & _ & _ & _ & _ & Hfr1 & _).
  rewrite (layout_reparsed si deflate cs _ _ _ _ _ _ Hparse Hnd Hempty Hkeys Hwire Hbuild)
    in Hp1.
  inversion Hp1; subst T1. vm_compute in Hfr1. discriminate Hfr1.
Qed.



(** ** Dictionary updates *)

Section PyDictFacts.
Context {K V : Type} `{EqDecision K}.

Lemma PyDict_get_set_eq (k : K) (v : V) (d : list (K * V)) :
  PyDict.get k (PyDict.set k v d) = Some v.
Proof.
  induction d as [|[k' v'] d IH]; simpl.
  - by rewrite decide_True.
  - destruct (decide (k = k')) as [-> |Hne]; simpl.
    + by rewrite decide_True.
    + by rewrite decide_False.
Qed.

Lemma PyDict_get_set_ne (k k' : K) (v : V) (d : list (K * V)) :
  k' <> k -> PyDict.get k' (PyDict.set k v d) = PyDict.get k' d.
Proof.
  intros Hne. induction d as [|[k0 v0] d IH]; simpl.
  - by rewrite decide_False.
  - destruct (decide (k = k0)) as [-> |Hne0]; simpl.
    + by rewrite !decide_False.
    + destruct (decide (k' = k0)); [done|apply IH].
Qed.

Lemma PyDict_keys_set_mem (k : K) (v : V) (d : list (K * V)) :
  PyDict.mem k d = true -> PyDict.keys (PyDict.set k v d) = PyDict.keys d.
Proof.
  unfold PyDict.mem, PyDict.keys. induction d as [|[k' v'] d IH]; simpl; [done|].
  destruct (decide (k = k')) as [-> |Hne]; simpl; [done|].
  intros Hm. f_equal. by apply IH.
Qed.

Lemma PyDict_set_set (k : K) (v w : V) (d : list (K * V)) :
  PyDict.set k w (PyDict.set k v d) = PyDict.set k w d.
Proof.
  induction d as [|[k' v'] d IH]; simpl.
  - by rewrite decide_True.
  - destruct (decide (k = k')) as [-> |Hne]; simpl.
    + by rewrite decide_True.
    + rewrite decide_False by done. by rewrite IH.
Qed.

Lemma PyDict_set_nonempty (k : K) (v : V) (d : list (K * V)) :
  PyDict.set k v d <> [].
Proof. destruct d as [|[k' v'] d]; simpl; [done|]. by destruct (decide (k = k')). Qed.

Lemma PyDict_mem_get (k : K) (d : list (K * V)) :
  PyDict.mem k d = false -> PyDict.get k d = None.
Proof. unfold PyDict.mem. by destruct (PyDict.get k d). Qed.

Lemma PyDict_get_None_keys (k : K) (d : list (K * V)) :
  PyDict.get k d = None <-> k ∉ PyDict.keys d.
Proof.
  unfold PyDict.keys. induction d as [|[k' v'] d IH]; simpl.
  - split; [intros _; apply not_elem_of_nil|done].
  - destruct (decide (k = k')) as [-> |Hne].
    + split; [done|]. intros Hn. exfalso. apply Hn. left.
    + rewrite IH, not_elem_of_cons. tauto.
Qed.

End PyDictFacts.

(** ** The editor's index *)

(** [_rebuild_index] writes the records and the directories and nothing
    else. *)
Lemma rebuild_index_frame (X : Externals) (e : CabEditor) :
  exists recs dirs, _rebuild_index X e = with_index e recs dirs.
Proof.
  unfold _rebuild_index.
  destruct (no_archive (with_index e [] [])); [by exists [], []|].
  change (archive (with_index e [] [])) with (archive e).
  change (xml_root (with_index e [] [])) with (xml_root e).
  destruct (archive e) as [a|]; [|by exists [], []].
  destruct (xml_root e) as [root|]; by eexists _, _.
Qed.

(** ** [update_file] *)

(** The value of the manifest's [NumFiles] parameter, if there is one. *)
Definition numfiles_value (root : option Xml.Element) : option string :=
  match root with
  | None => None
  | Some r =>
      match find_numfiles r with
      | None => None
      | Some parm => PyDict.get "value" (Xml.attrib parm)
      end
  end.

(** C10, amended. A successful [update_file(source_name, upload)] replaces
    the entry of [source_name], at the same place in the archive, by a file
    that is constructed anew from the uploaded payload and the current
    time: its payload and its timestamp are the new ones, and its attributes
    are those of a newly constructed file, whatever the attributes of the
    old entry were. Every other entry of the archive is unchanged, the
    manifest tree and with it the [NumFiles] value are unchanged, and the
    payload of the [_setup.xml] entry is not resynchronized from the tree
    (unless [_setup.xml] is itself the updated name, the entry is the one it
    was). The path, the loaded name, the encoding and the signature
    snapshot are unchanged too. *)
Theorem update_file_frame (X : Externals) (now : DateTime) (source : string)
    (payload : list byte) (e e' : CabEditor) :
  update_file X now source payload e = (e', Ok tt) ->
  exists a a' old new,
    archive e = Some a /\ archive e' = Some a'
    /\ PyDict.get source (files a) = Some old
    /\ PyDict.get source (files a') = Some new
    /\ buf new = Some payload
    /\ date new = Some (dt_date now) /\ time new = Some (dt_time now)
    /\ attr new = default_attr X
    /\ (forall other, other <> source ->
          PyDict.get other (files a') = PyDict.get other (files a))
    /\ archive_keys a' = archive_keys a
    /\ set_id_of a' = set_id_of a
    /\ xml_root e' = xml_root e
    /\ numfiles_value (xml_root e') = numfiles_value (xml_root e)
    /\ (source <> "_setup.xml" ->
          PyDict.get "_setup.xml" (files a') = PyDict.get "_setup.xml" (files a))
    /\ path e' = path e /\ loaded_name e' = loaded_name e
    /\ setup_encoding e' = setup_encoding e
    /\ signature_before e' = signature_before e.
Proof.
  unfold update_file. intros H.
  destruct (no_archive e) eqn:En; [by inversion H|].
  destruct (archive e) as [a|] eqn:Ea; [|by inversion H].
  destruct (PyDict.mem source (files a)) eqn:Em; simpl in H; [|by inversion H].
  destruct payload as [|b payload]; [by inversion H|].
  inversion H; subst e'; clear H.
  assert (Hold : exists old, PyDict.get source (files a) = Some old).
  { unfold PyDict.mem in Em. destruct (PyDict.get source (files a)) as [old|]; [|done].
    by exists old. }
  destruct Hold as (old & Hold).
  exists a, (archive_set a source (new_CabFile X (b :: payload) now)), old,
    (new_CabFile X (b :: payload) now).
  destruct (rebuild_index_frame X (with_archive e (Some (archive_set a source
                  (new_CabFile X (b :: payload) now))))) as (recs & dirs & ->).
  simpl. repeat split; try done.
  - apply PyDict_get_set_eq.
  - intros other Hne. by apply PyDict_get_set_ne.
  - by apply PyDict_keys_set_mem.
  - intros Hne. by apply PyDict_get_set_ne.
Qed.

(** ** The manifest: removal finds what enumeration yields *)

(** Induction on elements, with the hypothesis for every child. *)
Fixpoint Element_children_ind (P : Xml.Element -> Prop)
    (H : forall t a cs, Forall P cs -> P (Xml.Elem t a cs)) (e : Xml.Element) : P e :=
  match e with
  | Xml.Elem t a cs =>
      H t a cs
        ((fix go (l : list Xml.Element) : Forall P l :=
            match l with
            | [] => Forall_nil_2 P
            | c :: r => Forall_cons_2 P c r (Element_children_ind P H c) (go r)
            end) cs)
  end.

Lemma remove_first_is_Some (P : Xml.Element -> bool) (l : list Xml.Element) :
  is_Some (Xml.remove_first P l) <-> exists x, x ∈ l /\ P x = true.
Proof.
  induction l as [|x l IH]; simpl.
  - split; [by intros [? ?]|]. by intros (? & ?%elem_of_nil & _).
  - destruct (P x) eqn:Ex.
    + split; [|intros _; by eexists]. intros _. exists x. split; [left|done].
    + rewrite fmap_is_Some, IH. split.
      * intros (y & Hy & HP). exists y. split; [by right|done].
      * intros (y & Hy & HP). apply elem_of_cons in Hy as [-> |Hy]; [congruence|].
        by exists y.
Qed.

Lemma update_first_is_Some (P : Xml.Element -> bool)
    (f : Xml.Element -> option Xml.Element) (l : list Xml.Element) :
  is_Some (Xml.update_first P f l)
  <-> exists x, head (filter (fun c => P c) l) = Some x /\ is_Some (f x).
Proof.
  induction l as [|x l IH]; simpl.
  - split; [by intros [? ?]|]. by intros (? & ? & _).
  - destruct (P x) eqn:Ex.
    + rewrite filter_cons_True by (rewrite Ex; exact I). simpl. rewrite fmap_is_Some.
      split; [intros Hs; by exists x|]. by intros (y & [= <-] & Hy).
    + rewrite filter_cons_False by (rewrite Ex; exact id). by rewrite fmap_is_Some, IH.
Qed.

Section RemovalFinds.

Variable X : Externals.

(** A parent under which [remove_xml_file_node] finds a node for
    [source]. *)
Definition has_match (source : string) (parent : Xml.Element) : Prop :=
  exists child, child ∈ Xml.children parent /\ source_matches X source child = true.

Lemma remove_under_is_Some (source : string) (parent : Xml.Element) :
  is_Some (remove_under X source parent)
  <-> Xml.is_characteristic parent = true /\ has_match source parent.
Proof.
  unfold remove_under, has_match. destruct (Xml.is_characteristic parent).
  - rewrite fmap_is_Some, remove_first_is_Some. tauto.
  - split; [by intros [? ?]|]. by intros [? _].
Qed.

Lemma remove_in_descendants_is_Some (source : string) (e : Xml.Element) :
  is_Some (remove_in_descendants X source e)
  <-> exists parent,
        parent ∈ Xml.descendant_characteristics e /\ has_match source parent.
Proof.
  induction e as [t a cs IH] using Element_children_ind.
  cbn [remove_in_descendants Xml.descendant_characteristics].
  rewrite fmap_is_Some.
  induction IH as [|c r Hc _ IHr].
  - split; [by intros [? ?]|]. by intros (? & ?%elem_of_nil & _).
  - destruct (remove_under X source c) as [c'|] eqn:Eu.
    + split; [|intros _; by eexists]. intros _.
      assert (Hs : is_Some (remove_under X source c)) by (by rewrite Eu).
      apply remove_under_is_Some in Hs as [Hchar Hm].
      exists c. split; [|done]. rewrite Hchar. left.
    + assert (Hn : ~ (Xml.is_characteristic c = true /\ has_match source c)).
      { rewrite <- remove_under_is_Some, Eu. by intros [? ?]. }
      destruct (remove_in_descendants X source c) as [c'|] eqn:Ed.
      * split; [|intros _; by eexists]. intros _.
        destruct (proj1 Hc) as (parent & Hp & Hm); [by eauto|].
        exists parent. split; [|done].
        rewrite !elem_of_app. right. by left.
      * rewrite fmap_is_Some, IHr. split.
        -- intros (parent & Hp & Hm). exists parent. split; [|done].
           rewrite !elem_of_app. by do 2 right.
        -- intros (parent & Hp & Hm).
           rewrite !elem_of_app in Hp. destruct Hp as [Hp|[Hp|Hp]].
           ++ exfalso. apply Hn. destruct (Xml.is_characteristic c) eqn:Ec.
              ** apply list_elem_of_singleton in Hp. by subst.
              ** by apply elem_of_nil in Hp.
           ++ exfalso. destruct (proj2 Hc) as [? ?]; [by eauto|done].
           ++ by exists parent.
Qed.

Lemma file_nodes_of_match (source : string) (parent : Xml.Element) :
  (exists triple,
     triple ∈ file_nodes_of parent
     /\ lower X (Xml.attr_get "value" triple.2) = lower X source)
  <-> has_match source parent.
Proof.
  unfold file_nodes_of, has_match, source_matches, Xml.child_characteristics. split.
  - intros ([[p fn] ex] & Hin & Heq). simpl in Heq.
    apply list_elem_of_In, in_flat_map in Hin as (fn' & Hfn & Hin).
    apply list_elem_of_In, list_elem_of_filter in Hfn as [Hchar Hfn].
    exists fn'. split; [done|].
    destruct (Xml.find_extract fn') as [ex'|]; [|by destruct Hin].
    destruct Hin as [Hin|[]]. inversion Hin; subst.
    apply Is_true_true in Hchar. rewrite Hchar. simpl. by apply bool_decide_eq_true_2.
  - intros (child & Hin & Hm). apply andb_true_iff in Hm as [Hchar Hm].
    destruct (Xml.find_extract child) as [ex|] eqn:Ex; [|done].
    apply bool_decide_eq_true_1 in Hm.
    exists (parent, child, ex). split; [|done].
    apply list_elem_of_In, in_flat_map. exists child. split.
    + apply list_elem_of_In, list_elem_of_filter. split; [by apply Is_true_true|done].
    + rewrite Ex. left. done.
Qed.

(** [remove_xml_file_node] returns [True] exactly when [iter_file_nodes]
    yields a file node whose [Source] value equals the name, case folded. *)
Lemma remove_xml_file_node_true (root : Xml.Element) (source : string) :
  (remove_xml_file_node X root source).2 = true
  <-> exists triple,
        triple ∈ iter_file_nodes root
        /\ lower X (Xml.attr_get "value" triple.2) = lower X source.
Proof.
  unfold remove_xml_file_node, iter_file_nodes, find_fileop, Xml.find_characteristic.
  transitivity (is_Some (Xml.update_first is_fileop (remove_in_descendants X source)
                           (Xml.children root))).
  { destruct (Xml.update_first _ _ _); simpl; split; try done; by intros [? ?]. }
  rewrite update_first_is_Some. unfold is_fileop.
  destruct (head (filter _ (Xml.children root))) as [fileop|].
  - split.
    + intros (x & [= <-] & Hs). apply remove_in_descendants_is_Some in Hs
        as (parent & Hp & Hm).
      apply file_nodes_of_match in Hm as (triple & Ht & Heq).
      exists triple. split; [|done].
      apply list_elem_of_In, in_flat_map. exists parent.
      split; by apply list_elem_of_In.
    + intros (triple & Ht & Heq). exists fileop. split; [done|].
      apply remove_in_descendants_is_Some.
      apply list_elem_of_In, in_flat_map in Ht as (parent & Hp & Ht).
      exists parent. split; [by apply list_elem_of_In|].
      apply file_nodes_of_match. exists triple. split; [by apply list_elem_of_In|done].
  - split; [by intros (? & ? & _)|]. by intros (? & ?%elem_of_nil & _).
Qed.

End RemovalFinds.

(** ** [remove_file] *)

(** C6, amended. On a loaded editor, [remove_file(source_name)] fails, with
    [KeyError], exactly when a manifest is present and no file node that
    [iter_file_nodes] yields has a [Source] value equal to [source_name]
    up to case; it has no other failure. Without a manifest it always
    completes: a name that is not an archive key leaves the archive as it
    was, a name that is one is deleted, and in both cases no error and no
    result tells the caller which of the two happened. *)
Theorem remove_file_outcome (X : Externals) (now : DateTime) (source : string)
    (e : CabEditor) :
  no_archive e = false ->
  let r := remove_file X now source e in
  (r.2 = Raise KeyError
   <-> exists root,
         xml_root e = Some root
         /\ ~ exists triple,
                triple ∈ iter_file_nodes root
                /\ lower X (Xml.attr_get "value" triple.2) = lower X source)
  /\ (r.2 = Ok tt \/ r.2 = Raise KeyError)
  /\ (xml_root e = None ->
      r.2 = Ok tt
      /\ forall a, archive e = Some a ->
           archive r.1
           = Some (if PyDict.mem source (files a) then archive_del a source else a)).
Proof.
  intros Hload. cbv zeta. unfold remove_file. rewrite Hload.
  destruct (archive e) as [a|] eqn:Ea; [|by unfold no_archive in Hload; rewrite Ea in Hload].
  set (e1 := if PyDict.mem source (files a)
             then with_archive e (Some (archive_del a source)) else e).
  assert (Hx : xml_root e1 = xml_root e) by (unfold e1; by destruct (PyDict.mem _ _)).
  assert (Ha : archive e1
               = Some (if PyDict.mem source (files a) then archive_del a source else a))
    by (unfold e1; by destruct (PyDict.mem _ _)).
  clearbody e1. rewrite Hx.
  destruct (xml_root e) as [root|] eqn:Er.
  - pose proof (remove_xml_file_node_true X root source) as Hrm.
    destruct (remove_xml_file_node X root source) as [root' removed]. simpl in Hrm.
    destruct removed; simpl.
    + split; [|split; [by left|done]]. split; [done|].
      intros (root0 & [= <-] & Hn). exfalso. by apply Hn, Hrm.
    + split; [|split; [by right|done]]. split; [|done]. intros _.
      exists root. split; [done|]. intros Hex. by apply Hrm in Hex.
  - simpl. split; [|split; [by left|]].
    + split; [done|]. by intros (? & ? & _).
    + intros _. split; [done|]. intros a0 [= <-].
      destruct (rebuild_index_frame X e1) as (recs & dirs & ->). simpl. exact Ha.
Qed.

(** ** An environment for concrete runs *)

Definition ex_lower_char (c : ascii) : ascii :=
  let n := nat_of_ascii c in
  if (65 <=? n)%nat && (n <=? 90)%nat then ascii_of_nat (n + 32) else c.

Definition ex_upper_char (c : ascii) : ascii :=
  let n := nat_of_ascii c in
  if (97 <=? n)%nat && (n <=? 122)%nat then ascii_of_nat (n - 32) else c.

Definition ex_isalnum (c : ascii) : bool :=
  let n := nat_of_ascii c in
  ((48 <=? n)%nat && (n <=? 57)%nat) || ((65 <=? n)%nat && (n <=? 90)%nat)
  || ((97 <=? n)%nat && (n <=? 122)%nat).

Definition str_map (f : ascii -> ascii) (s : string) : string :=
  string_of_list_ascii (map f (list_ascii_of_string s)).

Fixpoint drop_spaces (l : list ascii) : list ascii :=
  match l with
  | c :: r => if Ascii.eqb c " " then drop_spaces r else l
  | [] => []
  end.

Definition ex_strip (s : string) : string :=
  string_of_list_ascii
    (rev (drop_spaces (rev (drop_spaces (list_ascii_of_string s))))).

(** The text before the last dot and the text from it on. *)
Fixpoint split_last_dot (l : list ascii) : option (list ascii * list ascii) :=
  match l with
  | [] => None
  | c :: r =>
      match split_last_dot r with
      | Some (before, suffix) => Some (c :: before, suffix)
      | None => if Ascii.eqb c "." then Some ([], c :: r) else None
      end
  end.

Definition ex_path_stem (s : string) : string :=
  match split_last_dot (list_ascii_of_string s) with
  | Some (c :: before, _) => string_of_list_ascii (c :: before)
  | _ => s
  end.

Definition ex_path_suffix (s : string) : string :=
  match split_last_dot (list_ascii_of_string s) with
  | Some (_ :: _, suffix) => string_of_list_ascii suffix
  | _ => EmptyString
  end.

(** A serializer: the tag, the attributes and the children in brackets. *)
Fixpoint ex_tostring (e : Xml.Element) : list byte :=
  match e with
  | Xml.Elem t a cs =>
      [x3c] ++ list_byte_of_string t
        ++ concat (map (fun kv => [x20] ++ list_byte_of_string kv.1 ++ [x3d; x22]
                                    ++ list_byte_of_string kv.2 ++ [x22]) a)
        ++ [x3e]
        ++ (fix go (l : list Xml.Element) : list byte :=
              match l with
              | [] => []
              | c :: r => ex_tostring c ++ go r
              end) cs
        ++ [x3c; x2f] ++ list_byte_of_string t ++ [x3e]
  end.

Definition ex_date_str (d : Date) : string :=
  String.append (str_of_Z (year d))
    (String.append "-" (String.append (str_of_Z (month d))
       (String.append "-" (str_of_Z (day d))))).

Definition ex_time_str (t : Time) : string :=
  String.append (str_of_Z (hour t))
    (String.append ":" (String.append (str_of_Z (minute t))
       (String.append ":" (str_of_Z (second t))))).

(** A file system with one file, a parser that knows that file, and the
    repository's own writer, without a template, as the archive's
    serializer. *)
Definition ex_externals : Externals :=
  mkExternals
    (str_map ex_lower_char) (str_map ex_upper_char) ex_strip ex_isalnum
    (fun s => s) ex_path_stem ex_path_suffix
    (fun s => s)
    ex_tostring
    (fun _ _ => None)
    ex_date_str ex_time_str
    (fun _ => 0)
    32
    (fun p => if decide (p = "ex.cab") then Ok ex_cab else Raise OSError)
    (fun data =>
       if decide (data = ex_cab) then Ok ex_archive_ab else Raise CorruptionError)
    (fun a compress sort =>
       build_ce_cab_bytes elements stored_deflate xor_checksum a compress None sort)
    (fun _ => Ok [("Status", "Unknown")]).

Definition ex_now : DateTime := mkDateTime ex_date ex_time.

(** Ten seconds later. *)
Definition ex_later : DateTime := mkDateTime ex_date (mkTime 10 30 22).

(** A manifest with one install directory that holds [file_nodes], and
    with the file count [count]. *)
Definition ex_manifest_with (count : string) (file_nodes : list Xml.Element)
    : Xml.Element :=
  Xml.Elem "wap-provisioningdoc" []
    [Xml.Elem "characteristic" [("type", "Install")]
       [Xml.Elem "parm" [("name", "NumFiles"); ("value", count)] []];
     Xml.Elem "characteristic" [("type", "FileOperation")]
       [Xml.Elem "characteristic" [("type", "\Windows"); ("translation", "install")]
          file_nodes]].

(** A manifest that maps [Readme.txt] to the entry [A.TXT] and counts one
    file. *)
Definition ex_manifest : Xml.Element :=
  ex_manifest_with "1" [new_file_node "Readme.txt" "A.TXT"].

(** A manifest with an install directory and no file. *)
Definition ex_manifest_no_file : Xml.Element := ex_manifest_with "0" [].

(** A manifest without a [FileOperation] element. *)
Definition ex_manifest_no_fileop : Xml.Element :=
  Xml.Elem "wap-provisioningdoc" []
    [Xml.Elem "characteristic" [("type", "Install")]
       [Xml.Elem "parm" [("name", "NumFiles"); ("value", "0")] []]].

(** The editor as it is after loading an archive with this manifest. *)
Definition loaded_with (X : Externals) (a : CabArchive) (root : option Xml.Element)
    : CabEditor :=
  _rebuild_index X
    (mkCabEditor (Some "ex.cab") "ex" (Some a) root "utf-8" [] []
       [("Status", "Unknown")]).

Definition ex_archive_manifest : CabArchive :=
  mkCabArchive [("_setup.xml", ex_file [x3c]); ("A.TXT", ex_file [x61])] 0.

Definition ex_archive_unlisted : CabArchive :=
  mkCabArchive [("_setup.xml", ex_file [x3c]); ("B.BIN", ex_file [x62])] 0.

Definition ex_editor_plain : CabEditor :=
  loaded_with ex_externals ex_archive_ab None.

Lemma remove_file_outcome_witness :
  ((remove_file ex_externals ex_now "a.txt" ex_editor_plain).2 = Raise KeyError
   <-> exists root,
         xml_root ex_editor_plain = Some root
         /\ ~ exists triple,
                triple ∈ iter_file_nodes root
                /\ lower ex_externals (Xml.attr_get "value" triple.2)
                   = lower ex_externals "a.txt")
  /\ ((remove_file ex_externals ex_now "a.txt" ex_editor_plain).2 = Ok tt
      \/ (remove_file ex_externals ex_now "a.txt" ex_editor_plain).2 = Raise KeyError)
  /\ (xml_root ex_editor_plain = None ->
      (remove_file ex_externals ex_now "a.txt" ex_editor_plain).2 = Ok tt
      /\ forall a, archive ex_editor_plain = Some a ->
           archive (remove_file ex_externals ex_now "a.txt" ex_editor_plain).1
           = Some (if PyDict.mem "a.txt" (files a)
                   then archive_del a "a.txt" else a)).
Proof.
  apply (remove_file_outcome ex_externals ex_now "a.txt" ex_editor_plain).
  reflexivity.
Defined.

(** C6 as stated fails in its last part: without a manifest, removing a
    name that is not an archive key completes like any other removal, so
    success is reported although the key did not exist. *)
Lemma remove_file_absent_key_succeeds :
  ~ (exists X : Externals,
       forall now source e,
         no_archive e = false -> xml_root e = None ->
         (remove_file X now source e).2 = Ok tt ->
         exists a, archive e = Some a /\ PyDict.mem source (files a) = true).
Proof.
  intros [X H].
  destruct (H ex_now "missing.txt" (loaded_with X ex_archive_ab None))
    as (a & Ha & Hm).
  - reflexivity.
  - reflexivity.
  - reflexivity.
  - inversion Ha; subst a. discriminate Hm.
Qed.

(** An archive whose first entry is read-only and hidden (attributes 3),
    and the editor that has loaded it. *)
Definition ex_archive_hidden : CabArchive :=
  mkCabArchive
    [("a.txt", mkCabFile (Some [x61]) (Some ex_date) (Some ex_time) 3 None);
     ("b.txt", ex_file [x62])] 0.

Definition ex_editor_hidden : CabEditor :=
  loaded_with ex_externals ex_archive_hidden None.

Lemma update_file_frame_witness :
  exists a a' old new,
    archive ex_editor_hidden = Some a
    /\ archive (update_file ex_externals ex_later "a.txt" [x7a] ex_editor_hidden).1 = Some a'
    /\ PyDict.get "a.txt" (files a) = Some old
    /\ PyDict.get "a.txt" (files a') = Some new
    /\ buf new = Some [x7a]
    /\ date new = Some (dt_date ex_later) /\ time new = Some (dt_time ex_later)
    /\ attr new = default_attr ex_externals
    /\ (forall other, other <> "a.txt" ->
          PyDict.get other (files a') = PyDict.get other (files a))
    /\ archive_keys a' = archive_keys a
    /\ set_id_of a' = set_id_of a
    /\ xml_root (update_file ex_externals ex_later "a.txt" [x7a] ex_editor_hidden).1
       = xml_root ex_editor_hidden
    /\ numfiles_value
         (xml_root (update_file ex_externals ex_later "a.txt" [x7a] ex_editor_hidden).1)
       = numfiles_value (xml_root ex_editor_hidden)
    /\ ("a.txt" <> "_setup.xml" ->
          PyDict.get "_setup.xml" (files a') = PyDict.get "_setup.xml" (files a))
    /\ path (update_file ex_externals ex_later "a.txt" [x7a] ex_editor_hidden).1
       = path ex_editor_hidden
    /\ loaded_name (update_file ex_externals ex_later "a.txt" [x7a] ex_editor_hidden).1
       = loaded_name ex_editor_hidden
    /\ setup_encoding (update_file ex_externals ex_later "a.txt" [x7a] ex_editor_hidden).1
       = setup_encoding ex_editor_hidden
    /\ signature_before (update_file ex_externals ex_later "a.txt" [x7a] ex_editor_hidden).1
       = signature_before ex_editor_hidden.
Proof.
  apply (update_file_frame ex_externals ex_later "a.txt" [x7a] ex_editor_hidden
           (update_file ex_externals ex_later "a.txt" [x7a] ex_editor_hidden).1).
  reflexivity.
Defined.

(** On that archive the update turns the attributes 3 of [a.txt] into the
    attributes of a new file. *)
Example update_file_example :
  let e' := (update_file ex_externals ex_later "a.txt" [x7a] ex_editor_hidden).1 in
  (attr <$> (archive ex_editor_hidden ≫= fun a => PyDict.get "a.txt" (files a))) = Some 3
  /\ (attr <$> (archive e' ≫= fun a => PyDict.get "a.txt" (files a)))
     = Some (default_attr ex_externals).
Proof. cbv zeta. split; vm_compute; reflexivity. Qed.

(** C10 as stated: a successful [update_file] changes only the payload and
    the timestamp of the entry, so the entry keeps its attributes. *)
Definition update_file_claim (X : Externals) : Prop :=
  forall (now : DateTime) (source : string) (payload : list byte) (e e' : CabEditor)
         (a a' : CabArchive) (old new : CabFile),
    update_file X now source payload e = (e', Ok tt) ->
    archive e = Some a -> archive e' = Some a' ->
    PyDict.get source (files a) = Some old ->
    PyDict.get source (files a') = Some new ->
    attr new = attr old.

(** C10 as stated fails, whatever the attributes of a newly constructed
    file are: [update_file] stores a new [CabFile], so an entry whose
    attributes are not those of a new file loses them. With the attributes 0
    of a new file, an entry with the archive bit (32) comes out with 0. *)
Lemma update_file_resets_attributes : ~ exists X, update_file_claim X.
Proof.
  intros [X H].
  set (old := mkCabFile (Some [x61]) (Some ex_date) (Some ex_time)
                (default_attr X + 32) None).
  set (a := mkCabArchive [("a.txt", old)] 0).
  set (e := mkCabEditor None "ex" (Some a) None "utf-8" [] [] []).
  specialize (H ex_now "a.txt" [x7a] e (update_file X ex_now "a.txt" [x7a] e).1
                a (archive_set a "a.txt" (new_CabFile X [x7a] ex_now)) old
                (new_CabFile X [x7a] ex_now)).
  cbn in H. specialize (H eq_refl eq_refl eq_refl eq_refl eq_refl). lia.
Qed.

(** ** Failures of [remove_file] and [add_file] after the archive was
    changed *)

(** C1 on the code. [B.BIN] is an entry of the archive that the manifest
    does not list: [remove_file("B.BIN")] raises [KeyError], and the entry
    is gone from the archive all the same, because the entry is deleted
    before the manifest is searched. *)
Theorem remove_file_failure_keeps_deletion (X : Externals) (now : DateTime) :
  let e := loaded_with X ex_archive_unlisted (Some ex_manifest_no_file) in
  let r := remove_file X now "B.BIN" e in
  r.2 = Raise KeyError
  /\ (exists a, archive e = Some a /\ PyDict.mem "B.BIN" (files a) = true)
  /\ (exists a', archive r.1 = Some a' /\ PyDict.mem "B.BIN" (files a') = false)
  /\ xml_root r.1 = xml_root e.
Proof.
  cbv zeta. repeat split.
  - by eexists.
  - by eexists.
Qed.

(** The same for [add_file]: the manifest has no [FileOperation] element,
    [add_file] raises [ValueError], and the new entry stays in the
    archive. *)
Example add_file_failure_keeps_insertion :
  let e := loaded_with ex_externals ex_archive_unlisted (Some ex_manifest_no_fileop) in
  let r := add_file ex_externals ex_now ex_now ex_now "new.txt" [x6e] "" "" e in
  r.2 = Raise ValueError
  /\ (exists a, archive e = Some a /\ PyDict.mem "NEW~1.TXT" (files a) = false)
  /\ (exists a', archive r.1 = Some a' /\ PyDict.mem "NEW~1.TXT" (files a') = true).
Proof.
  cbv zeta. split; [vm_compute; reflexivity|]. split.
  - eexists. split; [reflexivity|]. vm_compute. reflexivity.
  - eexists. split; [vm_compute; reflexivity|]. vm_compute. reflexivity.
Qed.

(** What does hold: the failures that [add_file] and [remove_file] detect
    before they touch the archive (no archive, empty payload, no name)
    leave the editor as it was. *)
Lemma add_file_early_failure (X : Externals) (now_name now_file now_sync : DateTime)
    (upload_filename : string) (payload : list byte) (display directory : string)
    (e : CabEditor) :
  no_archive e = true \/ payload = []
  \/ (if decide (display = EmptyString) then secure_filename X upload_filename
      else strip X display) = EmptyString ->
  (add_file X now_name now_file now_sync upload_filename payload display directory e).1
  = e.
Proof.
  unfold add_file. intros H. destruct (no_archive e) eqn:En; [done|].
  destruct (archive e) as [a|]; [|done].
  destruct payload as [|b payload]; [done|].
  destruct H as [H|[H|H]]; [done|done|].
  rewrite H. by rewrite decide_True.
Qed.

(** ** The file count after a mutation *)

Lemma source_matches_new_file_node (X : Externals) (display source : string) :
  source_matches X source (new_file_node display source) = true.
Proof.
  unfold source_matches. cbn. by apply bool_decide_eq_true_2.
Qed.

(** The path of [remove_file] on which everything succeeds. *)
Lemma remove_file_listed (X : Externals) (now : DateTime) (source : string)
    (e : CabEditor) (a : CabArchive) (root root' : Xml.Element) :
  no_archive e = false ->
  archive e = Some a ->
  PyDict.mem source (files a) = true ->
  xml_root e = Some root ->
  remove_xml_file_node X root source = (root', true) ->
  remove_file X now source e
  = (_rebuild_index X
       (_sync_setup_xml X now
          (_update_numfiles
             (with_xml_root (with_archive e (Some (archive_del a source)))
                (Some root')))),
     Ok tt).
Proof.
  intros Hn Ha Hm Hx Hrm. unfold remove_file. rewrite Hn, Ha, Hm.
  cbn [xml_root with_archive]. rewrite Hx, Hrm. reflexivity.
Qed.

(** C2 on the code. The manifest lists one file, [A.TXT], and counts one
    file. After [remove_file("A.TXT")] has completed, the rebuilt index has
    no record, and [NumFiles] still says 1: the count is written from the
    records as they were before the call, and the index is rebuilt only
    afterwards. *)
Theorem remove_file_stale_numfiles (X : Externals) (now : DateTime) :
  let e := loaded_with X ex_archive_manifest (Some ex_manifest) in
  let r := remove_file X now "A.TXT" e in
  r.2 = Ok tt
  /\ length (records e) = 1%nat
  /\ length (records r.1) = 0%nat
  /\ numfiles_value (xml_root r.1) = Some "1".
Proof.
  cbv zeta.
  assert (Hrm : remove_xml_file_node X ex_manifest "A.TXT"
                = (ex_manifest_with "1" [], true)).
  { assert (Hdir : remove_under X "A.TXT"
                     (Xml.Elem "characteristic"
                        [("type", "\Windows"); ("translation", "install")]
                        [new_file_node "Readme.txt" "A.TXT"])
                   = Some (Xml.Elem "characteristic"
                             [("type", "\Windows"); ("translation", "install")] [])).
    { unfold remove_under.
      change (Xml.is_characteristic (Xml.Elem "characteristic"
                [("type", "\Windows"); ("translation", "install")]
                [new_file_node "Readme.txt" "A.TXT"])) with true.
      cbn [Xml.children Xml.remove_first].
      rewrite source_matches_new_file_node. reflexivity. }
    unfold remove_xml_file_node, ex_manifest, ex_manifest_with. simpl.
    rewrite Hdir. reflexivity. }
  rewrite (remove_file_listed X now "A.TXT" _ ex_archive_manifest ex_manifest
             (ex_manifest_with "1" [])); try reflexivity; [|exact Hrm].
  repeat split.
Qed.

(** The same after [add_file]: two records, and [NumFiles] says 1. *)
Example add_file_stale_numfiles :
  let e := loaded_with ex_externals ex_archive_manifest (Some ex_manifest) in
  let r := add_file ex_externals ex_now ex_now ex_now "new.txt" [x6e] "" "" e in
  r.2 = Ok tt
  /\ length (records r.1) = 2%nat
  /\ numfiles_value (xml_root r.1) = Some "1".
Proof. cbv zeta. repeat split; vm_compute; reflexivity. Qed.

(** ** [load] *)

(** The name [load] derives from the display name or the path. *)
Definition derived_name (X : Externals) (p : string) (display : option string)
    : string :=
  let candidate :=
    strip X (match display with
             | Some d => if decide (d = EmptyString) then path_stem X p else d
             | None => path_stem X p
             end) in
  str_or (path_stem X candidate) "cabinetforge_output".

(** C5, amended. When [load(path)] fails because the file cannot be read
    or its bytes do not parse as a CAB, the editor holds the new path (it
    is not cleared) and the loaded name derived from the display name or
    the path; every other field (archive, manifest tree, encoding, records,
    directories, signature snapshot) keeps its prior value. *)
Theorem load_failure_state (X : Externals) (p : string) (display : option string)
    (e e' : CabEditor) (x : exn) :
  load X p display e = (e', Raise x) ->
  (read_bytes X p = Raise x
   \/ exists data, read_bytes X p = Ok data /\ cab_parse X data = Raise x) ->
  path e' = Some p
  /\ loaded_name e' = derived_name X p display
  /\ archive e' = archive e
  /\ xml_root e' = xml_root e
  /\ setup_encoding e' = setup_encoding e
  /\ records e' = records e
  /\ directories e' = directories e
  /\ signature_before e' = signature_before e.
Proof.
  unfold load. intros H Hfail.
  destruct Hfail as [Hr|(data & Hr & Hp)]; rewrite Hr in H.
  - by inversion H.
  - rewrite Hp in H. by inversion H.
Qed.

Lemma load_failure_state_witness :
  path (load ex_externals "missing.cab" None new_editor).1 = Some "missing.cab"
  /\ loaded_name (load ex_externals "missing.cab" None new_editor).1
     = derived_name ex_externals "missing.cab" None
  /\ archive (load ex_externals "missing.cab" None new_editor).1 = archive new_editor
  /\ xml_root (load ex_externals "missing.cab" None new_editor).1 = xml_root new_editor
  /\ setup_encoding (load ex_externals "missing.cab" None new_editor).1
     = setup_encoding new_editor
  /\ records (load ex_externals "missing.cab" None new_editor).1 = records new_editor
  /\ directories (load ex_externals "missing.cab" None new_editor).1
     = directories new_editor
  /\ signature_before (load ex_externals "missing.cab" None new_editor).1
     = signature_before new_editor.
Proof.
  apply (load_failure_state ex_externals "missing.cab" None new_editor
           (load ex_externals "missing.cab" None new_editor).1 OSError).
  - reflexivity.
  - left. reflexivity.
Defined.

(** An environment whose parser rejects every buffer. *)
Definition ex_externals_rejecting : Externals :=
  mkExternals
    (lower ex_externals) (upper ex_externals) (strip ex_externals)
    (isalnum ex_externals) (path_name ex_externals) (path_stem ex_externals)
    (path_suffix ex_externals) (secure_filename ex_externals)
    (tostring ex_externals) (decode_fromstring ex_externals)
    (date_str ex_externals) (time_str ex_externals) (timestamp ex_externals)
    (default_attr ex_externals)
    (fun _ => Ok [x00])
    (fun _ => Raise CorruptionError)
    (cab_save ex_externals) (get_signature_status ex_externals).

(** C5 as stated fails: the bytes of [bad.cab] do not parse, [load] raises,
    and the editor, which held the path [ex.cab] and the name [ex], then
    holds the path [bad.cab] and the name [bad]. *)
Lemma load_failure_keeps_new_path :
  ~ (forall (X : Externals) (p : string) (display : option string)
            (e e' : CabEditor) (x : exn),
       load X p display e = (e', Raise x) ->
       path e' = None
       /\ loaded_name e' = loaded_name e
       /\ archive e' = archive e
       /\ xml_root e' = xml_root e
       /\ setup_encoding e' = setup_encoding e
       /\ records e' = records e
       /\ directories e' = directories e
       /\ signature_before e' = signature_before e).
Proof.
  intros H.
  destruct (H ex_externals_rejecting "bad.cab" None ex_editor_plain
              (load ex_externals_rejecting "bad.cab" None ex_editor_plain).1
              CorruptionError) as (Hpath & _).
  - reflexivity.
  - vm_compute in Hpath. discriminate Hpath.
Qed.

Example load_failure_example :
  let e' := (load ex_externals_rejecting "bad.cab" None ex_editor_plain).1 in
  path e' = Some "bad.cab" /\ loaded_name e' = "bad"
  /\ path ex_editor_plain = Some "ex.cab" /\ loaded_name ex_editor_plain = "ex".
Proof. cbv zeta. repeat split; vm_compute; reflexivity. Qed.

(** ** [build_cab_bytes] *)

(** [_load_setup_xml] writes the manifest and its encoding, from the
    archive alone, and nothing else. *)
Lemma load_setup_xml_frame (X : Externals) (e : CabEditor) :
  exists root enc,
    _load_setup_xml X e
    = mkCabEditor (path e) (loaded_name e) (archive e) root enc
        (records e) (directories e) (signature_before e)
    /\ forall e', archive e' = archive e ->
         _load_setup_xml X e'
         = mkCabEditor (path e') (loaded_name e') (archive e') root enc
             (records e') (directories e') (signature_before e').
Proof.
  assert (H : forall e : CabEditor,
    _load_setup_xml X e
    = let '(root, enc) :=
        match archive e with
        | None => (None, "utf-8")
        | Some a =>
            match files a with
            | [] => (None, "utf-8")
            | _ :: _ =>
                match PyDict.get "_setup.xml" (files a) with
                | None => (None, "utf-8")
                | Some f =>
                    match try_encodings X ["utf-8"; "utf-16"; "utf-16le"; "latin-1"]
                            (buf_or_empty f) with
                    | Some (root, encoding) => (Some root, encoding)
                    | None => (None, "utf-8")
                    end
                end
            end
        end in
      mkCabEditor (path e) (loaded_name e) (archive e) root enc
        (records e) (directories e) (signature_before e)).
  { intros [p n [a|] x s r d g]; unfold _load_setup_xml, no_archive;
      cbn [path loaded_name archive xml_root setup_encoding records directories
           signature_before]; [|done].
    destruct (files a) as [|entry rest] eqn:Ef; [done|]. rewrite <- Ef.
    destruct (PyDict.get "_setup.xml" (files a)) as [f|]; [|done].
    by destruct (try_encodings X _ (buf_or_empty f)) as [[root enc]|]. }
  rewrite H.
  destruct (match archive e with None => _ | Some a => _ end) as [root enc] eqn:E.
  exists root, enc. split; [done|]. intros e' He'. rewrite H, He', E. done.
Qed.

(** What [build_cab_bytes] does on a loaded editor: the resynchronization
    step, then the archive's [save]. *)
Lemma build_cab_bytes_loaded (X : Externals) (now : DateTime) (compress : bool)
    (e : CabEditor) (a : CabArchive) :
  archive e = Some a -> files a <> [] ->
  build_cab_bytes X now compress e
  = match xml_root e with
    | Some root =>
        let a' := archive_set a "_setup.xml" (new_CabFile X (tostring X root) now) in
        (with_archive e (Some a'), cab_save X a' compress true)
    | None => (e, cab_save X a compress true)
    end.
Proof.
  intros Ha Hne. unfold build_cab_bytes.
  assert (Hn : no_archive e = false).
  { unfold no_archive. rewrite Ha. by destruct (files a). }
  rewrite Hn. destruct (xml_root e) as [root|] eqn:Hx.
  - unfold _sync_setup_xml. rewrite Hn, Ha, Hx. reflexivity.
  - by rewrite Ha.
Qed.



(** A serializer that knows nothing of cabinets: the names and the payloads,
    one after the other. *)
Definition ex_plain_save (a : CabArchive) (compress sort : bool)
    : result (list byte) :=
  Ok (concat (map (fun entry : string * CabFile =>
                     list_byte_of_string entry.1 ++ [x00] ++ buf_or_empty entry.2)
                (files a))).

(** The cabinet [ex_cab] with another byte in its header reserve. *)
Definition ex_cab_other_reserve : list byte := <[41%nat := xbc]> ex_cab.

Definition ex_layout_other_reserve : CabLayoutTemplate :=
  mkTemplate 513 2 1 0 [xaa; xbc] [[x11]; [x22]] ["a.txt"; "b.txt"]
    {["a.txt" := 0; "b.txt" := 1]}.

Example parse_ex_cab_other_reserve :
  parse_cab_layout ex_cab_other_reserve = Some ex_layout_other_reserve.
Proof. vm_compute. reflexivity. Qed.

(** The archive both cabinets hold: the two files, and the cabinet's
    [set_id]. *)
Definition ex_archive_loaded : CabArchive := mkCabArchive (files ex_archive_ab) 513.

(** A file system with these two cabinets, a parser that reads that archive
    from both, and [save] as the archive's serializer. *)
Definition ex_externals_files (save : CabArchive -> bool -> bool -> result (list byte))
    : Externals :=
  mkExternals
    (lower ex_externals) (upper ex_externals) (strip ex_externals)
    (isalnum ex_externals) (path_name ex_externals) (path_stem ex_externals)
    (path_suffix ex_externals) (secure_filename ex_externals)
    (tostring ex_externals) (decode_fromstring ex_externals)
    (date_str ex_externals) (time_str ex_externals) (timestamp ex_externals)
    (default_attr ex_externals)
    (fun p => if decide (p = "ex.cab") then Ok ex_cab
              else if decide (p = "other.cab") then Ok ex_cab_other_reserve
              else Raise OSError)
    (fun data =>
       if decide (data = ex_cab) then Ok ex_archive_loaded
       else if decide (data = ex_cab_other_reserve) then Ok ex_archive_loaded
       else Raise CorruptionError)
    save
    (get_signature_status ex_externals).


(** The two cabinets differ, their layouts differ, and both loads succeed
    with the same archive: the editor then saves the same bytes for both. *)
Example build_cab_bytes_two_files :
  let X := ex_externals_files ex_plain_save in
  let e1 := load X "ex.cab" None new_editor in
  let e2 := load X "other.cab" None new_editor in
  ex_cab <> ex_cab_other_reserve
  /\ parse_cab_layout ex_cab <> parse_cab_layout ex_cab_other_reserve
  /\ e1.2 = Ok tt /\ e2.2 = Ok tt
  /\ archive e1.1 = archive e2.1
  /\ (build_cab_bytes X ex_now false e1.1).2 = (build_cab_bytes X ex_now false e2.1).2.
Proof.
  cbv zeta. repeat split; try (vm_compute; reflexivity).
  - vm_compute. discriminate.
  - rewrite parse_ex_cab, parse_ex_cab_other_reserve. by intros [= H].
Qed.



(** C9, amended. Two consecutive calls of [build_cab_bytes(compress)] with
    no mutation in between return the same result when the editor has no
    manifest, or when both calls read the same clock value; the second call
    then also leaves the editor as the first one left it. (With a manifest,
    each call stamps the [_setup.xml] entry with the current time, and the
    archive handed to the serializer differs from call to call.) *)
Theorem build_cab_bytes_twice (X : Externals) (now1 now2 : DateTime) (compress : bool)
    (e : CabEditor) :
  xml_root e = None \/ now1 = now2 ->
  build_cab_bytes X now2 compress (build_cab_bytes X now1 compress e).1
  = build_cab_bytes X now1 compress e.
Proof.
  intros Hcase. unfold build_cab_bytes at 2 3.
  destruct (no_archive e) eqn:Hn.
  - simpl. unfold build_cab_bytes. by rewrite Hn.
  - destruct (archive e) as [a|] eqn:Ha; [|by unfold no_archive in Hn; rewrite Ha in Hn].
    destruct (xml_root e) as [root|] eqn:Hx.
    + destruct Hcase as [?|<-]; [done|].
      unfold _sync_setup_xml. rewrite Hn, Ha, Hx. simpl.
      set (F := new_CabFile X (tostring X root) now1).
      rewrite (build_cab_bytes_loaded X now1 compress _ (archive_set a "_setup.xml" F));
        [|reflexivity|apply PyDict_set_nonempty].
      change (xml_root (with_archive e (Some (archive_set a "_setup.xml" F))))
        with (xml_root e).
      rewrite Hx. cbv zeta. fold F.
      assert (Hs : archive_set (archive_set a "_setup.xml" F) "_setup.xml" F
                   = archive_set a "_setup.xml" F).
      { unfold archive_set. simpl. by rewrite PyDict_set_set. }
      rewrite Hs. reflexivity.
    + rewrite Ha. simpl. unfold build_cab_bytes. by rewrite Hn, Hx, Ha.
Qed.

Lemma build_cab_bytes_twice_witness :
  build_cab_bytes ex_externals ex_now true
    (build_cab_bytes ex_externals ex_now true
       (loaded_with ex_externals ex_archive_manifest (Some ex_manifest))).1
  = build_cab_bytes ex_externals ex_now true
      (loaded_with ex_externals ex_archive_manifest (Some ex_manifest)).
Proof.
  apply (build_cab_bytes_twice ex_externals ex_now ex_now true
           (loaded_with ex_externals ex_archive_manifest (Some ex_manifest))).
  right. reflexivity.
Defined.

(** C9 as stated fails: with a manifest, a second call ten seconds after
    the first stamps the [_setup.xml] entry with another time, and a
    serializer that writes the entries' times (as the CFFILE records of a
    cabinet do) returns other bytes. *)
Lemma build_cab_bytes_twice_differs :
  ~ (forall (X : Externals) (now1 now2 : DateTime) (compress : bool) (e : CabEditor),
       no_archive e = false ->
       (build_cab_bytes X now2 compress (build_cab_bytes X now1 compress e).1).2
       = (build_cab_bytes X now1 compress e).2).
Proof.
  intros H.
  specialize (H ex_externals ex_now ex_later false
                (loaded_with ex_externals ex_archive_manifest (Some ex_manifest))
                eq_refl).
  vm_compute in H. discriminate H.
Qed.

(** * Further properties of the editor *)

(** ** Dictionary facts used below *)

Section PyDictMore.
Context {K V : Type} `{EqDecision K}.

Lemma PyDict_keys_set_new (k : K) (v : V) (d : list (K * V)) :
  k ∉ PyDict.keys d -> PyDict.keys (PyDict.set k v d) = PyDict.keys d ++ [k].
Proof.
  unfold PyDict.keys. induction d as [|[k' v'] d IH]; simpl; intros Hk; [done|].
  apply not_elem_of_cons in Hk as [Hne Hk].
  rewrite decide_False by done. simpl. f_equal. by apply IH.
Qed.

Lemma PyDict_get_del_eq (k : K) (d : list (K * V)) :
  NoDup (PyDict.keys d) -> PyDict.get k (PyDict.del k d) = None.
Proof.
  unfold PyDict.keys. induction d as [|[k' v'] d IH]; simpl; intros Hnd; [done|].
  apply NoDup_cons in Hnd as [Hk' Hnd].
  destruct (decide (k = k')) as [-> |Hne].
  - by apply PyDict_get_None_keys.
  - simpl. rewrite decide_False by done. by apply IH.
Qed.

Lemma PyDict_get_del_ne (k k' : K) (d : list (K * V)) :
  k' <> k -> PyDict.get k' (PyDict.del k d) = PyDict.get k' d.
Proof.
  intros Hne. induction d as [|[k0 v0] d IH]; simpl; [done|].
  destruct (decide (k = k0)) as [-> |Hne0]; simpl.
  - by rewrite decide_False.
  - destruct (decide (k' = k0)); [done|apply IH].
Qed.

Lemma PyDict_get_Some_keys (k : K) (d : list (K * V)) :
  is_Some (PyDict.get k d) <-> k ∈ PyDict.keys d.
Proof.
  pose proof (PyDict_get_None_keys k d) as H.
  destruct (PyDict.get k d) as [v|].
  - split; [|by eauto]. intros _. destruct (decide (k ∈ PyDict.keys d)) as [?|Hn]; [done|].
    by apply H in Hn.
  - split; [by intros [? ?]|]. intros Hin. exfalso. by apply (proj1 H).
Qed.

Lemma PyDict_get_In (k : K) (v : V) (d : list (K * V)) :
  NoDup (PyDict.keys d) -> (k, v) ∈ d -> PyDict.get k d = Some v.
Proof.
  unfold PyDict.keys. induction d as [|[k' v'] d IH]; simpl; intros Hnd Hin.
  - by apply elem_of_nil in Hin.
  - apply NoDup_cons in Hnd as [Hk' Hnd].
    apply elem_of_cons in Hin as [[= <- <-]|Hin].
    + by rewrite decide_True.
    + rewrite decide_False; [by apply IH|].
      intros ->. apply Hk'. apply list_elem_of_fmap. by exists (k', v).
Qed.

End PyDictMore.

(** ** [update_file] *)

(** X1. Every failure of [update_file] leaves the editor exactly as it was,
    and the error tells why: [RuntimeError] when no archive is loaded (or
    the archive has no entry), [KeyError] when the name is not an archive
    key, whatever the payload, and [ValueError] when the name is a key and
    the payload is empty. *)
Theorem update_file_failure (X : Externals) (now : DateTime) (source : string)
    (payload : list byte) (e : CabEditor) (x : exn) :
  (update_file X now source payload e).2 = Raise x ->
  (update_file X now source payload e).1 = e
  /\ (no_archive e = true /\ x = RuntimeError
      \/ exists a, no_archive e = false /\ archive e = Some a
           /\ (PyDict.mem source (files a) = false /\ x = KeyError
               \/ PyDict.mem source (files a) = true /\ payload = []
                  /\ x = ValueError)).
Proof.
  unfold update_file. destruct (no_archive e) eqn:En.
  - simpl. intros [= <-]. split; [done|]. by left.
  - destruct (archive e) as [a|] eqn:Ea;
      [|by unfold no_archive in En; rewrite Ea in En].
    destruct (PyDict.mem source (files a)) eqn:Em; simpl.
    + destruct payload as [|b payload]; simpl; [|discriminate].
      intros [= <-]. split; [done|]. right. exists a. by eauto 10.
    + intros [= <-]. split; [done|]. right. exists a. by eauto 10.
Qed.

Lemma update_file_failure_witness :
  (update_file ex_externals ex_now "zz.txt" [] ex_editor_plain).1 = ex_editor_plain
  /\ (no_archive ex_editor_plain = true /\ KeyError = RuntimeError
      \/ exists a, no_archive ex_editor_plain = false
           /\ archive ex_editor_plain = Some a
           /\ (PyDict.mem "zz.txt" (files a) = false /\ KeyError = KeyError
               \/ PyDict.mem "zz.txt" (files a) = true /\ @nil byte = []
                  /\ KeyError = ValueError)).
Proof.
  apply (update_file_failure ex_externals ex_now "zz.txt" [] ex_editor_plain KeyError).
  reflexivity.
Defined.

(** X2. What [update_file] stored is what [get_file_bytes] returns: after a
    successful update of [source_name], reading that name gives the
    uploaded payload, and reading any other name gives what it gave
    before. *)
Theorem update_file_then_get (X : Externals) (now : DateTime) (source : string)
    (payload : list byte) (e e' : CabEditor) :
  update_file X now source payload e = (e', Ok tt) ->
  get_file_bytes source e' = Ok payload
  /\ forall other, other <> source -> get_file_bytes other e' = get_file_bytes other e.
Proof.
  unfold update_file. intros H.
  destruct (no_archive e) eqn:En; [by inversion H|].
  destruct (archive e) as [a|] eqn:Ea; [|by inversion H].
  destruct (PyDict.mem source (files a)) eqn:Em; simpl in H; [|by inversion H].
  destruct payload as [|b payload]; [by inversion H|].
  inversion H; subst e'; clear H.
  destruct (rebuild_index_frame X (with_archive e (Some (archive_set a source
                  (new_CabFile X (b :: payload) now))))) as (recs & dirs & ->).
  unfold get_file_bytes, no_archive. simpl. rewrite Ea.
  pose proof (PyDict_set_nonempty source (new_CabFile X (b :: payload) now) (files a)) as Hne.
  destruct (PyDict.set source (new_CabFile X (b :: payload) now) (files a)) as [|p l] eqn:Es;
    [done|]. rewrite <- Es. clear Es p l Hne.
  unfold no_archive in En. rewrite Ea in En.
  destruct (files a) as [|p0 l0] eqn:Ef; [done|]. rewrite <- Ef. split.
  - by rewrite PyDict_get_set_eq.
  - intros other Hne. by rewrite PyDict_get_set_ne.
Qed.

Lemma update_file_then_get_witness :
  get_file_bytes "a.txt" (update_file ex_externals ex_now "a.txt" [x7a] ex_editor_plain).1
  = Ok [x7a]
  /\ forall other, other <> "a.txt" ->
       get_file_bytes other (update_file ex_externals ex_now "a.txt" [x7a] ex_editor_plain).1
       = get_file_bytes other ex_editor_plain.
Proof.
  apply (update_file_then_get ex_externals ex_now "a.txt" [x7a] ex_editor_plain).
  reflexivity.
Defined.

(** ** [generate_source_name] *)

(** The candidate [f"{stem}~{idx}.{ext}"]. *)
Definition source_candidate (stem ext : string) (idx : nat) : string :=
  String.append stem
    (String.append "~" (String.append (str_of_nat idx) (String.append "." ext))).

Lemma length_list_ascii_of_string (s : string) :
  length (list_ascii_of_string s) = String.length s.
Proof. induction s as [|c s IH]; simpl; [done|]. by rewrite IH. Qed.

Lemma candidate_loop_spec (X : Externals) (stem ext : string) (existing : gset string) :
  forall n idx,
    match candidate_loop X n idx stem ext existing with
    | Some c =>
        exists i, (idx <= i < idx + n)%nat /\ c = source_candidate stem ext i
          /\ (lower X c ∉ existing)
          /\ forall j, (idx <= j < i)%nat ->
               lower X (source_candidate stem ext j) ∈ existing
    | None =>
        forall j, (idx <= j < idx + n)%nat ->
          lower X (source_candidate stem ext j) ∈ existing
    end.
Proof.
  induction n as [|n IH]; intros idx; simpl.
  - intros j Hj. lia.
  - fold (source_candidate stem ext idx).
    destruct (decide (lower X (source_candidate stem ext idx) ∈ existing)) as [Hin|Hnin].
    + specialize (IH (S idx)).
      destruct (candidate_loop X n (S idx) stem ext existing) as [c|].
      * destruct IH as (i & Hi & -> & Hfree & Hsmaller).
        exists i. split; [lia|]. split; [done|]. split; [done|].
        intros j Hj. destruct (decide (j = idx)) as [-> |Hne]; [done|].
        apply Hsmaller. lia.
      * intros j Hj. destruct (decide (j = idx)) as [-> |Hne]; [done|].
        apply IH. lia.
    + exists idx. split; [lia|]. split; [done|]. split; [done|].
      intros j Hj. lia.
Qed.

(** The stem and the extension [generate_source_name] derives from the
    display name. *)
Definition source_stem (X : Externals) (display : string) : string :=
  str_take 6
    (str_or (str_filter (isalnum X) (upper X (path_stem X (path_name X display))))
       "PYFILE").

Definition source_ext (X : Externals) (display : string) : string :=
  str_or
    (str_take 3
       (str_filter (isalnum X)
          (upper X (str_filter (fun c => negb (bool_decide (c = "."%char)))
                      (path_suffix X (path_name X display))))))
    "BIN".

(** The fallback [f"PY{int(now.timestamp())}.DAT"]. *)
Definition source_fallback (X : Externals) (now : DateTime) : string :=
  String.append "PY" (String.append (str_of_Z (timestamp X now)) ".DAT").

(** X3. The name [generate_source_name] returns does not collide: its
    lower-case form is not in [existing_lower]. It is the candidate
    [STEM~idx.EXT] with the smallest [idx] in 1..999 whose lower-case form
    is free, where the stem has 1 to 6 characters and the extension 1 to 3,
    or, when all 999 are taken, the fallback [PY<timestamp>.DAT]; and the
    function fails, with [RuntimeError], only when the 999 candidates and the
    fallback are all taken. *)
Theorem generate_source_name_spec (X : Externals) (now : DateTime)
    (display : string) (existing : gset string) :
  let stem := source_stem X display in
  let ext := source_ext X display in
  (0 < String.length stem <= 6)%nat /\ (0 < String.length ext <= 3)%nat
  /\ match generate_source_name X now display existing with
     | Ok c =>
         (lower X c ∉ existing)
         /\ ((exists i, (1 <= i <= 999)%nat /\ c = source_candidate stem ext i
               /\ forall j, (1 <= j < i)%nat ->
                    lower X (source_candidate stem ext j) ∈ existing)
             \/ (c = source_fallback X now
                 /\ forall j, (1 <= j <= 999)%nat ->
                      lower X (source_candidate stem ext j) ∈ existing))
     | Raise x =>
         x = RuntimeError
         /\ (forall j, (1 <= j <= 999)%nat ->
               lower X (source_candidate stem ext j) ∈ existing)
         /\ lower X (source_fallback X now) ∈ existing
     end.
Proof.
  cbv zeta. unfold generate_source_name.
  fold (source_stem X display). fold (source_ext X display).
  fold (source_fallback X now).
  set (stem := source_stem X display).
  set (ext := source_ext X display).
  assert (Hlen_take : forall n s, String.length (str_take n s)
                                  = (n `min` String.length s)%nat).
  { intros n s. unfold str_take. rewrite <- (length_list_ascii_of_string (string_of_list_ascii _)).
    rewrite list_ascii_of_string_of_list_ascii, length_take.
    by rewrite length_list_ascii_of_string. }
  assert (Hor : forall s fb, fb <> EmptyString -> (0 < String.length (str_or s fb))%nat).
  { intros s fb Hfb. unfold str_or. destruct (decide (s = EmptyString)) as [->|Hs].
    - destruct fb; [done|simpl; lia].
    - destruct s; [done|simpl; lia]. }
  split.
  { unfold stem, source_stem. rewrite Hlen_take.
    pose proof (Hor (str_filter (isalnum X) (upper X (path_stem X (path_name X display))))
                  "PYFILE" ltac:(done)). lia. }
  split.
  { unfold ext, source_ext. unfold str_or.
    destruct (decide (str_take 3 _ = EmptyString)) as [E|E]; [simpl; lia|].
    rewrite Hlen_take. split; [|lia].
    match goal with |- (0 < ?m)%nat => destruct m eqn:Em; [|lia] end.
    exfalso. apply E. rewrite <- Hlen_take in Em.
    by destruct (str_take 3 _). }
  pose proof (candidate_loop_spec X stem ext existing 999 1) as Hloop.
  destruct (candidate_loop X 999 1 stem ext existing) as [c|].
  - destruct Hloop as (i & Hi & -> & Hfree & Hsmaller). split; [done|].
    left. exists i. split; [lia|]. done.
  - destruct (decide (lower X _ ∈ existing)) as [Hin|Hnin].
    + split; [done|]. split; [|done]. intros j Hj. apply Hloop. lia.
    + split; [done|]. right. split; [done|]. intros j Hj. apply Hloop. lia.
Qed.

(** ** [add_file] *)

Lemma generate_source_name_free (X : Externals) (now : DateTime)
    (display : string) (existing : gset string) (c : string) :
  generate_source_name X now display existing = Ok c -> lower X c ∉ existing.
Proof.
  unfold generate_source_name.
  pose proof (candidate_loop_spec X (source_stem X display) (source_ext X display)
                existing 999 1) as Hloop.
  fold (source_stem X display). fold (source_ext X display).
  destruct (candidate_loop X 999 1 _ _ existing) as [c'|].
  - destruct Hloop as (i & _ & -> & Hfree & _). by intros [= <-].
  - destruct (decide (lower X _ ∈ existing)) as [Hin|Hnin]; [done|]. by intros [= <-].
Qed.

Lemma no_archive_loaded (e : CabEditor) (a : CabArchive) :
  archive e = Some a -> files a <> [] -> no_archive e = false.
Proof. unfold no_archive. intros -> Hne. by destruct (files a). Qed.

Lemma no_archive_false_inv (e : CabEditor) :
  no_archive e = false -> exists a, archive e = Some a /\ files a <> [].
Proof.
  unfold no_archive. destruct (archive e) as [a|]; [|done].
  destruct (files a) eqn:Ef; [done|]. intros _. exists a. by rewrite Ef.
Qed.

Lemma get_file_bytes_loaded (e : CabEditor) (a : CabArchive) (source : string) :
  archive e = Some a -> files a <> [] ->
  get_file_bytes source e
  = match PyDict.get source (files a) with
    | Some f => Ok (buf_or_empty f)
    | None => Raise KeyError
    end.
Proof.
  intros Ha Hne. unfold get_file_bytes.
  by rewrite (no_archive_loaded e a Ha Hne), Ha.
Qed.

Lemma sync_setup_xml_loaded (X : Externals) (now : DateTime) (e : CabEditor)
    (a : CabArchive) (root : Xml.Element) :
  archive e = Some a -> files a <> [] -> xml_root e = Some root ->
  _sync_setup_xml X now e
  = with_archive e
      (Some (archive_set a "_setup.xml" (new_CabFile X (tostring X root) now))).
Proof.
  intros Ha Hne Hx. unfold _sync_setup_xml.
  by rewrite (no_archive_loaded e a Ha Hne), Ha, Hx.
Qed.

Lemma archive_set_nonempty (a : CabArchive) (k : string) (f : CabFile) :
  files (archive_set a k f) <> [].
Proof. apply PyDict_set_nonempty. Qed.

(** X4. A successful [add_file] never replaces an entry: the name it stores
    the payload under differs, even up to case, from every key the archive
    had; the payload is what [get_file_bytes] then returns for that name;
    every entry the archive had, other than [_setup.xml], is as it was;
    and without a manifest the new name is appended after the old keys.
    (The editor is one that [load] can produce: a manifest is present only
    when [_setup.xml] is an archive key.) *)
Theorem add_file_fresh_entry (X : Externals) (now_name now_file now_sync : DateTime)
    (upload_filename : string) (payload : list byte) (display directory : string)
    (e e' : CabEditor) (a : CabArchive) :
  archive e = Some a ->
  (xml_root e <> None -> PyDict.mem "_setup.xml" (files a) = true) ->
  add_file X now_name now_file now_sync upload_filename payload display directory e
  = (e', Ok tt) ->
  exists source a',
    archive e' = Some a'
    /\ (forall k, k ∈ archive_keys a -> lower X k <> lower X source)
    /\ get_file_bytes source e' = Ok payload
    /\ (forall other, other ∈ archive_keys a -> other <> "_setup.xml" ->
          PyDict.get other (files a') = PyDict.get other (files a))
    /\ (xml_root e = None -> archive_keys a' = archive_keys a ++ [source]).
Proof.
  intros Ea Hsetup H. unfold add_file in H.
  destruct (no_archive e) eqn:En; [by inversion H|]. rewrite Ea in H.
  destruct payload as [|b payload]; [by inversion H|].
  set (final_name := if decide (display = EmptyString)
                     then secure_filename X upload_filename else strip X display) in H.
  destruct (decide (final_name = EmptyString)); [by inversion H|].
  destruct (generate_source_name X now_name final_name _) as [source|x] eqn:Eg;
    [|by inversion H].
  apply generate_source_name_free in Eg.
  assert (Hfresh : forall k, k ∈ archive_keys a -> lower X k <> lower X source).
  { intros k Hk Heq. apply Eg. apply elem_of_list_to_set, list_elem_of_fmap.
    by exists k. }
  assert (Hnew : source ∉ archive_keys a).
  { intros Hin. by apply (Hfresh source Hin). }
  set (F := new_CabFile X (b :: payload) now_file) in *.
  set (a1 := archive_set a source F) in *.
  cbn [xml_root with_archive] in H.
  destruct (xml_root e) as [root|] eqn:Ex.
  - destruct (resolve_target_parent root directory) as [tg|]; [|by inversion H].
    inversion H; subst e'; clear H.
    set (root1 := append_at root tg final_name source).
    assert (Hsrc : source <> "_setup.xml").
    { intros ->. apply Hnew. apply PyDict_get_Some_keys.
      specialize (Hsetup ltac:(done)). unfold PyDict.mem in Hsetup.
      by destruct (PyDict.get "_setup.xml" (files a)); eauto. }
    unfold _update_numfiles. cbn [xml_root with_archive with_xml_root records].
    erewrite (sync_setup_xml_loaded X now_sync _ a1);
      [|reflexivity|apply archive_set_nonempty|reflexivity].
    match goal with |- context [_rebuild_index X ?e0] =>
      destruct (rebuild_index_frame X e0) as (recs & dirs & ->) end.
    eexists source, _. split; [reflexivity|]. split; [done|]. split.
    + erewrite get_file_bytes_loaded; [|reflexivity|apply archive_set_nonempty].
      unfold a1; cbn [files archive_set]. rewrite PyDict_get_set_ne by done.
      by rewrite PyDict_get_set_eq.
    + split; [|done]. intros other Hin Hother. unfold a1; cbn [files archive_set].
      rewrite PyDict_get_set_ne by done.
      apply PyDict_get_set_ne. intros ->. by apply Hnew.
  - inversion H; subst e'; clear H.
    match goal with |- context [_rebuild_index X ?e0] =>
      destruct (rebuild_index_frame X e0) as (recs & dirs & ->) end.
    eexists source, _. split; [reflexivity|]. split; [done|]. split.
    + erewrite get_file_bytes_loaded; [|reflexivity|apply archive_set_nonempty].
      unfold a1; cbn [files archive_set]. by rewrite PyDict_get_set_eq.
    + split.
      * intros other Hin Hother. unfold a1; cbn [files archive_set].
        apply PyDict_get_set_ne. intros ->. by apply Hnew.
      * intros _. unfold archive_keys. unfold a1; cbn [files archive_set].
        by apply PyDict_keys_set_new.
Qed.

Lemma add_file_fresh_entry_witness :
  exists source a',
    archive (add_file ex_externals ex_now ex_now ex_now "new.txt" [x6e] EmptyString EmptyString
               ex_editor_plain).1 = Some a'
    /\ (forall k, k ∈ archive_keys ex_archive_ab ->
          lower ex_externals k <> lower ex_externals source)
    /\ get_file_bytes source
         (add_file ex_externals ex_now ex_now ex_now "new.txt" [x6e] EmptyString EmptyString
            ex_editor_plain).1 = Ok [x6e]
    /\ (forall other, other ∈ archive_keys ex_archive_ab -> other <> "_setup.xml" ->
          PyDict.get other (files a') = PyDict.get other (files ex_archive_ab))
    /\ (xml_root ex_editor_plain = None ->
          archive_keys a' = archive_keys ex_archive_ab ++ [source]).
Proof.
  apply (add_file_fresh_entry ex_externals ex_now ex_now ex_now "new.txt" [x6e] EmptyString EmptyString
           ex_editor_plain _ ex_archive_ab).
  - reflexivity.
  - intros H. exfalso. apply H. reflexivity.
  - vm_compute. reflexivity.
Defined.

(** ** [remove_file] *)

Lemma PyDict_keys_del (k : string) (d : list (string * CabFile)) :
  NoDup (PyDict.keys d) ->
  PyDict.keys (PyDict.del k d) = filter (fun n => n <> k) (PyDict.keys d).
Proof.
  unfold PyDict.keys. induction d as [|[k' v'] d IH]; simpl; intros Hnd; [done|].
  apply NoDup_cons in Hnd as [Hk' Hnd].
  destruct (decide (k = k')) as [-> |Hne].
  - rewrite filter_cons_False by (intros H; by apply H).
    symmetry. apply filter_all. intros n Hn ->. by apply Hk'.
  - rewrite filter_cons_True by (by intros ->). simpl. f_equal. by apply IH.
Qed.

(** X5. After a successful [remove_file(source_name)] the name is no longer
    an archive key (with a manifest: unless the name is [_setup.xml], which
    the resynchronization writes back), every other entry except
    [_setup.xml] is as it was, and without a manifest the remaining keys
    keep their order. *)
Theorem remove_file_removes (X : Externals) (now : DateTime) (source : string)
    (e e' : CabEditor) (a : CabArchive) :
  archive e = Some a ->
  NoDup (archive_keys a) ->
  remove_file X now source e = (e', Ok tt) ->
  exists a',
    archive e' = Some a'
    /\ (forall other, other <> source -> other <> "_setup.xml" ->
          PyDict.get other (files a') = PyDict.get other (files a))
    /\ (source <> "_setup.xml" \/ xml_root e = None ->
          PyDict.get source (files a') = None)
    /\ (xml_root e = None ->
          archive_keys a' = filter (fun n => n <> source) (archive_keys a)).
Proof.
  intros Ea Hnd H. unfold remove_file in H.
  destruct (no_archive e) eqn:En; [by inversion H|]. rewrite Ea in H.
  set (a1 := if PyDict.mem source (files a) then archive_del a source else a).
  assert (Hget : forall other, other <> source ->
            PyDict.get other (files a1) = PyDict.get other (files a)).
  { intros other Hne. unfold a1. destruct (PyDict.mem source (files a)); [|done].
    by apply PyDict_get_del_ne. }
  assert (Hgone : PyDict.get source (files a1) = None).
  { unfold a1. destruct (PyDict.mem source (files a)) eqn:Em.
    - by apply PyDict_get_del_eq.
    - by apply PyDict_mem_get. }
  assert (Hkeys : archive_keys a1 = filter (fun n => n <> source) (archive_keys a)).
  { unfold a1, archive_keys. destruct (PyDict.mem source (files a)) eqn:Em.
    - by apply PyDict_keys_del.
    - symmetry. apply filter_all. intros n Hn ->.
      apply PyDict_mem_get in Em. by apply PyDict_get_None_keys in Em. }
  set (e1 := if PyDict.mem source (files a)
             then with_archive e (Some (archive_del a source)) else e) in H.
  assert (He1 : e1 = with_archive e (Some a1)).
  { unfold e1, a1. destruct (PyDict.mem source (files a)); [done|].
    rewrite <- Ea. by destruct e. }
  clearbody e1 a1. subst e1. cbn [xml_root with_archive] in H.
  destruct (xml_root e) as [root|] eqn:Ex.
  - destruct (remove_xml_file_node X root source) as [root' removed].
    destruct removed; [|by inversion H]. simpl in H.
    inversion H; subst e'; clear H.
    unfold _update_numfiles. cbn [xml_root with_archive with_xml_root records].
    set (e2 := with_xml_root _ _).
    destruct (decide (files a1 = [])) as [Hempty|Hne].
    + assert (Hs : _sync_setup_xml X now e2 = e2).
      { unfold _sync_setup_xml, no_archive, e2. simpl. by rewrite Hempty. }
      rewrite Hs. destruct (rebuild_index_frame X e2) as (recs & dirs & ->).
      exists a1. split; [done|]. split; [by intros; apply Hget|]. split; [done|done].
    + rewrite (sync_setup_xml_loaded X now e2 a1 (set_numfiles root' _)) by done.
      match goal with |- context [_rebuild_index X ?e0] =>
        destruct (rebuild_index_frame X e0) as (recs & dirs & ->) end.
      eexists. split; [reflexivity|]. cbn [files archive_set]. split.
      * intros other Hn1 Hn2. rewrite PyDict_get_set_ne by done. by apply Hget.
      * split; [|done]. intros [Hs|?]; [|done]. by rewrite PyDict_get_set_ne.
  - inversion H; subst e'; clear H.
    match goal with |- context [_rebuild_index X ?e0] =>
      destruct (rebuild_index_frame X e0) as (recs & dirs & ->) end.
    exists a1. split; [done|]. split; [by intros; apply Hget|]. by split.
Qed.

Lemma remove_file_removes_witness :
  exists a',
    archive (remove_file ex_externals ex_now "a.txt" ex_editor_plain).1 = Some a'
    /\ (forall other, other <> "a.txt" -> other <> "_setup.xml" ->
          PyDict.get other (files a') = PyDict.get other (files ex_archive_ab))
    /\ ("a.txt" <> "_setup.xml" \/ xml_root ex_editor_plain = None ->
          PyDict.get "a.txt" (files a') = None)
    /\ (xml_root ex_editor_plain = None ->
          archive_keys a' = filter (fun n => n <> "a.txt") (archive_keys ex_archive_ab)).
Proof.
  apply (remove_file_removes ex_externals ex_now "a.txt" ex_editor_plain _ ex_archive_ab).
  - reflexivity.
  - apply (bool_decide_unpack (NoDup (archive_keys ex_archive_ab))). vm_compute. exact I.
  - reflexivity.
Defined.

(** X6. An archive without entries counts as no archive: after
    [remove_file] has removed the only entry of an archive without manifest,
    the index is empty and every operation of the editor, [remove_file]
    included, raises [RuntimeError] ("No CAB loaded"). *)
Theorem remove_last_file_unloads (X : Externals) (now : DateTime) (source : string)
    (f : CabFile) (id : Z) (e : CabEditor) :
  archive e = Some (mkCabArchive [(source, f)] id) ->
  xml_root e = None ->
  let r := remove_file X now source e in
  r.2 = Ok tt
  /\ archive r.1 = Some (mkCabArchive [] id)
  /\ records r.1 = []
  /\ (forall now' s payload, update_file X now' s payload r.1 = (r.1, Raise RuntimeError))
  /\ (forall now' s, remove_file X now' s r.1 = (r.1, Raise RuntimeError))
  /\ (forall n1 n2 n3 name payload display directory,
        add_file X n1 n2 n3 name payload display directory r.1
        = (r.1, Raise RuntimeError))
  /\ (forall s, get_file_bytes s r.1 = Raise RuntimeError)
  /\ (forall now' compress,
        build_cab_bytes X now' compress r.1 = (r.1, Raise RuntimeError)).
Proof.
  intros Ea Ex. cbv zeta. unfold remove_file.
  rewrite (no_archive_loaded e _ Ea) by done. rewrite Ea.
  unfold PyDict.mem. cbn [files PyDict.get]. rewrite decide_True by done.
  cbn [xml_root with_archive]. rewrite Ex.
  unfold _rebuild_index, archive_del. cbn [files PyDict.del]. rewrite decide_True by done.
  set (e0 := with_index _ [] []).
  assert (Hn : no_archive e0 = true) by reflexivity.
  rewrite Hn. cbn [fst snd].
  split; [done|]. split; [done|]. split; [done|].
  unfold update_file, remove_file, add_file, get_file_bytes, build_cab_bytes.
  rewrite Hn. by repeat split.
Qed.

Lemma remove_last_file_unloads_witness :
  let e := loaded_with ex_externals (mkCabArchive [("a.txt", ex_file [x61])] 0) None in
  let r := remove_file ex_externals ex_now "a.txt" e in
  r.2 = Ok tt
  /\ archive r.1 = Some (mkCabArchive [] 0)
  /\ records r.1 = []
  /\ (forall now' s payload,
        update_file ex_externals now' s payload r.1 = (r.1, Raise RuntimeError))
  /\ (forall now' s, remove_file ex_externals now' s r.1 = (r.1, Raise RuntimeError))
  /\ (forall n1 n2 n3 name payload display directory,
        add_file ex_externals n1 n2 n3 name payload display directory r.1
        = (r.1, Raise RuntimeError))
  /\ (forall s, get_file_bytes s r.1 = Raise RuntimeError)
  /\ (forall now' compress,
        build_cab_bytes ex_externals now' compress r.1 = (r.1, Raise RuntimeError)).
Proof.
  apply (remove_last_file_unloads ex_externals ex_now "a.txt" (ex_file [x61]) 0
           (loaded_with ex_externals (mkCabArchive [("a.txt", ex_file [x61])] 0) None)).
  - reflexivity.
  - reflexivity.
Defined.

(** ** [_rebuild_index] *)

(** X7. Every record of a rebuilt index stands for an entry of the archive:
    its source name is an archive key, its size is the length of that
    entry's payload and its time is that entry's time, so [get_file_bytes]
    returns, for the source name of any record, a payload of the recorded
    size. With a manifest, no record has an empty display name or an empty
    source name. *)
Theorem rebuild_index_records (X : Externals) (e : CabEditor) (r : CabRecord) :
  r ∈ records (_rebuild_index X e) ->
  exists a f,
    archive e = Some a
    /\ (source_name r, f) ∈ files a
    /\ size r = length (buf_or_empty f)
    /\ modified r = format_cabfile_time X f
    /\ (exists payload,
          get_file_bytes (source_name r) (_rebuild_index X e) = Ok payload
          /\ (NoDup (archive_keys a) -> length payload = size r))
    /\ (xml_root e <> None ->
          display_name r <> EmptyString /\ source_name r <> EmptyString).
Proof.
  intros Hr.
  assert (Hfr : exists recs dirs, _rebuild_index X e = with_index e recs dirs)
    by apply rebuild_index_frame.
  destruct Hfr as (recs & dirs & Hfr).
  unfold _rebuild_index in Hr.
  destruct (no_archive (with_index e [] [])) eqn:En;
    [by apply elem_of_nil in Hr|].
  change (no_archive (with_index e [] [])) with (no_archive e) in En.
  destruct (no_archive_false_inv e En) as (a & Ea & Hne).
  change (archive (with_index e [] [])) with (archive e) in Hr.
  change (xml_root (with_index e [] [])) with (xml_root e) in Hr.
  rewrite Ea in Hr.
  assert (Hget : forall s, get_file_bytes s (_rebuild_index X e)
                 = match PyDict.get s (files a) with
                   | Some f => Ok (buf_or_empty f)
                   | None => Raise KeyError
                   end).
  { intros s. rewrite Hfr. by apply get_file_bytes_loaded. }
  destruct (xml_root e) as [root|] eqn:Ex.
  - cbn [records with_index] in Hr.
    apply list_elem_of_In, in_flat_map in Hr as ([[parent file_node] extract] & _ & Hr).
    unfold manifest_record in Hr.
    destruct (decide (Xml.attr_get "type" file_node = EmptyString)); [done|].
    destruct (decide (Xml.attr_get "value" extract = EmptyString)); [done|].
    destruct (PyDict.get (Xml.attr_get "value" extract) (files a)) as [f|] eqn:Eg; [|done].
    destruct Hr as [<-|[]]. cbn [source_name size modified display_name].
    exists a, f. split; [done|]. split; [by apply PyDict_get_elem_of|].
    split; [done|]. split; [done|]. split; [|done].
    exists (buf_or_empty f). by rewrite Hget, Eg.
  - cbn [records with_index] in Hr.
    apply list_elem_of_fmap in Hr as ([s f] & -> & Hin).
    cbn [plain_record source_name size modified display_name fst snd].
    exists a, f. split; [done|]. split; [done|]. split; [done|]. split; [done|].
    split; [|done]. rewrite Hget.
    destruct (PyDict.get s (files a)) as [f'|] eqn:Eg.
    + exists (buf_or_empty f'). split; [done|]. intros Hnd.
      rewrite (PyDict_get_In s f (files a) Hnd Hin) in Eg. by inversion Eg.
    + exfalso. apply PyDict_get_None_keys in Eg. apply Eg.
      apply list_elem_of_fmap. by exists (s, f).
Qed.

Lemma rebuild_index_records_witness :
  exists a f,
    archive (loaded_with ex_externals ex_archive_manifest (Some ex_manifest)) = Some a
    /\ ("A.TXT", f) ∈ files a
    /\ 1%nat = length (buf_or_empty f)
    /\ "2024-5-17 10:30:12" = format_cabfile_time ex_externals f
    /\ (exists payload,
          get_file_bytes "A.TXT"
            (_rebuild_index ex_externals
               (loaded_with ex_externals ex_archive_manifest (Some ex_manifest)))
          = Ok payload
          /\ (NoDup (archive_keys a) -> length payload = 1%nat))
    /\ (xml_root (loaded_with ex_externals ex_archive_manifest (Some ex_manifest)) <> None ->
          "Readme.txt" <> EmptyString /\ "A.TXT" <> EmptyString).
Proof.
  apply (rebuild_index_records ex_externals
           (loaded_with ex_externals ex_archive_manifest (Some ex_manifest))
           (mkCabRecord "Readme.txt" "A.TXT" 1 "2024-5-17 10:30:12" "\Windows")).
  vm_compute. left.
Defined.

(** X8. The directories of a rebuilt index are the parent types of the
    records that start with a backslash, each once, in ascending order. *)
Theorem rebuild_index_directories (X : Externals) (e : CabEditor) :
  let e' := _rebuild_index X e in
  StronglySorted String.le (directories e')
  /\ NoDup (directories e')
  /\ forall d, d ∈ directories e'
       <-> starts_with_backslash d = true
           /\ exists r, r ∈ records e' /\ parent_type r = d.
Proof.
  cbv zeta.
  assert (Hempty : forall recs : list CabRecord,
            (forall r, r ∈ recs -> parent_type r = EmptyString) ->
            StronglySorted String.le (@nil string) /\ NoDup (@nil string)
            /\ forall d, d ∈ @nil string
                 <-> starts_with_backslash d = true
                     /\ exists r, r ∈ recs /\ parent_type r = d).
  { intros recs Hrecs. split; [constructor|]. split; [constructor|].
    intros d. split; [by intros ?%elem_of_nil|].
    intros (Hd & r & Hr & <-). rewrite (Hrecs r Hr) in Hd. done. }
  unfold _rebuild_index.
  destruct (no_archive (with_index e [] [])).
  { apply (Hempty []). by intros r ?%elem_of_nil. }
  change (archive (with_index e [] [])) with (archive e).
  change (xml_root (with_index e [] [])) with (xml_root e).
  destruct (archive e) as [a|].
  2:{ apply (Hempty []). by intros r ?%elem_of_nil. }
  destruct (xml_root e) as [root|].
  2:{ cbn [directories records with_index]. apply Hempty.
      by intros r ([s f] & -> & _)%list_elem_of_fmap. }
  cbn [directories records with_index].
  set (recs := flat_map (manifest_record X a) (iter_file_nodes root)).
  unfold directories_of, sorted. split; [|split].
  - apply (StronglySorted_merge_sort String.le).
  - rewrite merge_sort_Permutation. apply NoDup_elements.
  - intros d. rewrite merge_sort_Permutation, elem_of_elements, elem_of_list_to_set.
    rewrite list_elem_of_filter, list_elem_of_fmap. split.
    + intros (HP & r & -> & Hr). apply andb_prop_elim in HP as [_ HP].
      split; [by apply Is_true_true|]. by exists r.
    + intros (Hd & r & Hr & <-). split; [|by exists r].
      apply andb_prop_intro. split; [|by apply Is_true_true].
      apply bool_decide_pack. intros E. by rewrite E in Hd.
Qed.

(** ** [load] *)

(** The index depends on the archive and the manifest only. *)
Lemma rebuild_index_depends (X : Externals) (e e' : CabEditor) :
  archive e = archive e' -> xml_root e = xml_root e' ->
  records (_rebuild_index X e) = records (_rebuild_index X e')
  /\ directories (_rebuild_index X e) = directories (_rebuild_index X e').
Proof.
  intros Ha Hx. unfold _rebuild_index, no_archive.
  change (archive (with_index e [] [])) with (archive e).
  change (xml_root (with_index e [] [])) with (xml_root e).
  change (archive (with_index e' [] [])) with (archive e').
  change (xml_root (with_index e' [] [])) with (xml_root e').
  rewrite <- Ha, <- Hx. destruct (archive e) as [a|]; [|done].
  destruct (files a); [done|]. by destruct (xml_root e).
Qed.

(** X9. A successful [load] replaces the whole state of the editor: the
    state it leaves does not depend on the state it found, so nothing of
    a cabinet that was loaded before survives (its manifest, its index and
    its signature snapshot included). *)
Theorem load_success_overwrites (X : Externals) (p : string) (display : option string)
    (e0 e1 e : CabEditor) :
  load X p display e0 = (e, Ok tt) ->
  load X p display e1 = (e, Ok tt).
Proof.
  unfold load. destruct (read_bytes X p) as [data|x]; [|by intros [= _ ?]].
  destruct (cab_parse X data) as [a|x]; [|by intros [= _ ?]].
  cbn [path loaded_name archive xml_root setup_encoding records directories
       signature_before with_archive].
  set (name := str_or _ "cabinetforge_output").
  unfold with_archive.
  cbn [path loaded_name archive xml_root setup_encoding records directories
       signature_before].
  set (s0 := mkCabEditor (Some p) name (Some a) (xml_root e0) (setup_encoding e0)
               (records e0) (directories e0) (signature_before e0)).
  set (s1 := mkCabEditor (Some p) name (Some a) (xml_root e1) (setup_encoding e1)
               (records e1) (directories e1) (signature_before e1)).
  destruct (load_setup_xml_frame X s0) as (root & enc & H0 & Hother).
  rewrite H0, (Hother s1) by done.
  cbn [path loaded_name archive xml_root setup_encoding records directories
       signature_before].
  unfold s0, s1.
  cbn [path loaded_name archive xml_root setup_encoding records directories
       signature_before].
  set (t0 := mkCabEditor (Some p) name (Some a) root enc (records e0) (directories e0)
               (signature_before e0)).
  set (t1 := mkCabEditor (Some p) name (Some a) root enc (records e1) (directories e1)
               (signature_before e1)).
  destruct (rebuild_index_depends X t0 t1) as [Hr Hd]; [done|done|].
  destruct (rebuild_index_frame X t0) as (recs0 & dirs0 & E0).
  destruct (rebuild_index_frame X t1) as (recs1 & dirs1 & E1).
  rewrite E0, E1 in Hr, Hd. rewrite E0, E1. cbn in Hr, Hd. subst recs1 dirs1.
  destruct (get_signature_status X p) as [s|x]; [|by intros [= _ ?]].
  intros [= <-]. done.
Qed.

Lemma load_success_overwrites_witness :
  load ex_externals "ex.cab" None
    (loaded_with ex_externals ex_archive_manifest (Some ex_manifest))
  = ((load ex_externals "ex.cab" None new_editor).1, Ok tt).
Proof.
  apply (load_success_overwrites ex_externals "ex.cab" None new_editor
           (loaded_with ex_externals ex_archive_manifest (Some ex_manifest))).
  reflexivity.
Defined.

(** ** The file count ([_update_numfiles]) *)

Lemma step_matches_attr_set_value (t n v w : string) (p : Xml.Element) :
  n <> "value" ->
  Xml.step_matches t n v (Xml.attr_set "value" w p) = Xml.step_matches t n v p.
Proof.
  intros Hn. unfold Xml.step_matches, Xml.attr_set. destruct p as [tg at_ cs].
  cbn [Xml.tag Xml.attrib Xml.children]. by rewrite PyDict_get_set_ne.
Qed.

(** Setting the value of the first parameter named [n] among [cs]. *)
Lemma update_first_parm (n v : string) (cs : list Xml.Element) :
  match head (filter (fun p => Xml.step_matches "parm" "name" n p) cs) with
  | Some p =>
      exists cs',
        Xml.update_first (Xml.step_matches "parm" "name" n)
          (fun p => Some (Xml.attr_set "value" v p)) cs = Some cs'
        /\ head (filter (fun p => Xml.step_matches "parm" "name" n p) cs')
           = Some (Xml.attr_set "value" v p)
  | None =>
      Xml.update_first (Xml.step_matches "parm" "name" n)
        (fun p => Some (Xml.attr_set "value" v p)) cs = None
  end.
Proof.
  induction cs as [|c cs IH]; [done|]. cbn [Xml.update_first].
  destruct (Xml.step_matches "parm" "name" n c) eqn:Ec.
  - rewrite filter_cons_True by (rewrite Ec; exact I). cbn [head].
    eexists. split; [reflexivity|].
    rewrite filter_cons_True; [done|].
    rewrite step_matches_attr_set_value by done. rewrite Ec. exact I.
  - rewrite filter_cons_False by (rewrite Ec; exact id).
    destruct (head (filter _ cs)) as [p|].
    + destruct IH as (cs' & -> & Hh). eexists. split; [reflexivity|].
      by rewrite filter_cons_False by (rewrite Ec; exact id).
    + by rewrite IH.
Qed.

Lemma set_numfiles_spec (root : Xml.Element) (v : string) :
  match find_numfiles root with
  | Some p => find_numfiles (set_numfiles root v) = Some (Xml.attr_set "value" v p)
  | None => set_numfiles root v = root
  end
  /\ find_fileop (set_numfiles root v) = find_fileop root.
Proof.
  unfold find_numfiles, set_numfiles, find_fileop, Xml.find_parm, Xml.find_characteristic.
  destruct root as [tg at_ cs]. cbn [Xml.children Xml.tag Xml.attrib Xml.with_children].
  set (in_install := fun c : Xml.Element =>
    if Xml.step_matches "characteristic" "type" "Install" c
    then Xml.with_children c
           <$> Xml.update_first (Xml.step_matches "parm" "name" "NumFiles")
                 (fun p => Some (Xml.attr_set "value" v p)) (Xml.children c)
    else None).
  set (parms := fun c : Xml.Element =>
    filter (fun p => Xml.step_matches "parm" "name" "NumFiles" p) (Xml.children c)).
  assert (H : match head (flat_map parms
                 (filter (fun c => Xml.step_matches "characteristic" "type" "Install" c) cs)) with
              | Some p =>
                  exists cs',
                    Xml.update_first_success in_install cs = Some cs'
                    /\ head (flat_map parms
                         (filter (fun c => Xml.step_matches "characteristic" "type" "Install" c)
                            cs')) = Some (Xml.attr_set "value" v p)
                    /\ filter (fun c => Xml.step_matches "characteristic" "type"
                                          "FileOperation" c) cs'
                       = filter (fun c => Xml.step_matches "characteristic" "type"
                                            "FileOperation" c) cs
              | None => Xml.update_first_success in_install cs = None
              end).
  { induction cs as [|c cs IH]; [done|]. cbn [Xml.update_first_success].
    destruct (Xml.step_matches "characteristic" "type" "Install" c) eqn:Ec.
    - rewrite filter_cons_True by (rewrite Ec; exact I). cbn [flat_map].
      pose proof (update_first_parm "NumFiles" v (Xml.children c)) as Hp.
      assert (Hc : in_install c
                   = Xml.with_children c
                       <$> Xml.update_first (Xml.step_matches "parm" "name" "NumFiles")
                             (fun p => Some (Xml.attr_set "value" v p)) (Xml.children c))
        by (unfold in_install; by rewrite Ec).
      rewrite Hc. unfold parms at 1.
      assert (Hnf : Xml.step_matches "characteristic" "type" "FileOperation" c = false).
      { unfold Xml.step_matches in *. apply andb_true_iff in Ec as [_ Ec].
        apply bool_decide_eq_true_1 in Ec. rewrite Ec.
        apply andb_false_iff. right. by apply bool_decide_eq_false_2. }
      destruct (head (filter _ (Xml.children c))) as [p|] eqn:Eh.
      + destruct Hp as (cs1 & -> & Hh). cbn [fmap option_fmap option_map].
        assert (Hhead : forall l1 l2 : list Xml.Element,
                  head l1 = Some p -> head (l1 ++ l2) = Some p).
        { intros l1 l2. by destruct l1. }
        rewrite (Hhead _ _ Eh). eexists. split; [reflexivity|].
        assert (Ec' : Xml.step_matches "characteristic" "type" "Install"
                        (Xml.with_children c cs1) = true) by (by destruct c).
        assert (Hnf' : Xml.step_matches "characteristic" "type" "FileOperation"
                         (Xml.with_children c cs1) = false) by (by destruct c).
        split.
        * rewrite filter_cons_True by (rewrite Ec'; exact I). cbn [flat_map].
          unfold parms at 1. destruct c as [ct ca cc].
          cbn [Xml.children Xml.with_children].
          destruct (filter _ cs1); [done|]. by inversion Hh.
        * rewrite !filter_cons_False; [done|rewrite Hnf; exact id|rewrite Hnf'; exact id].
      + rewrite Hp. change (Xml.with_children c <$> None) with (@None Xml.Element).
        cbv iota.
        assert (Hnil : filter (fun p => Xml.step_matches "parm" "name" "NumFiles" p)
                         (Xml.children c) = []) by (by destruct (filter _ (Xml.children c))).
        rewrite Hnil. cbn [app].
        destruct (head (flat_map parms (filter _ cs))) as [p|].
        * destruct IH as (cs' & -> & Hh & Hf). eexists. split; [reflexivity|]. split.
          -- rewrite filter_cons_True by (rewrite Ec; exact I). cbn [flat_map].
             unfold parms at 1. by rewrite Hnil.
          -- rewrite !filter_cons_False; [done|rewrite Hnf; exact id|rewrite Hnf; exact id].
        * by rewrite IH.
    - rewrite filter_cons_False by (rewrite Ec; exact id).
      assert (Hc : in_install c = None) by (unfold in_install; by rewrite Ec).
      rewrite Hc.
      destruct (head (flat_map parms (filter _ cs))) as [p|].
      + destruct IH as (cs' & -> & Hh & Hf). eexists. split; [reflexivity|]. split.
        * by rewrite filter_cons_False by (rewrite Ec; exact id).
        * rewrite !filter_cons. by rewrite Hf.
      + by rewrite IH. }
  destruct (head (flat_map parms (filter _ cs))) as [p|].
  - destruct H as (cs' & -> & Hh & Hf). unfold parms in *.
    cbn [Xml.children Xml.with_children Xml.tag Xml.attrib]. by rewrite Hh, Hf.
  - rewrite H. done.
Qed.

(** X10. [_update_numfiles] writes the number of records into the manifest:
    when the manifest has an [Install/NumFiles] parameter, its value reads
    [str(len(records))] afterwards, and the file nodes that
    [iter_file_nodes] yields are the ones it yielded before; when the
    manifest has no such parameter, the manifest is left as it was. *)
Theorem update_numfiles_writes_count (X : Externals) (e : CabEditor)
    (root : Xml.Element) :
  xml_root e = Some root ->
  exists root',
    xml_root (_update_numfiles e) = Some root'
    /\ iter_file_nodes root' = iter_file_nodes root
    /\ match find_numfiles root with
       | Some _ =>
           numfiles_value (Some root') = Some (str_of_nat (length (records e)))
       | None => root' = root
       end.
Proof.
  intros Hx. unfold _update_numfiles. rewrite Hx. cbn [xml_root with_xml_root].
  eexists. split; [reflexivity|].
  destruct (set_numfiles_spec root (str_of_nat (length (records e)))) as [Hn Hf].
  split.
  - unfold iter_file_nodes. by rewrite Hf.
  - destruct (find_numfiles root) as [p|]; [|done].
    unfold numfiles_value. rewrite Hn. destruct p as [t a cs].
    cbn [Xml.attr_set Xml.attrib Xml.tag Xml.children]. apply PyDict_get_set_eq.
Qed.

Lemma update_numfiles_writes_count_witness :
  exists root',
    xml_root (_update_numfiles
                (loaded_with ex_externals ex_archive_manifest (Some ex_manifest_no_file)))
    = Some root'
    /\ iter_file_nodes root' = iter_file_nodes ex_manifest_no_file
    /\ match find_numfiles ex_manifest_no_file with
       | Some _ =>
           numfiles_value (Some root')
           = Some (str_of_nat (length (records
               (loaded_with ex_externals ex_archive_manifest (Some ex_manifest_no_file)))))
       | None => root' = ex_manifest_no_file
       end.
Proof.
  apply (update_numfiles_writes_count ex_externals
           (loaded_with ex_externals ex_archive_manifest (Some ex_manifest_no_file))
           ex_manifest_no_file).
  reflexivity.
Defined.

(** ** [add_file] and the manifest *)

(** [resolve_target_parent] splices the directory between single quotes
    into a path expression, [./characteristic[@type='...']]. For a directory
    without a single quote the expression selects the children whose [type]
    is the directory, which is what the model takes; with a single quote
    the expression is another one (or none that ElementTree accepts). The
    properties of the insertion place are stated for the directories
    without one. *)
Definition quote_free (directory : string) : Prop :=
  "'"%char ∉ list_ascii_of_string directory.

(** X11. For a directory without a single quote: once [add_file] has
    accepted its inputs and generated a name, it can fail only on the
    manifest, and does so exactly when a manifest is present and has no
    [FileOperation] element: [resolve_target_parent] finds a parent in
    every other manifest. *)
Theorem add_file_outcome (X : Externals) (now_name now_file now_sync : DateTime)
    (upload_filename : string) (payload : list byte) (display directory : string)
    (e : CabEditor) (a : CabArchive) (source : string) :
  quote_free directory ->
  archive e = Some a -> files a <> [] -> payload <> [] ->
  let final_name :=
    if decide (display = EmptyString) then secure_filename X upload_filename
    else strip X display in
  final_name <> EmptyString ->
  generate_source_name X now_name final_name
    (list_to_set (map (lower X) (archive_keys a))) = Ok source ->
  let r := add_file X now_name now_file now_sync upload_filename payload display
             directory e in
  (r.2 = Raise ValueError
   <-> exists root, xml_root e = Some root /\ find_fileop root = None)
  /\ (r.2 = Ok tt \/ r.2 = Raise ValueError).
Proof.
  intros _ Ea Hne Hp final_name Hfn Hg r. unfold r, add_file.
  rewrite (no_archive_loaded e a Ea Hne), Ea.
  destruct payload as [|b payload]; [done|].
  fold final_name. rewrite decide_False by done. rewrite Hg.
  cbn [xml_root with_archive].
  destruct (xml_root e) as [root|] eqn:Ex.
  - unfold resolve_target_parent. destruct (find_fileop root) as [fileop|] eqn:Ef.
    + assert (Hsome : exists tg,
        match (if decide (directory = EmptyString) then None
               else index_where (Xml.step_matches "characteristic" "type" directory)
                      (Xml.children fileop)) with
        | Some i => Some (TargetChild i)
        | None =>
            match index_where is_install (Xml.children fileop) with
            | Some i => Some (TargetChild i)
            | None => Some TargetFileop
            end
        end = Some tg).
      { destruct (if decide (directory = EmptyString) then None else _); [by eexists|].
        destruct (index_where is_install (Xml.children fileop)); by eexists. }
      destruct Hsome as (tg & ->). cbn [snd]. split; [|by left].
      split; [done|]. intros (root0 & [= <-] & ?). congruence.
    + cbn [snd]. split; [|by right]. split; [|done]. intros _. by exists root.
  - cbn [snd]. split; [|by left]. split; [done|]. by intros (? & ? & _).
Qed.

Lemma add_file_outcome_witness :
  let e := loaded_with ex_externals ex_archive_unlisted (Some ex_manifest_no_fileop) in
  let r := add_file ex_externals ex_now ex_now ex_now "new.txt" [x6e] EmptyString
             "\Windows" e in
  (r.2 = Raise ValueError
   <-> exists root, xml_root e = Some root /\ find_fileop root = None)
  /\ (r.2 = Ok tt \/ r.2 = Raise ValueError).
Proof.
  apply (add_file_outcome ex_externals ex_now ex_now ex_now "new.txt" [x6e] EmptyString
           "\Windows"
           (loaded_with ex_externals ex_archive_unlisted (Some ex_manifest_no_fileop))
           ex_archive_unlisted "NEW~1.TXT").
  - apply (bool_decide_unpack _). vm_compute. exact I.
  - reflexivity.
  - discriminate.
  - discriminate.
  - discriminate.
  - vm_compute. reflexivity.
Defined.

(** *** Where the new file node lands *)

Lemma descendant_characteristics_children (t : string) (a : list (string * string))
    (cs : list Xml.Element) :
  Xml.descendant_characteristics (Xml.Elem t a cs)
  = flat_map (fun c => (if Xml.is_characteristic c then [c] else [])
                         ++ Xml.descendant_characteristics c) cs.
Proof.
  cbn [Xml.descendant_characteristics].
  induction cs as [|c cs IH]; [done|]. cbn [flat_map]. rewrite <- IH.
  by rewrite <- app_assoc.
Qed.

Lemma update_first_head (P : Xml.Element -> bool) (f : Xml.Element -> Xml.Element)
    (l : list Xml.Element) :
  (forall x, P (f x) = P x) ->
  match head (filter (fun c => P c) l) with
  | Some x =>
      exists l', Xml.update_first P (fun c => Some (f c)) l = Some l'
        /\ head (filter (fun c => P c) l') = Some (f x)
  | None => Xml.update_first P (fun c => Some (f c)) l = None
  end.
Proof.
  intros HP. induction l as [|c l IH]; [done|]. cbn [Xml.update_first].
  destruct (P c) eqn:Ec.
  - rewrite filter_cons_True by (rewrite Ec; exact I). cbn [head].
    eexists. split; [reflexivity|].
    rewrite filter_cons_True; [done|]. rewrite HP, Ec. exact I.
  - rewrite filter_cons_False by (rewrite Ec; exact id).
    destruct (head (filter _ l)) as [x|].
    + destruct IH as (l' & -> & Hh). eexists. split; [reflexivity|].
      by rewrite filter_cons_False by (rewrite Ec; exact id).
    + by rewrite IH.
Qed.

(** The [FileOperation] element after [append_at]. *)
Lemma find_fileop_append_at (root : Xml.Element) (tg : target)
    (display source : string) :
  find_fileop (append_at root tg display source)
  = (fun fileop =>
       match tg with
       | TargetFileop => append_xml_file_node fileop display source
       | TargetChild i =>
           Xml.with_children fileop
             (alter (fun p => append_xml_file_node p display source) i
                (Xml.children fileop))
       end) <$> find_fileop root.
Proof.
  unfold append_at, find_fileop, Xml.find_characteristic.
  set (f := fun fileop : Xml.Element =>
              match tg with
              | TargetFileop => append_xml_file_node fileop display source
              | TargetChild i =>
                  Xml.with_children fileop
                    (alter (fun p => append_xml_file_node p display source) i
                       (Xml.children fileop))
              end).
  assert (Hf : (fun fileop : Xml.Element =>
                  match tg with
                  | TargetFileop => Some (append_xml_file_node fileop display source)
                  | TargetChild i =>
                      Some (Xml.with_children fileop
                              (alter (fun p => append_xml_file_node p display source) i
                                 (Xml.children fileop)))
                  end) = (fun c => Some (f c))).
  { unfold f. by destruct tg. }
  rewrite Hf.
  pose proof (update_first_head is_fileop f (Xml.children root)) as H.
  unfold is_fileop in *.
  destruct (head (filter _ (Xml.children root))) as [x|] eqn:Eh.
  - destruct H as (l' & -> & Hh).
    { intros [t a cs]. unfold f. by destruct tg. }
    destruct root as [rt ra rcs]. cbn [Xml.children Xml.with_children]. by rewrite Hh.
  - rewrite H.
    + exact Eh.
    + intros [t a cs]. unfold f. by destruct tg.
Qed.

(** X12. For a directory without a single quote: a file node that
    [add_file] appends to the [FileOperation] element itself, which is
    where [resolve_target_parent] sends it when that element has neither
    the requested directory nor an install directory, is not among the file
    nodes of the manifest: [iter_file_nodes] looks for file nodes under the
    descendants of [FileOperation] only. After such an [add_file] the
    manifest enumerates the file nodes it enumerated before, and every
    record of the index stems from one of them. *)
Theorem add_file_under_fileop_unlisted (X : Externals)
    (now_name now_file now_sync : DateTime) (upload_filename : string)
    (payload : list byte) (display directory : string) (e e' : CabEditor)
    (root : Xml.Element) :
  quote_free directory ->
  xml_root e = Some root ->
  resolve_target_parent root directory = Some TargetFileop ->
  add_file X now_name now_file now_sync upload_filename payload display directory e
  = (e', Ok tt) ->
  exists root',
    xml_root e' = Some root'
    /\ iter_file_nodes root' = iter_file_nodes root
    /\ forall r, r ∈ records e' ->
         exists triple,
           triple ∈ iter_file_nodes root
           /\ source_name r = Xml.attr_get "value" triple.2
           /\ display_name r = Xml.attr_get "type" triple.1.2.
Proof.
  intros _ Ex Htg H. unfold add_file in H.
  destruct (no_archive e) eqn:En; [by inversion H|].
  destruct (no_archive_false_inv e En) as (a & Ea & Hne). rewrite Ea in H.
  destruct payload as [|b payload]; [by inversion H|].
  set (final_name := if decide (display = EmptyString)
                     then secure_filename X upload_filename else strip X display) in H.
  destruct (decide (final_name = EmptyString)); [by inversion H|].
  destruct (generate_source_name X now_name final_name _) as [source|x]; [|by inversion H].
  cbn [xml_root with_archive] in H. rewrite Ex, Htg in H.
  inversion H; subst e'; clear H.
  set (root1 := append_at root TargetFileop final_name source).
  assert (Hiter : iter_file_nodes root1 = iter_file_nodes root).
  { unfold iter_file_nodes, root1. rewrite find_fileop_append_at.
    destruct (find_fileop root) as [[ft fa fcs]|]; [|done]. cbn [fmap option_fmap option_map].
    unfold append_xml_file_node, Xml.with_children.
    cbn [Xml.children Xml.tag Xml.attrib].
    rewrite !descendant_characteristics_children. rewrite flat_map_app.
    rewrite (flat_map_app file_nodes_of). cbn [flat_map]. rewrite app_nil_r.
    change (Xml.is_characteristic (new_file_node final_name source)) with true.
    reflexivity. }
  unfold _update_numfiles. cbn [xml_root with_archive with_xml_root records].
  set (v := str_of_nat (length (records e))).
  destruct (set_numfiles_spec root1 v) as [_ Hfo].
  assert (Hiter2 : iter_file_nodes (set_numfiles root1 v) = iter_file_nodes root).
  { rewrite <- Hiter. unfold iter_file_nodes. by rewrite Hfo. }
  erewrite (sync_setup_xml_loaded X now_sync _ _ (set_numfiles root1 v));
    [|reflexivity|apply archive_set_nonempty|reflexivity].
  exists (set_numfiles root1 v). split.
  { match goal with |- context [_rebuild_index X ?e0] =>
      destruct (rebuild_index_frame X e0) as (recs & dirs & ->) end. done. }
  split; [done|]. intros r Hr. unfold _rebuild_index, no_archive in Hr.
  cbn [xml_root archive with_archive with_xml_root with_index files archive_set] in Hr.
  match type of Hr with context [PyDict.set "_setup.xml" ?G ?d] =>
    pose proof (PyDict_set_nonempty "_setup.xml" G d) as Hne2;
    destruct (PyDict.set "_setup.xml" G d) as [|p2 l2] eqn:Es2; [done|] end.
  cbn [records with_index] in Hr. rewrite Hiter2 in Hr.
  apply list_elem_of_In, in_flat_map in Hr as ([[parent file_node] extract] & Ht & Hr).
  exists (parent, file_node, extract). split; [by apply list_elem_of_In|].
  unfold manifest_record in Hr.
  destruct (decide (Xml.attr_get "type" file_node = EmptyString)); [done|].
  destruct (decide (Xml.attr_get "value" extract = EmptyString)); [done|].
  destruct (PyDict.get (Xml.attr_get "value" extract) _); [|done].
  by destruct Hr as [<-|[]].
Qed.

(** A manifest whose [FileOperation] element has no child. *)
Definition ex_manifest_bare : Xml.Element :=
  Xml.Elem "wap-provisioningdoc" []
    [Xml.Elem "characteristic" [("type", "Install")]
       [Xml.Elem "parm" [("name", "NumFiles"); ("value", "0")] []];
     Xml.Elem "characteristic" [("type", "FileOperation")] []].

Lemma add_file_under_fileop_unlisted_witness :
  let e := loaded_with ex_externals ex_archive_unlisted (Some ex_manifest_bare) in
  let e' := (add_file ex_externals ex_now ex_now ex_now "new.txt" [x6e] EmptyString
               "\Temp" e).1 in
  exists root',
    xml_root e' = Some root'
    /\ iter_file_nodes root' = iter_file_nodes ex_manifest_bare
    /\ forall r,
         r ∈ records e' ->
         exists triple,
           triple ∈ iter_file_nodes ex_manifest_bare
           /\ source_name r = Xml.attr_get "value" triple.2
           /\ display_name r = Xml.attr_get "type" triple.1.2.
Proof.
  apply (add_file_under_fileop_unlisted ex_externals ex_now ex_now ex_now "new.txt"
           [x6e] EmptyString "\Temp"
           (loaded_with ex_externals ex_archive_unlisted (Some ex_manifest_bare))
           (add_file ex_externals ex_now ex_now ex_now "new.txt" [x6e] EmptyString
              "\Temp"
              (loaded_with ex_externals ex_archive_unlisted (Some ex_manifest_bare))).1
           ex_manifest_bare).
  - apply (bool_decide_unpack _). vm_compute. exact I.
  - reflexivity.
  - reflexivity.
  - vm_compute. reflexivity.
Defined.

Lemma generate_source_name_nonempty (X : Externals) (now : DateTime)
    (display : string) (existing : gset string) (c : string) :
  generate_source_name X now display existing = Ok c -> c <> EmptyString.
Proof.
  unfold generate_source_name.
  pose proof (candidate_loop_spec X (source_stem X display) (source_ext X display)
                existing 999 1) as Hloop.
  fold (source_stem X display). fold (source_ext X display).
  destruct (candidate_loop X 999 1 _ _ existing) as [c'|].
  - destruct Hloop as (i & _ & -> & _). intros [= <-].
    unfold source_candidate. by destruct (source_stem X display).
  - destruct (decide (lower X _ ∈ existing)); [done|]. by intros [= <-].
Qed.

Lemma index_where_Some (P : Xml.Element -> bool) (l : list Xml.Element) (i : nat) :
  index_where P l = Some i -> exists c, l !! i = Some c /\ P c = true.
Proof.
  revert i. induction l as [|x l IH]; intros i; simpl; [done|].
  destruct (P x) eqn:Ex.
  - intros [= <-]. by exists x.
  - destruct (index_where P l) as [j|]; [|done]. intros [= <-].
    destruct (IH j eq_refl) as (c & Hc & HP). by exists c.
Qed.

Lemma child_in_descendants (e c : Xml.Element) :
  c ∈ Xml.children e -> Xml.is_characteristic c = true ->
  c ∈ Xml.descendant_characteristics e.
Proof.
  destruct e as [t a cs]. cbn [Xml.children]. intros Hin Hc.
  rewrite descendant_characteristics_children.
  apply list_elem_of_In, in_flat_map. exists c. split; [by apply list_elem_of_In|].
  rewrite Hc. by left.
Qed.

Lemma rebuild_index_manifest (X : Externals) (e : CabEditor) (a : CabArchive)
    (root : Xml.Element) :
  archive e = Some a -> files a <> [] -> xml_root e = Some root ->
  records (_rebuild_index X e) = flat_map (manifest_record X a) (iter_file_nodes root).
Proof.
  intros Ha Hne Hx. unfold _rebuild_index.
  change (no_archive (with_index e [] [])) with (no_archive e).
  change (archive (with_index e [] [])) with (archive e).
  change (xml_root (with_index e [] [])) with (xml_root e).
  by rewrite (no_archive_loaded e a Ha Hne), Ha, Hx.
Qed.

(** X13. For a directory without a single quote: a file that [add_file]
    adds to a manifest with a directory to put it in (the requested one,
    or else the first install directory) is listed. The manifest gets a
    file node for it under that directory, and the rebuilt index has a
    record with the display name, the name that [generate_source_name]
    returned for it, and that directory as parent; unless the generated
    name is [_setup.xml], its size is the length of the payload. *)
Theorem add_file_listed (X : Externals) (now_name now_file now_sync : DateTime)
    (upload_filename : string) (payload : list byte) (display directory : string)
    (e e' : CabEditor) (a : CabArchive) (root : Xml.Element) (i : nat) :
  quote_free directory ->
  archive e = Some a ->
  xml_root e = Some root ->
  resolve_target_parent root directory = Some (TargetChild i) ->
  add_file X now_name now_file now_sync upload_filename payload display directory e
  = (e', Ok tt) ->
  let final_name :=
    if decide (display = EmptyString) then secure_filename X upload_filename
    else strip X display in
  exists fileop dir source r,
    generate_source_name X now_name final_name
      (list_to_set (map (lower X) (archive_keys a))) = Ok source
    /\ find_fileop root = Some fileop
    /\ Xml.children fileop !! i = Some dir
    /\ r ∈ records e'
    /\ display_name r = final_name
    /\ source_name r = source
    /\ parent_type r = Xml.attr_get "type" dir
    /\ (source <> "_setup.xml" ->
          size r = length payload /\ get_file_bytes source e' = Ok payload).
Proof.
  intros _ Ea Ex Htg H final_name. unfold add_file in H.
  destruct (no_archive e) eqn:En; [by inversion H|].
  destruct (no_archive_false_inv e En) as (a0 & Ea0 & Hne).
  rewrite Ea in Ea0. inversion Ea0; subst a0; clear Ea0. rewrite Ea in H.
  destruct payload as [|b payload]; [by inversion H|].
  fold final_name in H.
  destruct (decide (final_name = EmptyString)) as [|Hfn]; [by inversion H|].
  destruct (generate_source_name X now_name final_name _) as [source|x] eqn:Eg;
    [|by inversion H].
  apply generate_source_name_nonempty in Eg.
  cbn [xml_root with_archive] in H. rewrite Ex, Htg in H.
  inversion H; subst e'; clear H.
  set (F := new_CabFile X (b :: payload) now_file).
  set (root1 := append_at root (TargetChild i) final_name source).
  (* the directory *)
  unfold resolve_target_parent in Htg.
  destruct (find_fileop root) as [fileop|] eqn:Ef; [|done].
  assert (Hdir : exists dir, Xml.children fileop !! i = Some dir
                             /\ Xml.is_characteristic dir = true).
  { destruct (decide (directory = EmptyString)) as [Hd|Hd].
    - destruct (index_where is_install (Xml.children fileop)) as [j|] eqn:Ei; [|done].
      inversion Htg; subst j. apply index_where_Some in Ei as (c & Hc & HP).
      exists c. split; [done|]. by apply andb_true_iff in HP as [? _].
    - destruct (index_where (Xml.step_matches "characteristic" "type" directory)
                  (Xml.children fileop)) as [j|] eqn:Ei.
      + inversion Htg; subst j. apply index_where_Some in Ei as (c & Hc & HP).
        exists c. split; [done|]. by apply andb_true_iff in HP as [? _].
      + destruct (index_where is_install (Xml.children fileop)) as [j|] eqn:Ei2; [|done].
        inversion Htg; subst j. apply index_where_Some in Ei2 as (c & Hc & HP).
        exists c. split; [done|]. by apply andb_true_iff in HP as [? _]. }
  destruct Hdir as (dir & Hdir & Hchar).
  set (dir' := append_xml_file_node dir final_name source).
  set (parm := Xml.Elem "parm" [("name", "Source"); ("value", source)] []).
  assert (Htriple : (dir', new_file_node final_name source, parm) ∈ iter_file_nodes root1).
  { unfold iter_file_nodes, root1. rewrite find_fileop_append_at, Ef.
    cbn [fmap option_fmap option_map].
    apply list_elem_of_In, in_flat_map. exists dir'. split.
    - apply list_elem_of_In, child_in_descendants; [|by destruct dir].
      destruct fileop as [ft fa fcs]. unfold Xml.with_children.
      cbn [Xml.children] in *. apply list_elem_of_lookup. exists i.
      rewrite list_lookup_alter, Hdir. by rewrite decide_True.
    - unfold file_nodes_of. apply in_flat_map.
      exists (new_file_node final_name source). split; [|by left].
      apply list_elem_of_In. unfold Xml.child_characteristics.
      apply list_elem_of_filter. split; [done|].
      destruct dir as [dt da dcs]. unfold dir', append_xml_file_node, Xml.with_children.
      cbn [Xml.children]. apply elem_of_app. right. left. }
  unfold _update_numfiles. cbn [xml_root with_archive with_xml_root records].
  set (v := str_of_nat (length (records e))).
  destruct (set_numfiles_spec root1 v) as [_ Hfo].
  assert (Hiter2 : iter_file_nodes (set_numfiles root1 v) = iter_file_nodes root1).
  { unfold iter_file_nodes. by rewrite Hfo. }
  erewrite (sync_setup_xml_loaded X now_sync _ _ (set_numfiles root1 v));
    [|reflexivity|apply archive_set_nonempty|reflexivity].
  set (G := new_CabFile X (tostring X (set_numfiles root1 v)) now_sync).
  set (a2 := archive_set (archive_set a source F) "_setup.xml" G).
  assert (Hget : exists f, PyDict.get source (files a2) = Some f
                           /\ (source <> "_setup.xml" -> f = F)).
  { unfold a2. cbn [files archive_set].
    destruct (decide (source = "_setup.xml")) as [-> |Hs].
    - exists G. split; [apply PyDict_get_set_eq|done].
    - exists F. split; [|done]. rewrite PyDict_get_set_ne by done.
      apply PyDict_get_set_eq. }
  destruct Hget as (f & Hget & HF).
  set (r := mkCabRecord final_name source (length (buf_or_empty f))
              (format_cabfile_time X f) (Xml.attr_get "type" dir)).
  exists fileop, dir, source, r. split; [done|]. split; [done|]. split; [done|].
  assert (Hrec : r ∈ records (_rebuild_index X
                    (with_archive (with_xml_root (with_xml_root
                       (with_archive e (Some (archive_set a source F))) (Some root1))
                       (Some (set_numfiles root1 v))) (Some a2)))).
  { erewrite (rebuild_index_manifest X _ a2 (set_numfiles root1 v));
      [|reflexivity|apply archive_set_nonempty|reflexivity].
    rewrite Hiter2.
    apply list_elem_of_In, in_flat_map.
    exists (dir', new_file_node final_name source, parm).
    split; [by apply list_elem_of_In|].
    unfold manifest_record.
    change (Xml.attr_get "type" (new_file_node final_name source)) with final_name.
    change (Xml.attr_get "value" parm) with source.
    rewrite !decide_False by done. rewrite Hget.
    replace (Xml.attr_get "type" dir') with (Xml.attr_get "type" dir)
      by (by destruct dir).
    by left. }
  split; [exact Hrec|]. split; [done|]. split; [done|]. split; [done|].
  intros Hs. unfold r. cbn [size]. rewrite (HF Hs). split; [done|].
  match goal with |- context [_rebuild_index X ?e0] =>
    destruct (rebuild_index_frame X e0) as (recs & dirs & ->) end.
  erewrite get_file_bytes_loaded; [|reflexivity|apply archive_set_nonempty].
  fold G. fold a2. by rewrite Hget, (HF Hs).
Qed.

Lemma add_file_listed_witness :
  let e := loaded_with ex_externals ex_archive_manifest (Some ex_manifest) in
  let e' := (add_file ex_externals ex_now ex_now ex_now "new.txt" [x6e] EmptyString
               "\Windows" e).1 in
  let final_name :=
    if decide (EmptyString = EmptyString) then secure_filename ex_externals "new.txt"
    else strip ex_externals EmptyString in
  exists fileop dir source r,
    generate_source_name ex_externals ex_now final_name
      (list_to_set (map (lower ex_externals) (archive_keys ex_archive_manifest)))
    = Ok source
    /\ find_fileop ex_manifest = Some fileop
    /\ Xml.children fileop !! 0%nat = Some dir
    /\ r ∈ records e'
    /\ display_name r = final_name
    /\ source_name r = source
    /\ parent_type r = Xml.attr_get "type" dir
    /\ (source <> "_setup.xml" ->
          size r = length [x6e] /\ get_file_bytes source e' = Ok [x6e]).
Proof.
  apply (add_file_listed ex_externals ex_now ex_now ex_now "new.txt" [x6e] EmptyString
           "\Windows"
           (loaded_with ex_externals ex_archive_manifest (Some ex_manifest))
           (add_file ex_externals ex_now ex_now ex_now "new.txt" [x6e] EmptyString
              "\Windows"
              (loaded_with ex_externals ex_archive_manifest (Some ex_manifest))).1
           ex_archive_manifest ex_manifest 0).
  - apply (bool_decide_unpack _). vm_compute. exact I.
  - reflexivity.
  - reflexivity.
  - reflexivity.
  - vm_compute. reflexivity.
Defined.

(** ** The manifest and its archive entry *)

(** The [_setup.xml] entry holds the serialization of the manifest in
    memory (or there is no manifest, or no entry at all). *)
Definition manifest_in_sync (X : Externals) (e : CabEditor) : Prop :=
  match xml_root e with
  | Some root =>
      no_archive e = true \/ get_file_bytes "_setup.xml" e = Ok (tostring X root)
  | None => True
  end.

Lemma synced_in_sync (X : Externals) (now : DateTime) (e : CabEditor)
    (recs : list CabRecord) (dirs : list string) :
  manifest_in_sync X (with_index (_sync_setup_xml X now e) recs dirs).
Proof.
  unfold manifest_in_sync, _sync_setup_xml.
  destruct (no_archive e) eqn:En.
  - cbn [xml_root with_index]. destruct (xml_root e); [|done]. by left.
  - destruct (no_archive_false_inv e En) as (a & Ha & Hne). rewrite Ha.
    destruct (xml_root e) as [root|] eqn:Ex.
    + cbn [xml_root with_index with_archive]. rewrite Ex. right.
      erewrite get_file_bytes_loaded; [|reflexivity|apply archive_set_nonempty].
      cbn [files archive_set]. by rewrite PyDict_get_set_eq.
    + cbn [xml_root with_index]. by rewrite Ex.
Qed.

Lemma rebuild_index_xml_root (X : Externals) (e : CabEditor) :
  xml_root (_rebuild_index X e) = xml_root e.
Proof. by destruct (rebuild_index_frame X e) as (recs & dirs & ->). Qed.

(** X22. After every successful [add_file] and [remove_file], and after
    every [build_cab_bytes] on a loaded editor, the [_setup.xml] entry of
    the archive is the serialization of the manifest the editor holds in
    memory, so that [get_file_bytes] returns the manifest as it then is
    (unless the operation has left the archive without entries). *)
Theorem mutation_syncs_manifest (X : Externals) (n1 n2 n3 : DateTime)
    (upload_filename source : string) (payload : list byte)
    (display directory : string) (compress : bool) (e e' : CabEditor) :
  add_file X n1 n2 n3 upload_filename payload display directory e = (e', Ok tt)
  \/ remove_file X n1 source e = (e', Ok tt)
  \/ (no_archive e = false /\ (build_cab_bytes X n1 compress e).1 = e') ->
  manifest_in_sync X e'.
Proof.
  intros [H|[H|[Hn H]]].
  - unfold add_file in H.
    destruct (no_archive e) eqn:En; [by inversion H|].
    destruct (archive e) as [a|]; [|by inversion H].
    destruct payload as [|b payload]; [by inversion H|].
    destruct (decide (_ = EmptyString)); [by inversion H|].
    destruct (generate_source_name X n1 _ _) as [src|x]; [|by inversion H].
    cbn [xml_root with_archive] in H.
    destruct (xml_root e) as [root|] eqn:Ex.
    + destruct (resolve_target_parent root directory) as [tg|]; [|by inversion H].
      inversion H; subst e'; clear H.
      match goal with |- context [_rebuild_index X ?e0] =>
        destruct (rebuild_index_frame X e0) as (recs & dirs & ->) end.
      apply synced_in_sync.
    + inversion H; subst e'; clear H.
      unfold manifest_in_sync. rewrite rebuild_index_xml_root.
      cbn [xml_root with_archive]. by rewrite Ex.
  - unfold remove_file in H.
    destruct (no_archive e) eqn:En; [by inversion H|].
    destruct (archive e) as [a|]; [|by inversion H].
    set (e1 := if PyDict.mem source (files a) then _ else e) in H.
    assert (Hx1 : xml_root e1 = xml_root e) by (unfold e1; by destruct (PyDict.mem _ _)).
    destruct (xml_root e1) as [root|] eqn:Ex.
    + destruct (remove_xml_file_node X root source) as [root' removed].
      destruct removed; cbn [negb] in H; [|by inversion H].
      inversion H; subst e'; clear H.
      match goal with |- context [_rebuild_index X ?e0] =>
        destruct (rebuild_index_frame X e0) as (recs & dirs & ->) end.
      apply synced_in_sync.
    + inversion H; subst e'; clear H.
      unfold manifest_in_sync. by rewrite rebuild_index_xml_root, Ex.
  - subst e'. destruct (no_archive_false_inv e Hn) as (a & Ha & Hne).
    rewrite (build_cab_bytes_loaded X n1 compress e a Ha Hne).
    unfold manifest_in_sync.
    destruct (xml_root e) as [root|] eqn:Ex.
    + cbn [fst xml_root with_archive]. rewrite Ex. right.
      erewrite get_file_bytes_loaded; [|reflexivity|apply archive_set_nonempty].
      cbn [files archive_set]. by rewrite PyDict_get_set_eq.
    + cbn [fst]. by rewrite Ex.
Qed.

Lemma mutation_syncs_manifest_witness :
  manifest_in_sync ex_externals
    (add_file ex_externals ex_now ex_now ex_later "new.txt" [x6e] EmptyString
       EmptyString (loaded_with ex_externals ex_archive_manifest (Some ex_manifest))).1.
Proof.
  apply (mutation_syncs_manifest ex_externals ex_now ex_now ex_later "new.txt"
           EmptyString [x6e] EmptyString EmptyString false
           (loaded_with ex_externals ex_archive_manifest (Some ex_manifest))).
  left. vm_compute. reflexivity.
Defined.

(** X23. [update_file] does not read the manifest again: after a successful
    update of the [_setup.xml] entry itself the editor still holds the
    manifest it had, [get_file_bytes] returns the uploaded payload, and
    the next [build_cab_bytes] writes the serialization of the old
    manifest over it, so that the cabinet is saved without the upload. *)
Theorem update_manifest_entry_overwritten (X : Externals) (now : DateTime)
    (payload : list byte) (e e' : CabEditor) (root : Xml.Element) :
  xml_root e = Some root ->
  update_file X now "_setup.xml" payload e = (e', Ok tt) ->
  xml_root e' = Some root
  /\ get_file_bytes "_setup.xml" e' = Ok payload
  /\ forall now' compress,
       let r := build_cab_bytes X now' compress e' in
       get_file_bytes "_setup.xml" r.1 = Ok (tostring X root)
       /\ exists a', archive r.1 = Some a'
            /\ PyDict.get "_setup.xml" (files a')
               = Some (new_CabFile X (tostring X root) now')
            /\ r.2 = cab_save X a' compress true.
Proof.
  intros Ex H. unfold update_file in H.
  destruct (no_archive e) eqn:En; [by inversion H|].
  destruct (archive e) as [a|] eqn:Ea; [|by inversion H].
  destruct (negb (PyDict.mem "_setup.xml" (files a))); [by inversion H|].
  destruct payload as [|b payload]; [by inversion H|].
  inversion H; subst e'; clear H.
  set (a1 := archive_set a "_setup.xml" (new_CabFile X (b :: payload) now)).
  set (e1 := with_archive e (Some a1)).
  assert (Hx : xml_root (_rebuild_index X e1) = Some root)
    by (by rewrite rebuild_index_xml_root).
  destruct (rebuild_index_frame X e1) as (recs & dirs & Hr).
  assert (Ha1 : archive (_rebuild_index X e1) = Some a1) by (by rewrite Hr).
  assert (Hne : files a1 <> []) by apply archive_set_nonempty.
  split; [done|]. split.
  { rewrite (get_file_bytes_loaded _ a1 _ Ha1 Hne).
    unfold a1; cbn [files archive_set]. by rewrite PyDict_get_set_eq. }
  intros now' compress r. unfold r.
  rewrite (build_cab_bytes_loaded X now' compress _ a1 Ha1 Hne), Hx.
  cbn [fst snd]. split.
  - erewrite get_file_bytes_loaded; [|reflexivity|apply archive_set_nonempty].
    cbn [files archive_set]. by rewrite PyDict_get_set_eq.
  - eexists. split; [reflexivity|]. split; [|reflexivity].
    cbn [files archive_set]. by rewrite PyDict_get_set_eq.
Qed.

Lemma update_manifest_entry_overwritten_witness :
  let e := loaded_with ex_externals ex_archive_manifest (Some ex_manifest) in
  let e' := (update_file ex_externals ex_now "_setup.xml" [x3c; x61; x2f; x3e] e).1 in
  xml_root e' = Some ex_manifest
  /\ get_file_bytes "_setup.xml" e' = Ok [x3c; x61; x2f; x3e]
  /\ forall now' compress,
       let r := build_cab_bytes ex_externals now' compress e' in
       get_file_bytes "_setup.xml" r.1 = Ok (tostring ex_externals ex_manifest)
       /\ exists a', archive r.1 = Some a'
            /\ PyDict.get "_setup.xml" (files a')
               = Some (new_CabFile ex_externals (tostring ex_externals ex_manifest) now')
            /\ r.2 = cab_save ex_externals a' compress true.
Proof.
  apply (update_manifest_entry_overwritten ex_externals ex_now [x3c; x61; x2f; x3e]
           (loaded_with ex_externals ex_archive_manifest (Some ex_manifest)) _
           ex_manifest).
  - reflexivity.
  - vm_compute. reflexivity.
Defined.

(** ** What holds in every state of the editor *)

(** The states an editor can be in: the new editor, and the state every
    method leaves, whether it returns or raises. *)
Inductive reachable (X : Externals) : CabEditor -> Prop :=
  | reach_new : reachable X new_editor
  | reach_load p display e :
      reachable X e -> reachable X (load X p display e).1
  | reach_update_file now source payload e :
      reachable X e -> reachable X (update_file X now source payload e).1
  | reach_remove_file now source e :
      reachable X e -> reachable X (remove_file X now source e).1
  | reach_add_file n1 n2 n3 upload_filename payload display directory e :
      reachable X e ->
      reachable X (add_file X n1 n2 n3 upload_filename payload display directory e).1
  | reach_build_cab_bytes now compress e :
      reachable X e -> reachable X (build_cab_bytes X now compress e).1.

Definition editor_inv (e : CabEditor) : Prop :=
  loaded_name e <> EmptyString
  /\ (xml_root e <> None -> archive e <> None)
  /\ setup_encoding e ∈ ["utf-8"; "utf-16"; "utf-16le"; "latin-1"]
  /\ directories e = directories_of (records e).

Lemma try_encodings_elem (X : Externals) (raw : list byte) (encodings : list string)
    (root : Xml.Element) (enc : string) :
  try_encodings X encodings raw = Some (root, enc) -> enc ∈ encodings.
Proof.
  induction encodings as [|c l IH]; [done|]. cbn [try_encodings].
  destruct (decode_fromstring X c raw).
  - intros [= _ <-]. apply list_elem_of_here.
  - intros H. apply list_elem_of_further. by apply IH.
Qed.

Lemma directories_of_plain (X : Externals) (l : list (string * CabFile)) :
  directories_of (map (plain_record X) l) = [].
Proof.
  unfold directories_of.
  assert (H : filter (fun p => bool_decide (p <> EmptyString) && starts_with_backslash p)
                (map parent_type (map (plain_record X) l)) = []).
  { induction l as [|x l IH]; [done|]. cbn [map plain_record parent_type].
    rewrite filter_cons_False; [exact IH|]. cbn. tauto. }
  rewrite H. reflexivity.
Qed.

Lemma rebuild_index_inv (X : Externals) (e : CabEditor) :
  directories (_rebuild_index X e) = directories_of (records (_rebuild_index X e)).
Proof.
  unfold _rebuild_index.
  destruct (no_archive (with_index e [] [])); [reflexivity|].
  change (archive (with_index e [] [])) with (archive e).
  change (xml_root (with_index e [] [])) with (xml_root e).
  destruct (archive e) as [a|]; [|reflexivity].
  destruct (xml_root e) as [root|]; cbn [directories records with_index]; [done|].
  symmetry. apply directories_of_plain.
Qed.

(** [_rebuild_index], applied to a state that satisfies the first three
    parts of the invariant, gives a state that satisfies it. *)
Lemma editor_inv_rebuild (X : Externals) (e : CabEditor) :
  loaded_name e <> EmptyString ->
  (xml_root e <> None -> archive e <> None) ->
  setup_encoding e ∈ ["utf-8"; "utf-16"; "utf-16le"; "latin-1"] ->
  editor_inv (_rebuild_index X e).
Proof.
  intros H1 H2 H3. split; [|split; [|split]]; [| | |apply rebuild_index_inv].
  all: destruct (rebuild_index_frame X e) as (recs & dirs & ->); done.
Qed.

Lemma editor_inv_sync (X : Externals) (now : DateTime) (e : CabEditor) :
  editor_inv e -> editor_inv (_sync_setup_xml X now e).
Proof.
  intros Hinv. unfold _sync_setup_xml.
  destruct (no_archive e); [done|].
  destruct (archive e) as [a|]; [|done].
  destruct (xml_root e) as [root|] eqn:Ex; [|done].
  destruct Hinv as (H1 & H2 & H3 & H4).
  split; [done|]. split; [done|]. split; [done|]. done.
Qed.

(** X29. In every state the editor can reach, whatever its methods
    returned or raised: the loaded name is not empty, a manifest is held
    only together with an archive, the manifest's encoding is one of the
    four that [_load_setup_xml] tries, and the directories are those of the
    records. *)
Theorem reachable_editor_inv (X : Externals) (e : CabEditor) :
  reachable X e -> editor_inv e.
Proof.
  induction 1 as [|p display e _ IH|now source payload e _ IH|now source e _ IH
                  |n1 n2 n3 upload_filename payload display directory e _ IH
                  |now compress e _ IH].
  - split; [done|]. split; [done|]. split; [apply list_elem_of_here|reflexivity].
  - destruct IH as (H1 & H2 & H3 & H4). unfold load.
    set (nm := str_or _ "cabinetforge_output").
    assert (Hnm : nm <> EmptyString).
    { unfold nm, str_or. by destruct (decide (_ = EmptyString)). }
    destruct (read_bytes X p) as [data|x]; [|by repeat split].
    destruct (cab_parse X data) as [a|x]; [|by repeat split].
    cbn [path loaded_name archive xml_root setup_encoding records directories
         signature_before].
    unfold with_archive.
    cbn [path loaded_name archive xml_root setup_encoding records directories
         signature_before].
    match goal with |- context [_rebuild_index X (_load_setup_xml X ?e0)] =>
      set (t0 := e0) end.
    destruct (load_setup_xml_frame X t0) as (root & enc & Hl & _).
    assert (Hinv : editor_inv (_rebuild_index X (_load_setup_xml X t0))).
    { apply editor_inv_rebuild.
      - by rewrite Hl.
      - by rewrite Hl.
      - unfold _load_setup_xml.
        cbn [path loaded_name archive xml_root setup_encoding records directories
             signature_before].
        destruct (no_archive _); [apply list_elem_of_here|].
        unfold t0; cbn [archive].
        destruct (PyDict.get "_setup.xml" (files a)) as [f|]; [|apply list_elem_of_here].
        destruct (try_encodings X _ (buf_or_empty f)) as [[r c]|] eqn:Et;
          [|apply list_elem_of_here].
        cbn [setup_encoding]. by apply try_encodings_elem in Et. }
    destruct (get_signature_status X p) as [s|x]; [|exact Hinv].
    exact Hinv.
  - pose proof IH as (H1 & H2 & H3 & H4). unfold update_file.
    destruct (no_archive e); [done|].
    destruct (archive e) as [a|]; [|done].
    destruct (negb (PyDict.mem source (files a))); [done|].
    destruct payload as [|b payload]; [done|].
    cbn [fst]. by apply editor_inv_rebuild.
  - pose proof IH as (H1 & H2 & H3 & H4). unfold remove_file. cbv zeta.
    destruct (no_archive e); [done|].
    destruct (archive e) as [a|] eqn:Ea; [|done].
    set (e1 := if PyDict.mem source (files a) then _ else e).
    assert (He1 : editor_inv e1).
    { unfold e1. destruct (PyDict.mem source (files a)); [|done]. by repeat split. }
    destruct He1 as (G1 & G2 & G3 & G4).
    destruct (xml_root e1) as [root|] eqn:Ex.
    + destruct (remove_xml_file_node X root source) as [root' removed].
      assert (Ha1 : archive e1 <> None) by (by apply G2).
      destruct removed; cbn [negb fst]; [|by repeat split].
      apply editor_inv_rebuild.
      all: unfold _sync_setup_xml, _update_numfiles;
        cbn [xml_root with_xml_root]; destruct (no_archive _); [done|];
        cbn [archive with_xml_root xml_root]; by destruct (archive e1).
    + cbn [fst]. apply editor_inv_rebuild; [done| |done]. by rewrite Ex.
  - pose proof IH as (H1 & H2 & H3 & H4). unfold add_file. cbv zeta.
    destruct (no_archive e); [done|].
    destruct (archive e) as [a|] eqn:Ea; [|done].
    destruct payload as [|b payload]; [done|].
    destruct (decide (_ = EmptyString)); [done|].
    destruct (generate_source_name X n1 _ _) as [src|x]; [|done].
    cbn [xml_root with_archive].
    destruct (xml_root e) as [root|] eqn:Ex.
    + destruct (resolve_target_parent root directory) as [tg|]; [|by repeat split].
      cbn [fst]. apply editor_inv_rebuild.
      all: unfold _sync_setup_xml, _update_numfiles;
        cbn [xml_root with_xml_root with_archive]; by destruct (no_archive _).
    + cbn [fst]. apply editor_inv_rebuild; [done| |done].
      cbn [xml_root with_archive]. by rewrite Ex.
  - unfold build_cab_bytes. cbv zeta. destruct (no_archive e); [done|].
    assert (Hs : editor_inv
              (match xml_root e with Some _ => _sync_setup_xml X now e | None => e end)).
    { destruct (xml_root e); [by apply editor_inv_sync|done]. }
    by destruct (archive _).
Qed.

Lemma reachable_editor_inv_witness :
  editor_inv
    (remove_file ex_externals ex_now "missing"
       (load ex_externals "ex.cab" None new_editor).1).1.
Proof.
  apply (reachable_editor_inv ex_externals).
  apply reach_remove_file, reach_load, reach_new.
Defined.

(** * Further properties of the writer *)

(** ** The names that are written ([_order_names]) *)

Lemma keep_first_Permutation (l : list string) :
  forall seen : gset string,
    keep_first seen l ≡ₚ elements (list_to_set l ∖ seen : gset string).
Proof.
  induction l as [|x l IH]; intros seen; simpl.
  - replace ((∅ : gset string) ∖ seen) with (∅ : gset string) by set_solver.
    by rewrite elements_empty.
  - destruct (decide (x ∈ seen)) as [Hin|Hnin].
    + rewrite IH. apply elements_proper. set_solver.
    + rewrite IH.
      replace (({[x]} ∪ list_to_set l) ∖ seen)
        with ({[x]} ∪ (list_to_set l ∖ ({[x]} ∪ seen)) : gset string).
      * rewrite elements_disj_union by set_solver. by rewrite elements_singleton.
      * apply set_eq. intros y. rewrite !elem_of_union, !elem_of_difference,
          !elem_of_union, !elem_of_singleton.
        destruct (decide (y = x)) as [-> |]; naive_solver.
Qed.

Lemma order_names_elements (set_iteration : gset string -> list string)
    (a : CabArchive) (template : option CabLayoutTemplate) (sort : bool) :
  (forall s, set_iteration s ≡ₚ elements s) ->
  _order_names set_iteration a template sort
    ≡ₚ elements (list_to_set (archive_keys a) : gset string).
Proof.
  intros Hperm.
  rewrite order_names_unfold. unfold template_part, remaining_names.
  set (present := list_to_set (archive_keys a) : gset string).
  set (order := match template with Some t => file_order t | None => [] end).
  rewrite keep_first_Permutation.
  assert (He : (if sort then sorted (set_iteration (present ∖ list_to_set order))
                else set_iteration (present ∖ list_to_set order))
               ≡ₚ elements (present ∖ list_to_set order)).
  { destruct sort; [unfold sorted; rewrite merge_sort_Permutation|]; apply Hperm. }
  rewrite He. rewrite <- elements_disj_union.
  - apply elements_proper. intros y.
    rewrite elem_of_union, !elem_of_difference, elem_of_list_to_set,
      list_elem_of_filter, elem_of_list_to_set.
    destruct (decide (y ∈ order)); set_solver.
  - intros y. rewrite !elem_of_difference, elem_of_list_to_set, list_elem_of_filter,
      elem_of_list_to_set. tauto.
Qed.

(** X14. Whatever the template lists, [_order_names] returns every key of
    the archive exactly once and nothing else: a name of the template that
    is not in the archive is never written, and a name the template lists
    twice is written once. *)
Theorem order_names_permutation (set_iteration : gset string -> list string)
    (a : CabArchive) (template : option CabLayoutTemplate) (sort : bool) :
  (forall s, set_iteration s ≡ₚ elements s) ->
  _order_names set_iteration a template sort
    ≡ₚ elements (list_to_set (archive_keys a) : gset string)
  /\ NoDup (_order_names set_iteration a template sort)
  /\ (NoDup (archive_keys a) ->
      _order_names set_iteration a template sort ≡ₚ archive_keys a).
Proof.
  intros Hperm.
  pose proof (order_names_elements set_iteration a template sort Hperm) as H.
  split; [done|]. split.
  - rewrite H. apply NoDup_elements.
  - intros Hnd. rewrite H. by apply elements_list_to_set.
Qed.

Lemma order_names_permutation_witness :
  _order_names elements ex_archive_abc (Some ex_template_b) true
    ≡ₚ elements (list_to_set (archive_keys ex_archive_abc) : gset string)
  /\ NoDup (_order_names elements ex_archive_abc (Some ex_template_b) true)
  /\ (NoDup (archive_keys ex_archive_abc) ->
      _order_names elements ex_archive_abc (Some ex_template_b) true
        ≡ₚ archive_keys ex_archive_abc).
Proof.
  apply (order_names_permutation elements ex_archive_abc (Some ex_template_b) true).
  reflexivity.
Defined.

(** ** Errors of [build_ce_cab_bytes] *)

Lemma join_payloads_error (a : CabArchive) (ns : list string) (x : exn) :
  join_payloads a ns = Raise x -> x = KeyError.
Proof.
  induction ns as [|n ns IH]; simpl; [done|]. unfold archive_item.
  destruct (PyDict.get n (files a)); simpl; [|by intros [= <-]].
  destruct (join_payloads a ns); simpl; [done|]. intros [= <-]. by apply IH.
Qed.

Section WriterErrors.

Variable set_iteration : gset string -> list string.
Variable deflate : list byte -> list byte.
Variable checksum : list byte -> Z -> Z.

Lemma build_folders_loop_error (a : CabArchive) (t : CabLayoutTemplate)
    (compress : bool) (keyed : list (Z * list string)) (x : exn) :
  build_folders_loop deflate a t compress keyed = Raise x -> x = KeyError.
Proof.
  induction keyed as [|[k ns] keyed IH]; simpl; [done|]. unfold build_folder.
  destruct (join_payloads a ns) eqn:Ej; simpl.
  - destruct (build_folders_loop deflate a t compress keyed); simpl; [done|].
    intros [= <-]. by apply IH.
  - intros [= <-]. by eapply join_payloads_error.
Qed.

Lemma build_folders_loop_length (a : CabArchive) (t : CabLayoutTemplate)
    (compress : bool) (keyed : list (Z * list string)) (fbs : list _FolderBuild) :
  build_folders_loop deflate a t compress keyed = Ok fbs -> length fbs = length keyed.
Proof.
  intros H. apply build_folders_loop_inv in H. by apply Forall2_length in H.
Qed.

Lemma keyed_append_nonempty (k : Z) (n : string) (keyed : list (Z * list string)) :
  keyed_append k n keyed <> [].
Proof. unfold keyed_append. destruct (PyDict.get k keyed); apply PyDict_set_nonempty. Qed.

Lemma assign_keys_nonempty (ns : list string) (ff : gmap string Z) :
  forall next keyed, (ns <> [] \/ keyed <> []) -> assign_keys ns ff next keyed <> [].
Proof.
  induction ns as [|n ns IH]; intros next keyed H; simpl.
  - by destruct H.
  - destruct (ff !! n); apply IH; right; apply keyed_append_nonempty.
Qed.

Lemma offsets_in_folder_error (a : CabArchive) (ns : list string) :
  forall off offs x, offsets_in_folder a ns off offs = Raise x -> x = KeyError.
Proof.
  induction ns as [|n ns IH]; intros off offs x; simpl; [done|]. unfold archive_item.
  destruct (PyDict.get n (files a)); simpl; [|by intros [= <-]]. apply IH.
Qed.

Lemma offsets_loop_error (a : CabArchive) (fbs : list _FolderBuild) :
  forall offs x, offsets_loop a fbs offs = Raise x -> x = KeyError.
Proof.
  induction fbs as [|fb fbs IH]; intros offs x; simpl; [done|].
  destruct (offsets_in_folder a (names fb) 0 offs) eqn:E; simpl; [apply IH|].
  intros [= <-]. by eapply offsets_in_folder_error.
Qed.

Lemma rpack_error (f : Struct.fmt) (vs : list Struct.value) (x : exn) :
  rpack f vs = Raise x -> x = StructError.
Proof. unfold rpack. destruct (Struct.pack f vs); [done|]. by intros [= <-]. Qed.

Lemma build_cffile_blob_error (a : CabArchive) (ns : list string)
    (offs idxs : gmap string Z) (x : exn) :
  _build_cffile_blob a ns offs idxs = Raise x -> x = KeyError \/ x = StructError.
Proof.
  induction ns as [|n ns IH]; simpl; [done|]. unfold archive_item, dict_item.
  destruct (PyDict.get n (files a)); simpl; [|intros [= <-]; by left].
  destruct (offs !! n); simpl; [|intros [= <-]; by left].
  destruct (idxs !! n); simpl; [|intros [= <-]; by left].
  destruct (rpack FMT_CFFILE _) eqn:Ep; simpl.
  - destruct (_build_cffile_blob a ns offs idxs); simpl; [done|].
    intros [= <-]. by apply IH.
  - intros [= <-]. right. by eapply rpack_error.
Qed.

Lemma data_blocks_loop_error (blks : list (list byte * nat)) (cb : nat) (x : exn) :
  data_blocks_loop checksum blks cb = Raise x -> x = StructError.
Proof.
  induction blks as [|[enc ps] blks IH]; simpl; [done|].
  destruct (rpack [Struct.UInt 2; Struct.UInt 2] _) eqn:E1; simpl;
    [|intros [= <-]; by eapply rpack_error].
  destruct (rpack FMT_CFDATA _) eqn:E2; simpl; [|intros [= <-]; by eapply rpack_error].
  destruct (data_blocks_loop checksum blks cb) as [[tail bb]|]; simpl; [done|].
  intros [= <-]. by apply IH.
Qed.

Lemma folder_and_data_loop_error (fbs : list _FolderBuild) (cbf cbd : nat)
    (compress : bool) :
  forall cursor x,
    folder_and_data_loop checksum fbs cursor cbf cbd compress = Raise x ->
    x = StructError.
Proof.
  induction fbs as [|fb fbs IH]; intros cursor x; simpl; [done|].
  destruct (data_blocks_loop checksum (blocks fb) cbd) as [[d bb]|] eqn:E1; simpl;
    [|intros [= <-]; by eapply data_blocks_loop_error].
  destruct (rpack FMT_CFFOLDER _) eqn:E2; simpl; [|intros [= <-]; by eapply rpack_error].
  destruct (folder_and_data_loop checksum fbs (cursor + bb) cbf cbd compress)
    as [[ft dt]|] eqn:E3; simpl; [done|].
  intros [= <-]. by eapply IH.
Qed.

(** X15. [build_ce_cab_bytes] raises [ValueError] ("CAB cannot be empty")
    exactly when the archive has no entry, whatever the template; its second
    check, on the number of folders, never fires, since every name is put
    into a folder. Every other failure is a [KeyError] or a
    [struct.error]. *)
Theorem build_empty_archive (a : CabArchive) (compress : bool)
    (template : option CabLayoutTemplate) (sort : bool) :
  (forall s, set_iteration s ≡ₚ elements s) ->
  (build_ce_cab_bytes set_iteration deflate checksum a compress template sort
   = Raise ValueError <-> files a = [])
  /\ forall x,
       build_ce_cab_bytes set_iteration deflate checksum a compress template sort
       = Raise x ->
       x = ValueError \/ x = KeyError \/ x = StructError.
Proof.
  intros Hperm.
  pose proof (order_names_elements set_iteration a template sort Hperm) as Hp.
  assert (Hempty : _order_names set_iteration a template sort = [] <-> files a = []).
  { split.
    - intros E. rewrite E in Hp. apply Permutation_nil in Hp.
      apply elements_empty_inv in Hp.
      destruct (files a) as [|[k f] l] eqn:Ef; [done|]. exfalso.
      assert (Hk : k ∈ (list_to_set (archive_keys a) : gset string)).
      { apply elem_of_list_to_set. unfold archive_keys, PyDict.keys. rewrite Ef. left. }
      rewrite Hp in Hk. by apply not_elem_of_empty in Hk.
    - intros E. apply Permutation_nil. rewrite Hp.
      unfold archive_keys, PyDict.keys. rewrite E. simpl. by rewrite elements_empty. }
  assert (Herr : forall x,
    build_ce_cab_bytes set_iteration deflate checksum a compress template sort = Raise x ->
    (x = ValueError /\ _order_names set_iteration a template sort = [])
    \/ x = KeyError \/ x = StructError).
  { intros x. unfold build_ce_cab_bytes.
    destruct (_order_names set_iteration a template sort) as [|n ns] eqn:Eo.
    { intros [= <-]. by left. }
    intros H. right.
    set (t := match template with Some t => t | None => default_template a end) in H.
    destruct (_build_folders deflate a (n :: ns) t compress) as [fbs|x'] eqn:Efb;
      cbn [rbind] in H.
    2:{ inversion H; subst x'. left. unfold _build_folders in Efb.
        by eapply build_folders_loop_error. }
    destruct (length fbs) as [|k] eqn:Ek.
    { exfalso. unfold _build_folders in Efb.
      apply build_folders_loop_length in Efb. rewrite Ek in Efb. symmetry in Efb.
      apply nil_length_inv in Efb. revert Efb. apply assign_keys_nonempty. by left. }
    destruct (_build_uncompressed_offsets a fbs) as [offs|x'] eqn:Eoff; cbn [rbind] in H.
    2:{ inversion H; subst x'. left. by eapply offsets_loop_error. }
    destruct (_build_cffile_blob a (n :: ns) offs _) as [cffile|x'] eqn:Ecf;
      cbn [rbind] in H.
    2:{ inversion H; subst x'. by eapply build_cffile_blob_error. }
    destruct (_build_folder_and_data_blobs checksum fbs _ _ _ compress)
      as [[cffolder cfdata]|x'] eqn:Ebl; cbn [rbind] in H.
    2:{ inversion H; subst x'. right. by eapply folder_and_data_loop_error. }
    destruct (rpack FMT_CFHEADER _) as [header|x'] eqn:Eh; cbn [rbind] in H.
    2:{ inversion H; subst x'. right. by eapply rpack_error. }
    destruct (use_reserve_of t); [|done].
    destruct (rpack FMT_CFHEADER_RESERVE _) as [descr|x'] eqn:Ed; cbn [rbind] in H; [done|].
    inversion H; subst x'. right. by eapply rpack_error. }
  split.
  - split.
    + intros H. destruct (Herr _ H) as [[_ Ho]|[?|?]]; [by apply Hempty|done|done].
    + intros Hf. apply Hempty in Hf. unfold build_ce_cab_bytes. by rewrite Hf.
  - intros x H. destruct (Herr x H) as [[? _]|[?|?]]; tauto.
Qed.

End WriterErrors.

Lemma build_empty_archive_witness :
  (build_ce_cab_bytes elements stored_deflate xor_checksum (mkCabArchive [] 7) true
     (Some ex_layout) true = Raise ValueError <-> files (mkCabArchive [] 7) = [])
  /\ forall x,
       build_ce_cab_bytes elements stored_deflate xor_checksum (mkCabArchive [] 7) true
         (Some ex_layout) true = Raise x ->
       x = ValueError \/ x = KeyError \/ x = StructError.
Proof.
  apply (build_empty_archive elements stored_deflate xor_checksum (mkCabArchive [] 7)
           true (Some ex_layout) true).
  reflexivity.
Defined.

(** ** Folders of names the template does not know ([_build_folders]) *)

Lemma PyDict_set_elem_of {K V : Type} `{EqDecision K} (k k' : K) (v v' : V)
    (d : list (K * V)) :
  (k', v') ∈ PyDict.set k v d -> (k', v') = (k, v) \/ (k', v') ∈ d.
Proof.
  induction d as [|[k0 v0] d IH]; simpl.
  - intros ->%list_elem_of_singleton. by left.
  - destruct (decide (k = k0)) as [-> |Hne].
    + intros [->|Hin]%elem_of_cons; [by left|]. right. by right.
    + intros [->|Hin]%elem_of_cons; [right; left|].
      destruct (IH Hin) as [?|?]; [by left|]. right. by right.
Qed.

Lemma foldl_max_le (v : Z) (vs : list Z) :
  v <= foldl Z.max v vs /\ forall x, x ∈ vs -> x <= foldl Z.max v vs.
Proof.
  revert v. induction vs as [|y vs IH]; intros v; simpl.
  - split; [lia|]. by intros x ?%elem_of_nil.
  - destruct (IH (Z.max v y)) as [H1 H2]. split; [lia|].
    intros x [->|Hin]%elem_of_cons; [lia|]. by apply H2.
Qed.

Lemma max_values_ge (d : gmap string Z) (n : string) (k : Z) :
  d !! n = Some k -> k <= max_values d.
Proof.
  intros H. unfold max_values.
  assert (Hin : k ∈ (map_to_list d).*2).
  { apply list_elem_of_fmap. exists (n, k). split; [done|]. by apply elem_of_map_to_list. }
  destruct ((map_to_list d).*2) as [|v vs]; [by apply elem_of_nil in Hin|].
  destruct (foldl_max_le v vs) as [H1 H2].
  apply elem_of_cons in Hin as [-> |Hin]; [done|]. by apply H2.
Qed.

(** An entry of [keyed]: the names of a key the template knows, or a single
    name the template does not know under a key of its own. *)
Definition keyed_entry_ok (ff : gmap string Z) (next : Z) (entry : Z * list string)
    : Prop :=
  entry.1 < next
  /\ ((entry.1 <= max_values ff /\ forall n, n ∈ entry.2 -> ff !! n = Some entry.1)
      \/ (max_values ff < entry.1 /\ exists n, entry.2 = [n] /\ ff !! n = None)).

Lemma assign_keys_entries (ff : gmap string Z) (ns : list string) :
  forall next keyed,
    max_values ff < next ->
    Forall (keyed_entry_ok ff next) keyed ->
    exists next',
      Forall (keyed_entry_ok ff next') (assign_keys ns ff next keyed).
Proof.
  induction ns as [|n ns IH]; intros next keyed Hnext Hk; simpl; [by exists next|].
  destruct (ff !! n) as [k|] eqn:En.
  - apply IH; [done|]. pose proof (max_values_ge ff n k En) as Hle.
    unfold keyed_append. destruct (PyDict.get k keyed) as [l|] eqn:Eg.
    + apply Forall_forall. intros [k' l'] Hin.
      apply PyDict_set_elem_of in Hin as [[= -> ->]|Hin].
      * apply PyDict_get_elem_of in Eg. rewrite Forall_forall in Hk.
        destruct (Hk _ Eg) as [Hlt [[_ Hall]|[Hgt _]]]; simpl in *; [|lia].
        split; [done|]. left. split; [done|]. simpl.
        intros m [Hm| ->%list_elem_of_singleton]%elem_of_app; [by apply Hall|done].
      * rewrite Forall_forall in Hk. by apply Hk.
    + apply Forall_forall. intros [k' l'] Hin.
      apply PyDict_set_elem_of in Hin as [[= -> ->]|Hin].
      * split; [simpl; lia|]. left. split; [done|]. simpl.
        by intros m ->%list_elem_of_singleton.
      * rewrite Forall_forall in Hk. by apply Hk.
  - apply IH; [lia|].
    assert (Eg : PyDict.get next keyed = None).
    { destruct (PyDict.get next keyed) as [l|] eqn:Eg; [|done]. exfalso.
      apply PyDict_get_elem_of in Eg. rewrite Forall_forall in Hk.
      destruct (Hk _ Eg) as [Hlt _]. simpl in Hlt. lia. }
    unfold keyed_append. rewrite Eg.
    apply Forall_forall. intros [k' l'] Hin.
    apply PyDict_set_elem_of in Hin as [[= -> ->]|Hin].
    + split; [simpl; lia|]. right. split; [done|]. by exists n.
    + rewrite Forall_forall in Hk. destruct (Hk _ Hin) as [Hlt Hcase].
      split; [lia|done].
Qed.

(** X16. How [_build_folders] groups the files: the files of a folder
    either all have that folder's key in the template, or the folder holds
    a single file that the template does not know, under a key above every
    key that the template gives to a file. So a file that was added to the
    archive never shares a folder with another file. The reserve of a
    folder is the one that the template holds at the folder's key, cut or
    padded to the template's size: an added file gets zeros, unless the
    loaded cabinet had a folder without files at that key, whose reserve it
    then gets. *)
Theorem build_folders_grouping (deflate : list byte -> list byte) (a : CabArchive)
    (ordered_names : list string) (t : CabLayoutTemplate) (compress : bool)
    (fbs : list _FolderBuild) (fb : _FolderBuild) :
  _build_folders deflate a ordered_names t compress = Ok fbs ->
  fb ∈ fbs ->
  ((forall n, n ∈ names fb -> file_folders t !! n = Some (folder_key fb))
   \/ (exists n, names fb = [n] /\ file_folders t !! n = None
                 /\ max_values (file_folders t) < folder_key fb))
  /\ reserve fb = folder_reserve t (folder_key fb)
  /\ (~ (0 <= folder_key fb < Z.of_nat (length (folder_reserves t))) ->
      reserve fb = replicate (cb_cffolder t) x00).
Proof.
  unfold _build_folders. intros H Hfb.
  apply build_folders_loop_inv in H.
  destruct (assign_keys_entries (file_folders t) ordered_names
              (max_values (file_folders t) + 1) []) as (next' & Hk); [lia|constructor|].
  apply list_elem_of_lookup in Hfb as (i & Hi).
  destruct (Forall2_lookup_r _ _ _ _ _ H Hi) as ([k l] & Hkl & raw & _ & ->).
  rewrite Forall_forall in Hk.
  destruct (Hk (k, l)) as [_ Hcase]; [apply list_elem_of_lookup; by exists i|].
  cbn [names folder_key reserve fst snd] in *. split; [|split; [done|]].
  - destruct Hcase as [[_ Hall]|[Hgt (n & -> & Hn)]]; [by left|].
    right. by exists n.
  - intros Hout. unfold folder_reserve.
    assert (Hb : (0 <=? k) && (k <? Z.of_nat (length (folder_reserves t))) = false).
    { apply andb_false_iff. destruct (Z.leb_spec 0 k); [|by left].
      right. apply Z.ltb_ge. lia. }
    rewrite Hb, length_replicate, Nat.ltb_irrefl.
    apply take_ge. by rewrite length_replicate.
Qed.

(** A template with two folders, of which only the first holds a file. *)
Definition ex_template_spare : CabLayoutTemplate :=
  mkTemplate 0 0 1 0 [] [[x11]; [x22]] ["a.txt"] {["a.txt" := 0]}.

Lemma build_folders_grouping_witness :
  let fb := mkFolderBuild 1 ["b.txt"] [x22] [([x62], 1%nat)] in
  ((forall n, n ∈ names fb -> file_folders ex_template_spare !! n = Some (folder_key fb))
   \/ (exists n, names fb = [n] /\ file_folders ex_template_spare !! n = None
                 /\ max_values (file_folders ex_template_spare) < folder_key fb))
  /\ reserve fb = folder_reserve ex_template_spare (folder_key fb)
  /\ (~ (0 <= folder_key fb < Z.of_nat (length (folder_reserves ex_template_spare))) ->
      reserve fb = replicate (cb_cffolder ex_template_spare) x00).
Proof.
  apply (build_folders_grouping stored_deflate ex_archive_ab ["a.txt"; "b.txt"]
           ex_template_spare false
           [mkFolderBuild 0 ["a.txt"] [x11] [([x61], 1%nat)];
            mkFolderBuild 1 ["b.txt"] [x22] [([x62], 1%nat)]]).
  - vm_compute. reflexivity.
  - right. left.
Defined.

(** ** The header and the tables of the output *)

(** The integers a [struct.pack] call writes, with the widths of their
    fields. *)
Fixpoint packed_ints (f : Struct.fmt) (vs : list Struct.value) : list (nat * Z) :=
  match f with
  | [] => []
  | Struct.Pad _ :: f' => packed_ints f' vs
  | Struct.Chars _ :: f' =>
      match vs with
      | _ :: vs' => packed_ints f' vs'
      | [] => []
      end
  | Struct.UInt w :: f' =>
      match vs with
      | Struct.VInt z :: vs' => (w, z) :: packed_ints f' vs'
      | _ => []
      end
  end.

Lemma pack_int_ranges (f : Struct.fmt) :
  forall vs bs,
    Struct.pack f vs = Some bs ->
    Forall (fun wz => 0 <= wz.2 < 256 ^ Z.of_nat wz.1) (packed_ints f vs).
Proof.
  induction f as [|x f IH]; intros vs bs H; simpl in *; [constructor|].
  destruct x as [n|n|w].
  - destruct (Struct.pack f vs) as [r|] eqn:E; [|done]. by eapply IH.
  - destruct vs as [|[b|z] vs']; try done.
    destruct (Struct.pack f vs') as [r|] eqn:E; [|done]. by eapply IH.
  - destruct vs as [|[b|z] vs']; try done.
    destruct (Struct.in_range w z) eqn:Hr; [|done].
    destruct (Struct.pack f vs') as [r|] eqn:E; [|done].
    constructor; [by apply Struct.in_range_spec|by eapply IH].
Qed.

Section OutputLayout.

Variable set_iteration : gset string -> list string.
Variable deflate : list byte -> list byte.
Variable checksum : list byte -> Z -> Z.

(** The folder table and the data area, folder by folder: the record of
    each folder holds the offset at which its data starts, counted from
    [cursor]. *)
Lemma folder_and_data_loop_layout (cbf cbd : nat) (compress : bool)
    (fbs : list _FolderBuild) :
  forall cursor folder_blob data,
    folder_and_data_loop checksum fbs cursor cbf cbd compress = Ok (folder_blob, data) ->
    exists entries datas,
      folder_blob = concat entries /\ data = concat datas
      /\ length entries = length fbs /\ length datas = length fbs
      /\ forall i fb,
           fbs !! i = Some fb ->
           exists rec d,
             Struct.pack FMT_CFFOLDER
               [Struct.VInt (Z.of_nat (cursor + length (concat (take i datas))));
                Struct.VInt (Z.of_nat (length (blocks fb)));
                Struct.VInt (if compress then 1 else 0)] = Some rec
             /\ entries !! i = Some (rec ++ (if decide (cbf = 0%nat) then [] else reserve fb))
             /\ datas !! i = Some d
             /\ data_blocks_loop checksum (blocks fb) cbd = Ok (d, length d).
Proof.
  induction fbs as [|fb0 fbs IH]; intros cursor folder_blob data H; simpl in H.
  - inversion H. exists [], []. repeat split; try done.
  - rbind_inv H. destruct a as [d0 block_bytes]. rbind_inv H. rename a into rec0.
    rbind_inv H. destruct a as [folder_tail data_tail]. inversion H; subst.
    destruct (data_blocks_loop_inv _ _ _ _ _ Ha) as (-> & _).
    destruct (IH _ _ _ Ha1) as (entries & datas & -> & -> & Hle & Hld & Hall).
    exists ((rec0 ++ (if decide (cbf = 0%nat) then [] else reserve fb0)) :: entries),
           (d0 :: datas).
    split; [simpl; by rewrite <- app_assoc|]. split; [done|].
    split; [simpl; lia|]. split; [simpl; lia|].
    intros [|i] fb Hfb; simpl in Hfb.
    + inversion Hfb; subst fb. exists rec0, d0. simpl. rewrite Nat.add_0_r.
      apply rpack_Ok in Ha0. by repeat split.
    + destruct (Hall i fb Hfb) as (rec & d & Hp & He & Hd & Hb).
      exists rec, d. simpl. rewrite length_app.
      replace (cursor + (length d0 + length (concat (take i datas))))%nat
        with (cursor + length d0 + length (concat (take i datas)))%nat by lia.
      by repeat split.
Qed.

(** The writer's output, cut into its parts. *)
Lemma build_ce_cab_bytes_parts (a : CabArchive) (compress : bool)
    (template : option CabLayoutTemplate) (sort : bool) (out : list byte) :
  build_ce_cab_bytes set_iteration deflate checksum a compress template sort = Ok out ->
  let ordered := _order_names set_iteration a template sort in
  let t := effective_template a template in
  exists fbs offsets header front entries cffile datas,
    _build_folders deflate a ordered t compress = Ok fbs
    /\ _build_uncompressed_offsets a fbs = Ok offsets
    /\ _build_cffile_blob a ordered offsets (folder_index_loop 0 fbs ∅) = Ok cffile
    /\ fbs <> []
    /\ out = (header ++ front) ++ concat entries ++ cffile ++ concat datas
    /\ length (header ++ front) = header_size_of t
    /\ length (concat entries)
       = (length fbs * (Struct.calcsize FMT_CFFOLDER + cb_cffolder t))%nat
    /\ Struct.pack FMT_CFHEADER
         [Struct.VBytes MSCF; Struct.VInt (Z.of_nat (length out));
          Struct.VInt (Z.of_nat (header_size_of t
             + length fbs * (Struct.calcsize FMT_CFFOLDER + cb_cffolder t)));
          Struct.VInt 3; Struct.VInt 1;
          Struct.VInt (Z.of_nat (length fbs));
          Struct.VInt (Z.of_nat (length ordered));
          Struct.VInt (if use_reserve_of t then 4 else 0);
          Struct.VInt (set_id t); Struct.VInt 0] = Some header
    /\ length entries = length fbs /\ length datas = length fbs
    /\ forall i fb,
         fbs !! i = Some fb ->
         exists rec d,
           Struct.pack FMT_CFFOLDER
             [Struct.VInt (Z.of_nat (length ((header ++ front) ++ concat entries ++ cffile)
                                     + length (concat (take i datas))));
              Struct.VInt (Z.of_nat (length (blocks fb)));
              Struct.VInt (if compress then 1 else 0)] = Some rec
           /\ entries !! i
              = Some (rec ++ (if decide (cb_cffolder t = 0%nat) then [] else reserve fb))
           /\ datas !! i = Some d
           /\ data_blocks_loop checksum (blocks fb) (cb_cfdata t) = Ok (d, length d).
Proof.
  intros H ordered t.
  destruct (build_ce_cab_bytes_inv _ _ _ _ _ _ _ _ H)
    as (fbs & offsets & cffile & cffolder & cfdata & header
        & Hne & Hfb & Hfbs & Hoff & Hfile & Hblobs & Hhdr & Hout).
  fold ordered in Hne, Hfb, Hfile, Hhdr. fold t in Hfb, Hblobs, Hhdr, Hout.
  unfold _build_folder_and_data_blobs in Hblobs.
  destruct (folder_and_data_loop_layout _ _ _ _ _ _ _ Hblobs)
    as (entries & datas & -> & -> & Hle & Hld & Hall).
  pose proof (Struct.length_pack _ _ _ Hhdr) as Hhlen.
  (* the size of the folder table *)
  assert (Hres : Forall (fun fb => length (reserve fb) = cb_cffolder t) fbs).
  { pose proof Hfb as Hloop. unfold _build_folders in Hloop.
    apply build_folders_loop_inv in Hloop.
    apply Forall_forall. intros fb Hin. apply list_elem_of_lookup in Hin as (i & Hi).
    destruct (Forall2_lookup_r _ _ _ _ _ Hloop Hi) as ([k l] & _ & raw & _ & ->).
    simpl. apply length_folder_reserve. }
  assert (Helen : length (concat entries)
                  = (length fbs * (Struct.calcsize FMT_CFFOLDER + cb_cffolder t))%nat).
  { assert (Hall' : forall i fb, fbs !! i = Some fb ->
                      exists e, entries !! i = Some e
                        /\ length e = (Struct.calcsize FMT_CFFOLDER + cb_cffolder t)%nat).
    { intros i fb Hi. destruct (Hall i fb Hi) as (rec & d & Hp & He & _).
      eexists. split; [exact He|]. rewrite length_app.
      rewrite (Struct.length_pack _ _ _ Hp). f_equal.
      rewrite Forall_forall in Hres.
      destruct (decide (cb_cffolder t = 0%nat)) as [-> |]; [done|].
      apply Hres. apply list_elem_of_lookup. by exists i. }
    clear -Hle Hall'. revert entries Hle Hall'.
    induction fbs as [|fb fbs IH]; intros entries Hle Hall'.
    - destruct entries; [done|simpl in Hle; lia].
    - destruct entries as [|e entries]; [simpl in Hle; lia|].
      cbn [concat]. rewrite length_app.
      destruct (Hall' 0%nat fb eq_refl) as (e' & [= <-] & ->).
      rewrite (IH entries); [cbn [length]; lia|simpl in Hle; lia|].
      intros i fb' Hi. apply (Hall' (S i) fb' Hi). }
  set (front := if use_reserve_of t
                then match Struct.pack FMT_CFHEADER_RESERVE
                             [Struct.VInt (Z.of_nat (cb_cfheader t));
                              Struct.VInt (Z.of_nat (cb_cffolder t));
                              Struct.VInt (Z.of_nat (cb_cfdata t))] with
                     | Some descr => descr ++ written_header_reserve t
                     | None => []
                     end
                else []).
  assert (Hout' : out = (header ++ front) ++ concat entries ++ cffile ++ concat datas
                  /\ length (header ++ front) = header_size_of t).
  { unfold front, header_size_of. rewrite length_app, Hhlen.
    destruct Hout as [(Hu & ->)|(Hu & descr & Hdescr & ->)]; rewrite Hu.
    - rewrite app_nil_r. split; [done|]. simpl. lia.
    - rewrite Hdescr. split; [by rewrite <- !app_assoc|].
      rewrite length_app, (Struct.length_pack _ _ _ Hdescr).
      unfold written_header_reserve. by rewrite Struct.length_pad_to. }
  destruct Hout' as [Hout' Hflen].
  exists fbs, offsets, header, front, entries, cffile, datas.
  split; [done|]. split; [done|]. split; [done|].
  split; [done|]. split; [done|]. split; [done|]. split; [done|].
  assert (Hsize : length out
                  = (header_size_of t + length (concat entries) + length cffile
                     + length (concat datas))%nat).
  { rewrite Hout', !length_app. rewrite length_app in Hflen. lia. }
  split; [by rewrite Hsize|]. split; [done|]. split; [done|].
  intros i fb Hi. destruct (Hall i fb Hi) as (rec & d & Hp & He & Hd & Hb).
  exists rec, d. split; [|done].
  rewrite <- Hp. do 3 f_equal.
  rewrite (length_app (header ++ front)), (length_app (concat entries)), Hflen, Helen. lia.
Qed.

(** X17. The header of the output describes the output: read back, it
    holds the signature [MSCF], the length of the output as the cabinet
    size, the offset of the file table (the header, with its reserve area,
    and one fixed-size entry per folder come before it), the version 1.3,
    the number of folders and of files, the reserve flag and the [set_id] of
    the template (of the archive, without a template). *)
Theorem build_header_fields (a : CabArchive) (compress : bool)
    (template : option CabLayoutTemplate) (sort : bool) (out : list byte) :
  build_ce_cab_bytes set_iteration deflate checksum a compress template sort = Ok out ->
  let t := effective_template a template in
  exists (fbs : list _FolderBuild),
    _build_folders deflate a (_order_names set_iteration a template sort) t compress
    = Ok fbs
    /\ (0 < length fbs)%nat
    /\ Struct.unpack_from FMT_CFHEADER out 0
       = Some [Struct.VBytes MSCF; Struct.VInt (Z.of_nat (length out));
               Struct.VInt (Z.of_nat (header_size_of t
                  + length fbs * (Struct.calcsize FMT_CFFOLDER + cb_cffolder t)));
               Struct.VInt 3; Struct.VInt 1;
               Struct.VInt (Z.of_nat (length fbs));
               Struct.VInt (Z.of_nat (length (_order_names set_iteration a template sort)));
               Struct.VInt (if use_reserve_of t then 4 else 0);
               Struct.VInt (set_id t); Struct.VInt 0]
    /\ (header_size_of t + length fbs * (Struct.calcsize FMT_CFFOLDER + cb_cffolder t)
        <= length out)%nat
    /\ Z.of_nat (length out) < 2 ^ 32
    /\ Z.of_nat (length fbs) < 65536.
Proof.
  intros H t.
  destruct (build_ce_cab_bytes_parts a compress template sort out H)
    as (fbs & offsets & header & front & entries & cffile & datas
        & Hfb & _ & _ & Hne & Hout & Hflen & Helen & Hhdr & _).
  fold t in Hfb, Hflen, Helen, Hhdr.
  exists fbs. split; [done|]. split; [destruct fbs; [done|simpl; lia]|].
  split.
  { rewrite Hout at 1. rewrite <- !app_assoc.
    apply (Struct.unpack_from_pack _ _ _ [] _ Hhdr). }
  split.
  { rewrite Hout. rewrite (length_app (header ++ front)), (length_app (concat entries)),
      Hflen, Helen. lia. }
  pose proof (pack_int_ranges _ _ _ Hhdr) as Hr.
  cbn [packed_ints FMT_CFHEADER] in Hr.
  apply Forall_cons in Hr as [Hsize Hr]. apply Forall_cons in Hr as [_ Hr].
  apply Forall_cons in Hr as [_ Hr]. apply Forall_cons in Hr as [_ Hr].
  apply Forall_cons in Hr as [Hnf _]. cbn [fst snd] in Hsize, Hnf.
  change (256 ^ Z.of_nat 4) with 4294967296 in Hsize.
  change (256 ^ Z.of_nat 2) with 65536 in Hnf.
  change (2 ^ 32) with 4294967296. lia.
Qed.

End OutputLayout.

Section OutputTables.

Variable set_iteration : gset string -> list string.
Variable deflate : list byte -> list byte.
Variable checksum : list byte -> Z -> Z.

(** X18. The folder table of the output locates the data. The output ends
    with the data of the folders, one after the other, the data of a folder
    being the images of its blocks (a CFDATA record, the per-block reserve
    and the encoded bytes of the block). The entry of each folder has the
    fixed size of a CFFOLDER record and the folder reserve; read back, it
    holds the offset in the output at which the data of that folder begins,
    the number of its blocks, and the compression type (1 with [compress],
    0 without); and it ends with the folder's reserve. *)
Theorem build_folder_offsets (a : CabArchive) (compress : bool)
    (template : option CabLayoutTemplate) (sort : bool) (out : list byte) :
  build_ce_cab_bytes set_iteration deflate checksum a compress template sort = Ok out ->
  let t := effective_template a template in
  exists (fbs : list _FolderBuild) (entries datas : list (list byte))
         (front middle : list byte),
    _build_folders deflate a (_order_names set_iteration a template sort) t compress
    = Ok fbs
    /\ out = front ++ concat entries ++ middle ++ concat datas
    /\ length front = header_size_of t
    /\ length entries = length fbs
    /\ Forall2
         (fun fb d =>
            exists images,
              d = concat images
              /\ Forall2 (fun b image => block_image (cb_cfdata t) b.1 image)
                   (blocks fb) images)
         fbs datas
    /\ forall i fb,
         fbs !! i = Some fb ->
         exists entry off,
           entries !! i = Some entry
           /\ length entry = (Struct.calcsize FMT_CFFOLDER + cb_cffolder t)%nat
           /\ Struct.unpack_from FMT_CFFOLDER entry 0
              = Some [Struct.VInt (Z.of_nat off);
                      Struct.VInt (Z.of_nat (length (blocks fb)));
                      Struct.VInt (if compress then 1 else 0)]
           /\ drop (Struct.calcsize FMT_CFFOLDER) entry = reserve fb
           /\ drop off out = concat (drop i datas).
Proof.
  intros H t.
  destruct (build_ce_cab_bytes_parts set_iteration deflate checksum a compress template
              sort out H)
    as (fbs & offsets & header & front & entries & cffile & datas
        & Hfb & _ & _ & Hne & Hout & Hflen & Helen & Hhdr & Hle & Hld & Hall).
  fold t in Hfb, Hflen, Helen, Hhdr, Hall.
  exists fbs, entries, datas, (header ++ front), cffile.
  split; [done|]. split; [done|]. split; [done|]. split; [done|]. split.
  { apply Forall2_same_length_lookup_2; [done|]. intros i fb d Hi Hdi.
    destruct (Hall i fb Hi) as (rec & d' & _ & _ & Hd & Hb).
    rewrite Hdi in Hd. inversion Hd; subst d'.
    destruct (data_blocks_loop_inv _ _ _ _ _ Hb) as (_ & images & Hcat & Himg).
    by exists images. }
  intros i fb Hi. destruct (Hall i fb Hi) as (rec & d & Hp & He & Hd & Hb).
  pose proof (Struct.length_pack _ _ _ Hp) as Hrl.
  assert (Hres : length (reserve fb) = cb_cffolder t).
  { pose proof Hfb as Hloop. unfold _build_folders in Hloop.
    apply build_folders_loop_inv in Hloop.
    destruct (Forall2_lookup_r _ _ _ _ _ Hloop Hi) as ([k l] & _ & raw & _ & ->).
    simpl. apply length_folder_reserve. }
  assert (Hr : (if decide (cb_cffolder t = 0%nat) then [] else reserve fb) = reserve fb).
  { destruct (decide (cb_cffolder t = 0%nat)) as [Hz|]; [|done].
    rewrite Hz in Hres. symmetry. by apply nil_length_inv. }
  rewrite Hr in He.
  eexists (rec ++ reserve fb), _. split; [exact He|].
  split; [by rewrite length_app, Hrl, Hres|]. split.
  { pose proof (Struct.unpack_from_pack _ _ _ [] (reserve fb) Hp) as Hu.
    simpl in Hu. exact Hu. }
  split.
  { rewrite <- Hrl. by rewrite drop_app_length. }
  rewrite Hout.
  assert (Hsplit : concat datas = concat (take i datas) ++ concat (drop i datas))
    by (by rewrite <- concat_app, take_drop).
  rewrite Hsplit.
  rewrite !app_assoc. rewrite drop_app_length'; [done|].
  rewrite !length_app. lia.
Qed.

(** The data blocks of one folder, with the records that precede them. *)
Lemma data_blocks_loop_records (cb_cfdata : nat) (blks : list (list byte * nat)) :
  forall data n,
    data_blocks_loop checksum blks cb_cfdata = Ok (data, n) ->
    exists images,
      data = concat images
      /\ Forall2
           (fun b image =>
              exists rec csum,
                Struct.pack FMT_CFDATA
                  [Struct.VInt csum; Struct.VInt (Z.of_nat (length b.1));
                   Struct.VInt (Z.of_nat b.2)] = Some rec
                /\ image = rec ++ replicate cb_cfdata x00 ++ b.1)
           blks images.
Proof.
  induction blks as [|[encoded plain_size] blks IH]; intros data n H; simpl in H.
  - inversion H. exists []. split; [done|constructor].
  - rbind_inv H. rename a into hdr. rbind_inv H. rename a into rec.
    rbind_inv H. destruct a as [tail block_bytes]. inversion H; subst data n.
    destruct (IH _ _ Ha1) as (images & -> & Himg).
    assert (Hpad : (if decide (cb_cfdata = 0%nat) then [] else replicate cb_cfdata x00)
                   = replicate cb_cfdata x00).
    { destruct (decide (cb_cfdata = 0%nat)) as [-> |]; done. }
    rewrite Hpad.
    exists ((rec ++ replicate cb_cfdata x00 ++ encoded) :: images). split.
    + simpl. by rewrite <- !app_assoc.
    + constructor; [|done]. apply rpack_Ok in Ha0. by eexists _, _.
Qed.

Lemma folder_and_data_loop_records (cb_cffolder cb_cfdata : nat) (compress : bool)
    (fbs : list _FolderBuild) :
  forall cursor folder_blob data,
    folder_and_data_loop checksum fbs cursor cb_cffolder cb_cfdata compress
    = Ok (folder_blob, data) ->
    exists imagess,
      data = concat (concat imagess)
      /\ Forall2
           (fun fb images =>
              Forall2
                (fun b image =>
                   exists rec csum,
                     Struct.pack FMT_CFDATA
                       [Struct.VInt csum; Struct.VInt (Z.of_nat (length b.1));
                        Struct.VInt (Z.of_nat b.2)] = Some rec
                     /\ image = rec ++ replicate cb_cfdata x00 ++ b.1)
                (blocks fb) images)
           fbs imagess.
Proof.
  induction fbs as [|fb fbs IH]; intros cursor folder_blob data H; simpl in H.
  - inversion H. exists []. split; [done|constructor].
  - rbind_inv H. destruct a as [d block_bytes]. rbind_inv H. rbind_inv H.
    destruct a0 as [folder_tail data_tail]. inversion H; subst folder_blob data.
    destruct (data_blocks_loop_records _ _ _ _ Ha) as (images & -> & Himg).
    destruct (IH _ _ _ Ha1) as (imagess & -> & Hrest).
    exists (images :: imagess). split; [|by constructor].
    simpl. by rewrite concat_app.
Qed.

(** X19. Without compression the payload is stored as it is: the data
    area of the output consists, folder by folder, of blocks that each hold
    a CFDATA record, the per-block reserve and one chunk of the folder's
    payload; the record, read back, gives the chunk's length as both the
    stored and the uncompressed size; no chunk is longer than 32768 bytes,
    and the chunks of a folder, in order, are the concatenation of the
    payloads of its files (one empty chunk for an empty payload). *)
Theorem build_stored_blocks (a : CabArchive)
    (template : option CabLayoutTemplate) (sort : bool) (out : list byte) :
  build_ce_cab_bytes set_iteration deflate checksum a false template sort = Ok out ->
  let t := effective_template a template in
  exists (fbs : list _FolderBuild) (chunkss imagess : list (list (list byte)))
         (front : list byte),
    _build_folders deflate a (_order_names set_iteration a template sort) t false = Ok fbs
    /\ out = front ++ concat (concat imagess)
    /\ Forall2
         (fun fb chunks =>
            join_payloads a (names fb) = Ok (concat chunks) /\ chunks <> [])
         fbs chunkss
    /\ Forall2
         (Forall2
            (fun chunk image =>
               Z.of_nat (length chunk) <= 32768
               /\ (exists csum,
                     Struct.unpack_from FMT_CFDATA image 0
                     = Some [Struct.VInt csum; Struct.VInt (Z.of_nat (length chunk));
                             Struct.VInt (Z.of_nat (length chunk))])
               /\ length image
                  = (Struct.calcsize FMT_CFDATA + cb_cfdata t + length chunk)%nat
               /\ drop (Struct.calcsize FMT_CFDATA + cb_cfdata t) image = chunk))
         chunkss imagess.
Proof.
  intros H t.
  destruct (build_ce_cab_bytes_inv _ _ _ _ _ _ _ _ H)
    as (fbs & offsets & cffile & cffolder & cfdata & header
        & Hne & Hfb & Hfbs & Hoff & Hfile & Hblobs & Hhdr & Hout).
  fold t in Hfb, Hblobs, Hout.
  unfold _build_folder_and_data_blobs in Hblobs.
  destruct (folder_and_data_loop_records _ _ _ _ _ _ _ Hblobs) as (imagess & -> & Himg).
  pose proof Hfb as Hloop. unfold _build_folders in Hloop.
  apply build_folders_loop_inv in Hloop.
  set (keyed := assign_keys _ _ _ _) in Hloop. clearbody keyed.
  assert (Hch : exists chunkss,
    Forall2
      (fun fb chunks =>
         join_payloads a (names fb) = Ok (concat chunks)
         /\ blocks fb = map (fun c => (c, length c)) chunks
         /\ chunks <> []
         /\ Forall (fun c => Z.of_nat (length c) <= 32768) chunks)
      fbs chunkss).
  { clear -Hloop. induction Hloop as [|kn fb keyed fbs (raw & Hraw & ->) _ (chunkss & IH)].
    - exists []. constructor.
    - exists (folder_chunks raw :: chunkss). constructor; [|done]. simpl.
      destruct (folder_chunks_spec raw) as (Hne & Hcat & Hlen).
      rewrite Hcat. repeat split; try done.
      eapply Forall_impl; [exact Hlen|]. simpl. unfold CHUNK_SIZE. intros; lia. }
  destruct Hch as (chunkss & Hch).
  assert (Hfront : exists front, out = front ++ concat (concat imagess)).
  { destruct Hout as [(_ & ->)|(_ & descr & _ & ->)].
    - exists (header ++ cffolder ++ cffile). by rewrite <- !app_assoc.
    - exists (header ++ (descr ++ written_header_reserve t) ++ cffolder ++ cffile).
      by rewrite <- !app_assoc. }
  destruct Hfront as (front & ->).
  exists fbs, chunkss, imagess, front.
  split; [done|]. split; [done|]. split.
  { eapply Forall2_impl; [exact Hch|]. simpl. tauto. }
  clear -Hch Himg. revert imagess Himg.
  induction Hch as [|fb chunks fbs chunkss (_ & Hb & Hne & Hlen) _ IH];
    intros imagess Himg; inversion Himg as [|? images ? imagess' Hi Hrest]; subst.
  - constructor.
  - constructor; [|by apply IH].
    rewrite Hb in Hi. clear -Hi Hlen. revert images Hi.
    induction Hlen as [|c chunks Hc _ IH]; intros images Hi;
      inversion Hi as [|? image ? images' H1 H2]; subst; constructor.
    + destruct H1 as (rec & csum & Hp & ->). cbn [fst snd] in Hp.
      pose proof (Struct.length_pack _ _ _ Hp) as Hl.
      split; [done|]. split.
      { exists csum. apply (Struct.unpack_from_pack _ _ _ [] _ Hp). }
      split.
      { cbn [fst]. rewrite !length_app, length_replicate, Hl. lia. }
      cbn [fst]. rewrite app_assoc. rewrite drop_app_length'; [done|].
      by rewrite length_app, length_replicate, Hl.
    + by apply IH.
Qed.

End OutputTables.

(** ** The file table *)

Lemma PyDict_set_new {K V : Type} `{EqDecision K} (k : K) (v : V) (d : list (K * V)) :
  PyDict.get k d = None -> PyDict.set k v d = d ++ [(k, v)].
Proof.
  induction d as [|[k' v'] d IH]; simpl; [done|].
  destruct (decide (k = k')); [done|]. intros H. by rewrite IH.
Qed.

Lemma PyDict_set_values_snoc (k : Z) (l : list string) (n : string)
    (d : list (Z * list string)) :
  PyDict.get k d = Some l ->
  concat (PyDict.set k (l ++ [n]) d).*2 ≡ₚ concat d.*2 ++ [n].
Proof.
  induction d as [|[k' v'] d IH]; simpl; [done|].
  destruct (decide (k = k')) as [-> |Hne].
  - intros [= ->]. simpl. rewrite <- !app_assoc. apply Permutation_app_head.
    apply Permutation_app_comm.
  - intros H. simpl. rewrite (IH H). by rewrite app_assoc.
Qed.

Lemma keyed_append_names (k : Z) (n : string) (keyed : list (Z * list string)) :
  concat (keyed_append k n keyed).*2 ≡ₚ concat keyed.*2 ++ [n].
Proof.
  unfold keyed_append. destruct (PyDict.get k keyed) as [l|] eqn:Eg.
  - by apply PyDict_set_values_snoc.
  - rewrite PyDict_set_new by done. rewrite fmap_app, concat_app. simpl.
    by rewrite ?app_nil_r.
Qed.

Lemma assign_keys_names (ff : gmap string Z) (ns : list string) :
  forall next keyed,
    concat (assign_keys ns ff next keyed).*2 ≡ₚ concat keyed.*2 ++ ns.
Proof.
  induction ns as [|n ns IH]; intros next keyed; simpl.
  - by rewrite app_nil_r.
  - destruct (ff !! n); rewrite IH, keyed_append_names; by rewrite <- app_assoc.
Qed.

(** The folders hold the names they were made from, each once. *)
Lemma build_folders_names (deflate : list byte -> list byte) (a : CabArchive)
    (ns : list string) (t : CabLayoutTemplate) (compress : bool)
    (fbs : list _FolderBuild) :
  _build_folders deflate a ns t compress = Ok fbs ->
  concat (map names fbs) ≡ₚ ns.
Proof.
  unfold _build_folders. intros H. apply build_folders_loop_inv in H.
  rewrite <- (assign_keys_names (file_folders t) ns
                (max_values (file_folders t) + 1) []).
  set (keyed := assign_keys _ _ _ _) in *. clearbody keyed.
  induction H as [|[k l] fb keyed fbs (raw & _ & ->) _ IH]; [done|].
  simpl. by rewrite IH.
Qed.

(** The offsets of one folder. *)
Lemma offsets_in_folder_spec (a : CabArchive) (ns : list string) :
  forall off offs offs',
    offsets_in_folder a ns off offs = Ok offs' ->
    NoDup ns ->
    (forall m, m ∉ ns -> offs' !! m = offs !! m)
    /\ forall pre n post,
         ns = pre ++ n :: post ->
         exists raw_pre,
           join_payloads a pre = Ok raw_pre
           /\ offs' !! n = Some (off + Z.of_nat (length raw_pre)).
Proof.
  induction ns as [|n0 ns IH]; intros off offs offs' H Hnd; simpl in H.
  - inversion H; subst. split; [done|]. intros pre n post E. by destruct pre.
  - rbind_inv H. rename a0 into f0. apply NoDup_cons in Hnd as [Hn0 Hnd].
    destruct (IH _ _ _ H Hnd) as [Hframe Hspec]. split.
    + intros m Hm. apply not_elem_of_cons in Hm as [Hne Hm].
      rewrite (Hframe m Hm). by apply lookup_insert_ne.
    + intros pre n post E. destruct pre as [|p pre]; simpl in E.
      * inversion E; subst. exists []. split; [done|].
        rewrite (Hframe n Hn0), lookup_insert_eq. simpl. f_equal. lia.
      * inversion E; subst. destruct (Hspec pre n post eq_refl) as (raw_pre & Hj & Ho).
        simpl. rewrite Ha, Hj. simpl. eexists. split; [reflexivity|].
        rewrite Ho. f_equal. rewrite length_app. unfold cabfile_len. lia.
Qed.

Lemma offsets_loop_spec (a : CabArchive) (fbs : list _FolderBuild) :
  forall offs offs',
    offsets_loop a fbs offs = Ok offs' ->
    NoDup (concat (map names fbs)) ->
    (forall m, m ∉ concat (map names fbs) -> offs' !! m = offs !! m)
    /\ forall fb pre n post,
         fb ∈ fbs -> names fb = pre ++ n :: post ->
         exists raw_pre,
           join_payloads a pre = Ok raw_pre
           /\ offs' !! n = Some (Z.of_nat (length raw_pre)).
Proof.
  induction fbs as [|fb0 fbs IH]; intros offs offs' H Hnd; simpl in H.
  - inversion H; subst. split; [done|]. by intros fb pre n post ?%elem_of_nil.
  - rbind_inv H. rename a0 into offs1. simpl in Hnd.
    apply NoDup_app in Hnd as (Hnd0 & Hdisj & Hnd).
    destruct (offsets_in_folder_spec _ _ _ _ _ Ha Hnd0) as [Hframe0 Hspec0].
    destruct (IH _ _ H Hnd) as [Hframe Hspec]. split.
    + intros m Hm. simpl in Hm. apply not_elem_of_app in Hm as [Hm0 Hm].
      by rewrite (Hframe m Hm), (Hframe0 m Hm0).
    + intros fb pre n post Hin E. apply elem_of_cons in Hin as [-> |Hin].
      * destruct (Hspec0 pre n post E) as (raw_pre & Hj & Ho).
        exists raw_pre. split; [done|]. rewrite Hframe; [by rewrite Ho|].
        apply Hdisj. rewrite E. apply elem_of_app. right. left.
      * by apply (Hspec fb pre n post).
Qed.

Lemma build_cffile_blob_records (a : CabArchive) (offsets findex : gmap string Z)
    (ns : list string) :
  forall blob,
    _build_cffile_blob a ns offsets findex = Ok blob ->
    exists entries,
      blob = concat entries
      /\ Forall2
           (fun name entry =>
              exists f off idx rec,
                PyDict.get name (files a) = Some f
                /\ offsets !! name = Some off
                /\ findex !! name = Some idx
                /\ Struct.pack FMT_CFFILE
                     [Struct.VInt (cabfile_len f); Struct.VInt off; Struct.VInt idx;
                      Struct.VInt (_date_encode f); Struct.VInt (_time_encode f);
                      Struct.VInt (_attr_encode f)] = Some rec
                /\ entry = rec ++ list_byte_of_string (wire_name f name) ++ [x00])
           ns entries.
Proof.
  induction ns as [|name ns IH]; intros blob H; simpl in H.
  - inversion H. exists []. split; [done|constructor].
  - rbind_inv H. rename a0 into f. rbind_inv H. rename a0 into off.
    rbind_inv H. rename a0 into idx. rbind_inv H. rename a0 into rec.
    rbind_inv H. rename a0 into tail. inversion H; subst blob.
    destruct (IH _ Ha3) as (entries & -> & HF).
    exists ((rec ++ list_byte_of_string (wire_name f name) ++ [x00]) :: entries).
    split; [simpl; by rewrite <- !app_assoc|]. constructor; [|done].
    exists f, off, idx, rec. repeat split.
    + unfold archive_item in Ha. by destruct (PyDict.get name (files a)); inversion Ha.
    + unfold dict_item in Ha0. by destruct (offsets !! name); inversion Ha0.
    + unfold dict_item in Ha1. by destruct (findex !! name); inversion Ha1.
    + by apply rpack_Ok in Ha2.
Qed.

Lemma elem_of_concat {A : Type} (x : A) (ls : list (list A)) :
  x ∈ concat ls <-> exists l, x ∈ l /\ l ∈ ls.
Proof.
  induction ls as [|l0 ls IH]; simpl.
  - split; [by intros ?%elem_of_nil|]. by intros (l & _ & ?%elem_of_nil).
  - rewrite elem_of_app, IH. split.
    + intros [H|(l & Hx & Hl)]; [exists l0; split; [done|left]|].
      exists l. split; [done|by right].
    + intros (l & Hx & [-> |Hl]%elem_of_cons); [by left|]. right. by exists l.
Qed.

Lemma elem_of_concat_names (fbs : list _FolderBuild) (n : string) :
  n ∈ concat (map names fbs) ->
  exists i fb pre post, fbs !! i = Some fb /\ names fb = pre ++ n :: post.
Proof.
  intros Hin. apply elem_of_concat in Hin as (l & Hn & Hl).
  apply list_elem_of_fmap in Hl as (fb & -> & Hfb).
  apply list_elem_of_lookup in Hfb as (i & Hi).
  apply list_elem_of_split in Hn as (pre & post & E).
  by exists i, fb, pre, post.
Qed.

Lemma NoDup_concat_later (fbs : list _FolderBuild) (i : nat) (fb : _FolderBuild)
    (n : string) :
  NoDup (concat (map names fbs)) -> fbs !! i = Some fb -> n ∈ names fb ->
  Forall (fun fb' => n ∉ names fb') (drop (S i) fbs).
Proof.
  revert i. induction fbs as [|fb0 fbs IH]; intros i Hnd Hi Hn; [done|].
  simpl in Hnd. apply NoDup_app in Hnd as (_ & Hdisj & Hnd).
  destruct i as [|i]; simpl in *.
  - inversion Hi; subst fb0. rewrite drop_0. apply Forall_forall.
    intros fb' Hfb' Hin. apply (Hdisj n Hn).
    apply elem_of_concat. exists (names fb'). split; [done|].
    apply list_elem_of_fmap. by exists fb'.
  - by apply (IH i).
Qed.

Section FileTable.

Variable set_iteration : gset string -> list string.
Variable deflate : list byte -> list byte.
Variable checksum : list byte -> Z -> Z.

(** X20. The file table of the output lists the files in the order of
    [_order_names], after the header and the folder table. The record of
    each file, read back, holds the length of its payload, its offset in
    the uncompressed data of its folder, which is the total length of the
    files that come before it in that folder, the index of that folder in
    the folder table, and its date, time and attributes; the record is
    followed by the file's name and a NUL byte. *)
Theorem build_file_records (a : CabArchive) (compress : bool)
    (template : option CabLayoutTemplate) (sort : bool) (out : list byte) :
  (forall s, set_iteration s ≡ₚ elements s) ->
  build_ce_cab_bytes set_iteration deflate checksum a compress template sort = Ok out ->
  let t := effective_template a template in
  exists (fbs : list _FolderBuild) (entries : list (list byte)) (front back : list byte),
    _build_folders deflate a (_order_names set_iteration a template sort) t compress
    = Ok fbs
    /\ out = front ++ concat entries ++ back
    /\ length front
       = (header_size_of t + length fbs * (Struct.calcsize FMT_CFFOLDER + cb_cffolder t))%nat
    /\ Forall2
         (fun name entry =>
            exists f i fb pre post raw_pre,
              PyDict.get name (files a) = Some f
              /\ fbs !! i = Some fb
              /\ names fb = pre ++ name :: post
              /\ join_payloads a pre = Ok raw_pre
              /\ Struct.unpack_from FMT_CFFILE entry 0
                 = Some [Struct.VInt (cabfile_len f);
                         Struct.VInt (Z.of_nat (length raw_pre));
                         Struct.VInt (Z.of_nat i);
                         Struct.VInt (_date_encode f); Struct.VInt (_time_encode f);
                         Struct.VInt (_attr_encode f)]
              /\ drop (Struct.calcsize FMT_CFFILE) entry
                 = list_byte_of_string (wire_name f name) ++ [x00])
         (_order_names set_iteration a template sort) entries.
Proof.
  intros Hperm H t.
  destruct (build_ce_cab_bytes_parts set_iteration deflate checksum a compress template
              sort out H)
    as (fbs & offsets & header & front & fentries & cffile & datas
        & Hfb & Hoff & Hfile & Hne & Hout & Hflen & Helen & _).
  fold t in Hfb, Hflen, Helen.
  set (ordered := _order_names set_iteration a template sort) in *.
  assert (Hnd : NoDup (concat (map names fbs))).
  { rewrite (build_folders_names _ _ _ _ _ _ Hfb). unfold ordered.
    rewrite (order_names_elements set_iteration a template sort Hperm).
    apply NoDup_elements. }
  assert (Hall : forall n, n ∈ ordered -> n ∈ concat (map names fbs)).
  { intros n Hn. by rewrite (build_folders_names _ _ _ _ _ _ Hfb). }
  destruct (offsets_loop_spec _ _ _ _ Hoff Hnd) as [_ Hoffs].
  destruct (build_cffile_blob_records _ _ _ _ _ Hfile) as (entries & -> & Hrecs).
  exists fbs, entries, ((header ++ front) ++ concat fentries), (concat datas).
  split; [done|]. split; [by rewrite Hout, <- !app_assoc|].
  split; [rewrite length_app; lia|].
  apply Forall2_same_length_lookup. split; [by eapply Forall2_length|].
  intros j name entry Hn He.
  pose proof (Forall2_lookup_lr _ _ _ _ _ _ Hrecs Hn He) as Hrec.
  destruct Hrec as (f & off & idx & rec & Hf & Ho & Hi & Hp & ->).
  destruct (elem_of_concat_names fbs name) as (i & fb & pre & post & Hfbi & Hnames).
  { apply Hall. apply list_elem_of_lookup. by exists j. }
  destruct (Hoffs fb pre name post) as (raw_pre & Hj & Ho'); [|done|].
  { apply list_elem_of_lookup. by exists i. }
  rewrite Ho in Ho'. inversion Ho'; subst off.
  rewrite (folder_index_loop_lookup name fbs i 0 ∅ fb) in Hi; [|done| |].
  2:{ rewrite Hnames. apply elem_of_app. right. left. }
  2:{ eapply NoDup_concat_later; [done|done|]. rewrite Hnames. apply elem_of_app.
      right. left. }
  inversion Hi; subst idx.
  exists f, i, fb, pre, post, raw_pre.
  split; [done|]. split; [done|]. split; [done|]. split; [done|].
  pose proof (Struct.length_pack _ _ _ Hp) as Hl. split.
  - apply (Struct.unpack_from_pack _ _ _ [] _ Hp).
  - rewrite <- Hl. by rewrite drop_app_length.
Qed.

End FileTable.

(** *** Concrete runs *)

Lemma build_header_fields_witness :
  let t := effective_template ex_archive_ab (Some ex_layout) in
  exists (fbs : list _FolderBuild),
    _build_folders stored_deflate ex_archive_ab
      (_order_names elements ex_archive_ab (Some ex_layout) true) t false
    = Ok fbs
    /\ (0 < length fbs)%nat
    /\ Struct.unpack_from FMT_CFHEADER ex_cab 0
       = Some [Struct.VBytes MSCF; Struct.VInt (Z.of_nat (length ex_cab));
               Struct.VInt (Z.of_nat (header_size_of t
                  + length fbs * (Struct.calcsize FMT_CFFOLDER + cb_cffolder t)));
               Struct.VInt 3; Struct.VInt 1;
               Struct.VInt (Z.of_nat (length fbs));
               Struct.VInt (Z.of_nat (length (_order_names elements ex_archive_ab
                                                (Some ex_layout) true)));
               Struct.VInt (if use_reserve_of t then 4 else 0);
               Struct.VInt (set_id t); Struct.VInt 0]
    /\ (header_size_of t + length fbs * (Struct.calcsize FMT_CFFOLDER + cb_cffolder t)
        <= length ex_cab)%nat
    /\ Z.of_nat (length ex_cab) < 2 ^ 32
    /\ Z.of_nat (length fbs) < 65536.
Proof.
  apply (build_header_fields elements stored_deflate xor_checksum ex_archive_ab false
           (Some ex_layout) true ex_cab).
  vm_compute. reflexivity.
Defined.

Lemma build_folder_offsets_witness :
  let t := effective_template ex_archive_ab (Some ex_layout) in
  exists (fbs : list _FolderBuild) (entries datas : list (list byte))
         (front middle : list byte),
    _build_folders stored_deflate ex_archive_ab
      (_order_names elements ex_archive_ab (Some ex_layout) true) t false
    = Ok fbs
    /\ ex_cab = front ++ concat entries ++ middle ++ concat datas
    /\ length front = header_size_of t
    /\ length entries = length fbs
    /\ Forall2
         (fun fb d =>
            exists images,
              d = concat images
              /\ Forall2 (fun b image => block_image (cb_cfdata t) b.1 image)
                   (blocks fb) images)
         fbs datas
    /\ forall i fb,
         fbs !! i = Some fb ->
         exists entry off,
           entries !! i = Some entry
           /\ length entry = (Struct.calcsize FMT_CFFOLDER + cb_cffolder t)%nat
           /\ Struct.unpack_from FMT_CFFOLDER entry 0
              = Some [Struct.VInt (Z.of_nat off);
                      Struct.VInt (Z.of_nat (length (blocks fb)));
                      Struct.VInt (if false then 1 else 0)]
           /\ drop (Struct.calcsize FMT_CFFOLDER) entry = reserve fb
           /\ drop off ex_cab = concat (drop i datas).
Proof.
  apply (build_folder_offsets elements stored_deflate xor_checksum ex_archive_ab false
           (Some ex_layout) true ex_cab).
  vm_compute. reflexivity.
Defined.

Lemma build_stored_blocks_witness :
  let t := effective_template ex_archive_ab (Some ex_layout) in
  exists (fbs : list _FolderBuild) (chunkss imagess : list (list (list byte)))
         (front : list byte),
    _build_folders stored_deflate ex_archive_ab
      (_order_names elements ex_archive_ab (Some ex_layout) true) t false = Ok fbs
    /\ ex_cab = front ++ concat (concat imagess)
    /\ Forall2
         (fun fb chunks =>
            join_payloads ex_archive_ab (names fb) = Ok (concat chunks) /\ chunks <> [])
         fbs chunkss
    /\ Forall2
         (Forall2
            (fun chunk image =>
               Z.of_nat (length chunk) <= 32768
               /\ (exists csum,
                     Struct.unpack_from FMT_CFDATA image 0
                     = Some [Struct.VInt csum; Struct.VInt (Z.of_nat (length chunk));
                             Struct.VInt (Z.of_nat (length chunk))])
               /\ length image
                  = (Struct.calcsize FMT_CFDATA + cb_cfdata t + length chunk)%nat
               /\ drop (Struct.calcsize FMT_CFDATA + cb_cfdata t) image = chunk))
         chunkss imagess.
Proof.
  apply (build_stored_blocks elements stored_deflate xor_checksum ex_archive_ab
           (Some ex_layout) true ex_cab).
  vm_compute. reflexivity.
Defined.

Lemma build_file_records_witness :
  let t := effective_template ex_archive_ab (Some ex_layout) in
  exists (fbs : list _FolderBuild) (entries : list (list byte)) (front back : list byte),
    _build_folders stored_deflate ex_archive_ab
      (_order_names elements ex_archive_ab (Some ex_layout) true) t false
    = Ok fbs
    /\ ex_cab = front ++ concat entries ++ back
    /\ length front
       = (header_size_of t + length fbs * (Struct.calcsize FMT_CFFOLDER + cb_cffolder t))%nat
    /\ Forall2
         (fun name entry =>
            exists f i fb pre post raw_pre,
              PyDict.get name (files ex_archive_ab) = Some f
              /\ fbs !! i = Some fb
              /\ names fb = pre ++ name :: post
              /\ join_payloads ex_archive_ab pre = Ok raw_pre
              /\ Struct.unpack_from FMT_CFFILE entry 0
                 = Some [Struct.VInt (cabfile_len f);
                         Struct.VInt (Z.of_nat (length raw_pre));
                         Struct.VInt (Z.of_nat i);
                         Struct.VInt (_date_encode f); Struct.VInt (_time_encode f);
                         Struct.VInt (_attr_encode f)]
              /\ drop (Struct.calcsize FMT_CFFILE) entry
                 = list_byte_of_string (wire_name f name) ++ [x00])
         (_order_names elements ex_archive_ab (Some ex_layout) true) entries.
Proof.
  apply (build_file_records elements stored_deflate xor_checksum ex_archive_ab false
           (Some ex_layout) true ex_cab).
  - reflexivity.
  - vm_compute. reflexivity.
Defined.

(** ** What [parse_cab_layout] accepts and returns *)

Lemma le_value_bound (l : list byte) :
  0 <= Struct.le_value l < 256 ^ Z.of_nat (length l).
Proof.
  induction l as [|b l IH]; [simpl; lia|].
  cbn [Struct.le_value length]. rewrite Nat2Z.inj_succ, Z.pow_succ_r by lia.
  pose proof (Struct.Z_of_byte_range b). lia.
Qed.

Lemma le_value_take_bound (w : nat) (l : list byte) :
  0 <= Struct.le_value (take w l) < 256 ^ Z.of_nat w.
Proof.
  pose proof (le_value_bound (take w l)) as H.
  assert (Hle : 256 ^ Z.of_nat (length (take w l)) <= 256 ^ Z.of_nat w).
  { apply Z.pow_le_mono_r; [lia|]. rewrite length_take. lia. }
  lia.
Qed.

(** The kinds of the values [struct.unpack] returns: [None] for bytes,
    [Some w] for an integer of [w] bytes. *)
Fixpoint unpacked_kinds (f : Struct.fmt) : list (option nat) :=
  match f with
  | [] => []
  | Struct.Pad _ :: f' => unpacked_kinds f'
  | Struct.Chars _ :: f' => None :: unpacked_kinds f'
  | Struct.UInt w :: f' => Some w :: unpacked_kinds f'
  end.

Definition value_of_kind (v : Struct.value) (k : option nat) : Prop :=
  match v, k with
  | Struct.VInt z, Some w => 0 <= z < 256 ^ Z.of_nat w
  | Struct.VBytes _, None => True
  | _, _ => False
  end.

Lemma unpack_kinds (f : Struct.fmt) :
  forall s, Forall2 value_of_kind (Struct.unpack f s) (unpacked_kinds f).
Proof.
  induction f as [|[n|n|w] f IH]; intros s; simpl.
  - constructor.
  - apply IH.
  - constructor; [done|apply IH].
  - constructor; [apply le_value_take_bound|apply IH].
Qed.

Lemma unpack_from_kinds (f : Struct.fmt) (buf : list byte) (off : nat)
    (vs : list Struct.value) :
  Struct.unpack_from f buf off = Some vs ->
  Forall2 value_of_kind vs (unpacked_kinds f)
  /\ ((0 < Struct.calcsize f)%nat -> (off + Struct.calcsize f <= length buf)%nat).
Proof.
  unfold Struct.unpack_from.
  destruct (decide (length (take (Struct.calcsize f) (drop off buf)) = Struct.calcsize f))
    as [Hl|]; [|done].
  intros [= <-]. split; [apply unpack_kinds|].
  rewrite length_take, length_drop in Hl. lia.
Qed.

Lemma length_slice (buf : list byte) (a b : nat) : (length (slice buf a b) <= b - a)%nat.
Proof. unfold slice. rewrite length_take. lia. Qed.

Lemma parse_folders_lengths (buf : list byte) (cb : nat) (n : nat) :
  forall offset acc res,
    parse_folders n buf cb offset acc = Some res ->
    Forall (fun r => (length r <= cb)%nat) acc ->
    Forall (fun r => (length r <= cb)%nat) res /\ length res = (length acc + n)%nat.
Proof.
  induction n as [|n IH]; intros offset acc res H Hacc; cbn [parse_folders] in H.
  - inversion H; subst. split; [done|lia].
  - destruct (Struct.unpack_from FMT_CFFOLDER buf offset); [|done].
    apply IH in H.
    + destruct H as [H1 H2]. split; [done|]. rewrite H2, length_app. simpl. lia.
    + apply Forall_app. split; [done|]. constructor; [|constructor].
      destruct (decide (cb = 0%nat)); [simpl; lia|].
      pose proof (length_slice buf (offset + Struct.calcsize FMT_CFFOLDER)
                    (offset + Struct.calcsize FMT_CFFOLDER + cb)). lia.
Qed.

Lemma parse_files_indices (buf : list byte) (n : nat) :
  forall offset fo ff fo' ff',
    parse_files n buf offset fo ff = Some (fo', ff') ->
    (forall name k, ff !! name = Some k -> 0 <= k < 65536) ->
    (forall name k, ff' !! name = Some k -> 0 <= k < 65536)
    /\ length fo' = (length fo + n)%nat.
Proof.
  induction n as [|n IH]; intros offset fo ff fo' ff' H Hinv; cbn [parse_files] in H.
  - inversion H; subst. split; [done|lia].
  - destruct (Struct.unpack_from FMT_CFFILE buf offset) as [vs|] eqn:Eu; [|done].
    apply unpack_from_kinds in Eu as [Hk _]. cbn [unpacked_kinds FMT_CFFILE] in Hk.
    destruct vs as [|[?|?] [|[?|?] [|[?|folder_idx] [|[?|?] [|[?|?] [|[?|?] [|??]]]]]]];
      try discriminate.
    destruct (bytes_find x00 buf (offset + Struct.calcsize FMT_CFFILE)) as [end_|];
      [|discriminate].
    apply IH in H.
    + destruct H as [H1 H2]. split; [done|]. rewrite H2, length_app. simpl. lia.
    + intros name k Hl.
      destruct (decide (name = string_of_list_byte
                  (slice buf (offset + Struct.calcsize FMT_CFFILE) end_))) as [-> |Hne].
      * rewrite lookup_insert_eq in Hl. inversion Hl; subst k.
        apply Forall2_cons in Hk as [_ Hk]. apply Forall2_cons in Hk as [_ Hk].
        apply Forall2_cons in Hk as [Hidx _]. simpl in Hidx.
        change (256 ^ Z.of_nat 2) with 65536 in Hidx. done.
      * rewrite lookup_insert_ne in Hl by done. by eapply Hinv.
Qed.

(** X21. [parse_cab_layout] returns a template only for a buffer of at
    least 36 bytes that starts with [MSCF], and every template it returns
    is well formed: the sizes and the [set_id] fit their fields, the header
    reserve and the per-folder reserves are no longer than the sizes the
    template declares (they are shorter only where the buffer ends), no
    name holds a NUL byte, the names with a folder are exactly the names of
    [file_order], and every folder index fits in 16 bits. *)
Theorem parse_cab_layout_wellformed (buf : list byte) (T : CabLayoutTemplate) :
  parse_cab_layout buf = Some T ->
  (36 <= length buf)%nat
  /\ take 4 buf = MSCF
  /\ 0 <= set_id T < 65536
  /\ Z.of_nat (cb_cfheader T) < 65536
  /\ Z.of_nat (cb_cffolder T) < 256
  /\ Z.of_nat (cb_cfdata T) < 256
  /\ (length (header_reserve T) <= cb_cfheader T)%nat
  /\ Forall (fun r => (length r <= cb_cffolder T)%nat) (folder_reserves T)
  /\ Forall nul_free (file_order T)
  /\ (forall name, is_Some (file_folders T !! name) <-> name ∈ file_order T)
  /\ (forall name k, file_folders T !! name = Some k -> 0 <= k < 65536).
Proof.
  intros H. destruct (parse_cab_layout_names buf T H) as [Hnul Hdom].
  unfold parse_cab_layout in H.
  destruct (Struct.unpack_from FMT_CFHEADER buf 0) as [vs|] eqn:Eu; [|done].
  pose proof Eu as Esig. unfold Struct.unpack_from in Esig.
  destruct (decide (length (take (Struct.calcsize FMT_CFHEADER) (drop 0 buf))
                    = Struct.calcsize FMT_CFHEADER)) as [Hl|]; [|done].
  apply unpack_from_kinds in Eu as [Hk Hlen]. cbn [unpacked_kinds FMT_CFHEADER] in Hk.
  change (Struct.calcsize FMT_CFHEADER) with 36%nat in *.
  destruct vs as [|[sig|?] [|[?|?] [|[?|off] [|[?|?] [|[?|?] [|[?|nfo] [|[?|nfi] [|[?|fl]
        [|[?|sid] [|[?|?] [|??]]]]]]]]]]]; try discriminate.
  destruct (decide (sig = MSCF)) as [-> |]; [|discriminate].
  assert (Hsig : take 4 buf = MSCF).
  { cbn [Struct.unpack FMT_CFHEADER] in Esig.
    assert (Hs : take 4 (take 36 (drop 0 buf)) = MSCF) by congruence.
    rewrite drop_0, take_take in Hs. exact Hs. }
  assert (Hsid : 0 <= sid < 65536).
  { repeat (apply Forall2_cons in Hk as [? Hk]). simpl in *.
    match goal with Hs : 0 <= sid < _ |- _ => exact Hs end. }
  destruct (parse_reserve buf fl 36) as [[[[[cbh cbf] cbd] hr] offset]|] eqn:Er;
    [|discriminate].
  assert (Hres : Z.of_nat cbh < 65536 /\ Z.of_nat cbf < 256 /\ Z.of_nat cbd < 256
                 /\ (length hr <= cbh)%nat).
  { unfold parse_reserve in Er. destruct (decide (Z.land fl 4 = 0)).
    - inversion Er; subst. repeat split; simpl; lia.
    - destruct (Struct.unpack_from FMT_CFHEADER_RESERVE buf 36) as [rs|] eqn:Eur; [|done].
      apply unpack_from_kinds in Eur as [Hkr _].
      cbn [unpacked_kinds FMT_CFHEADER_RESERVE] in Hkr.
      destruct rs as [|[?|h] [|[?|f] [|[?|d] [|??]]]]; try discriminate.
      inversion Er; subst.
      apply Forall2_cons in Hkr as [Hh Hkr]. apply Forall2_cons in Hkr as [Hf Hkr].
      apply Forall2_cons in Hkr as [Hd _]. simpl in Hh, Hf, Hd.
      change (256 ^ Z.of_nat 2) with 65536 in Hh.
      change (256 ^ Z.of_nat 1) with 256 in Hf, Hd.
      repeat split; try lia.
      eapply Nat.le_trans; [apply length_slice|]. simpl. lia. }
  destruct (parse_folders (Z.to_nat nfo) buf cbf offset []) as [frs|] eqn:Ef;
    [|discriminate].
  destruct (parse_files (Z.to_nat nfi) buf (Z.to_nat off) [] ∅) as [[fo ff]|] eqn:Efi;
    [|discriminate].
  inversion H; subst T; cbn [set_id cb_cfheader cb_cffolder cb_cfdata header_reserve
                              folder_reserves file_order file_folders] in *.
  destruct Hres as (? & ? & ? & ?).
  destruct (parse_folders_lengths _ _ _ _ _ _ Ef) as [Hfr _]; [constructor|].
  destruct (parse_files_indices _ _ _ _ _ _ _ Efi) as [Hidx _].
  { intros name k Hemp. by rewrite lookup_empty in Hemp. }
  split; [lia|]. split; [done|]. split; [done|]. split; [done|]. split; [done|].
  split; [done|]. split; [done|]. split; [done|]. split; [done|]. split; [|done].
  done.
Qed.

Lemma parse_cab_layout_wellformed_witness :
  (36 <= length ex_cab)%nat
  /\ take 4 ex_cab = MSCF
  /\ 0 <= set_id ex_layout < 65536
  /\ Z.of_nat (cb_cfheader ex_layout) < 65536
  /\ Z.of_nat (cb_cffolder ex_layout) < 256
  /\ Z.of_nat (cb_cfdata ex_layout) < 256
  /\ (length (header_reserve ex_layout) <= cb_cfheader ex_layout)%nat
  /\ Forall (fun r => (length r <= cb_cffolder ex_layout)%nat) (folder_reserves ex_layout)
  /\ Forall nul_free (file_order ex_layout)
  /\ (forall name, is_Some (file_folders ex_layout !! name) <-> name ∈ file_order ex_layout)
  /\ (forall name k, file_folders ex_layout !! name = Some k -> 0 <= k < 65536).
Proof.
  apply (parse_cab_layout_wellformed ex_cab ex_layout).
  vm_compute. reflexivity.
Defined.

(** * Further properties of the workspaces *)

Lemma foldl_delete_lookup (l : list string) :
  forall (st : gmap string Workspace) (k : string),
    foldl (fun st wsid => delete wsid st) st l !! k
    = if decide (k ∈ l) then None else st !! k.
Proof.
  induction l as [|x l IH]; intros st k; cbn [foldl].
  - destruct (decide (k ∈ [])) as [Hin|]; [by apply elem_of_nil in Hin|done].
  - rewrite IH. destruct (decide (k ∈ l)) as [Hin|Hnin].
    + rewrite decide_True; [done|]. by apply list_elem_of_further.
    + destruct (decide (k = x)) as [->|Hne].
      * rewrite decide_True by apply list_elem_of_here. apply lookup_delete_eq.
      * rewrite decide_False; [by apply lookup_delete_ne|].
        intros [?|?]%elem_of_cons; done.
Qed.

(** What [_purge_expired] keeps: the workspaces whose last access is not
    before the cutoff. *)
Lemma purge_expired_lookup (now : Z) (m : WorkspaceManager) (k : string) :
  _state (_purge_expired now m) !! k
  = match _state m !! k with
    | Some ws => if decide (last_access ws < now - _ttl m) then None else Some ws
    | None => None
    end.
Proof.
  unfold _purge_expired. cbn [_state]. rewrite foldl_delete_lookup.
  set (stale := (filter _ _).*1).
  destruct (_state m !! k) as [ws|] eqn:Ek.
  - destruct (decide (last_access ws < now - _ttl m)) as [Hlt|Hge].
    + rewrite decide_True; [done|].
      apply list_elem_of_fmap. exists (k, ws). split; [done|].
      apply list_elem_of_filter. split; [done|]. by apply elem_of_map_to_list.
    + rewrite decide_False; [done|].
      intros ([k' ws'] & Hk & [Hlt Hin]%list_elem_of_filter)%list_elem_of_fmap.
      cbn in Hk. subst k'. apply elem_of_map_to_list in Hin.
      rewrite Ek in Hin. inversion Hin; subst ws'. done.
  - by destruct (decide (k ∈ stale)).
Qed.

(** X24. [current()] returns the workspace of the session: afterwards the
    session holds the id under which the returned workspace is stored (the
    id it had, or a new one when it had none or an empty one), and the last
    access of that workspace is the time of the call. Its editor is the one
    the session had, provided a workspace was stored under the id and its
    last access was not before the cutoff (the time of the purge minus the
    time to live); otherwise it is a new editor, so a session that has
    been idle for longer loses the cabinet it had loaded. *)
Theorem current_session_workspace (now_purge now_new now_touch : Z) (fresh : string)
    (session : option string) (m : WorkspaceManager) :
  let r := current now_purge now_new now_touch fresh session m in
  let wsid := r.2 in
  r.1.2 = Some wsid
  /\ wsid = match session with
            | Some w => if decide (w = EmptyString) then fresh else w
            | None => fresh
            end
  /\ _ttl r.1.1 = _ttl m
  /\ exists ws,
       _state r.1.1 !! wsid = Some ws
       /\ last_access ws = now_touch
       /\ editor ws
          = match _state m !! wsid with
            | Some old =>
                if decide (last_access old < now_purge - _ttl m) then new_editor
                else editor old
            | None => new_editor
            end.
Proof.
  cbv zeta. unfold current.
  set (w := match session with
            | Some w => if decide (w = EmptyString) then fresh else w
            | None => fresh
            end).
  assert (Hw : match session with
               | Some w0 =>
                   if decide (w0 = EmptyString) then (fresh, Some fresh) else (w0, Some w0)
               | None => (fresh, Some fresh)
               end = (w, Some w)).
  { unfold w. destruct session as [w0|]; [|done]. by destruct (decide (w0 = EmptyString)). }
  rewrite Hw. cbn [fst snd _ttl _state].
  split; [done|]. split; [done|]. split; [done|].
  pose proof (purge_expired_lookup now_purge m w) as Hp.
  destruct (_state (_purge_expired now_purge m) !! w) as [ws|] eqn:Ew.
  - exists (touch now_touch ws). rewrite lookup_alter_eq, Ew. cbn.
    split; [done|]. split; [done|].
    destruct (_state m !! w) as [old|]; [|done].
    destruct (decide (last_access old < now_purge - _ttl m)); [done|]. congruence.
  - exists (touch now_touch (new_Workspace now_new)).
    rewrite lookup_alter_eq, lookup_insert_eq. cbn.
    split; [done|]. split; [done|].
    destruct (_state m !! w) as [old|]; [|done].
    destruct (decide (last_access old < now_purge - _ttl m)); [done|]. congruence.
Qed.

(** X25. [current()] leaves the workspaces of the other sessions as they
    are, except that it drops the expired ones: under every other id the
    manager then holds the workspace it held, with the same editor and the
    same last access, unless that last access was before the cutoff, in
    which case it holds none. *)
Theorem current_other_sessions (now_purge now_new now_touch : Z) (fresh : string)
    (session : option string) (m : WorkspaceManager) (k : string) :
  let r := current now_purge now_new now_touch fresh session m in
  k <> r.2 ->
  _state r.1.1 !! k
  = match _state m !! k with
    | Some ws => if decide (last_access ws < now_purge - _ttl m) then None else Some ws
    | None => None
    end.
Proof.
  cbv zeta. unfold current.
  set (w := match session with
            | Some w => if decide (w = EmptyString) then fresh else w
            | None => fresh
            end).
  assert (Hw : match session with
               | Some w0 =>
                   if decide (w0 = EmptyString) then (fresh, Some fresh) else (w0, Some w0)
               | None => (fresh, Some fresh)
               end = (w, Some w)).
  { unfold w. destruct session as [w0|]; [|done]. by destruct (decide (w0 = EmptyString)). }
  rewrite Hw. cbn [fst snd _ttl _state]. intros Hk.
  rewrite lookup_alter_ne by done.
  destruct (_state (_purge_expired now_purge m) !! w).
  - apply purge_expired_lookup.
  - rewrite lookup_insert_ne by done. apply purge_expired_lookup.
Qed.

(** Two sessions: [s1] was last seen at time 0, [s2] at time 50. *)
Definition ex_manager : WorkspaceManager :=
  mkWorkspaceManager 60
    (<["s1" := mkWorkspace ex_editor_plain 0]>
       (<["s2" := mkWorkspace ex_editor_plain 50]> ∅)).

Lemma current_other_sessions_witness :
  _state (current 100 100 100 "s3" (Some "s2") ex_manager).1.1 !! "s1"
  = match _state ex_manager !! "s1" with
    | Some ws => if decide (last_access ws < 100 - _ttl ex_manager) then None else Some ws
    | None => None
    end.
Proof.
  apply (current_other_sessions 100 100 100 "s3" (Some "s2") ex_manager "s1").
  vm_compute. discriminate.
Defined.

(** * Further properties of the [/add] route *)

Section AddRouteFacts.

Variable X : Externals.
Variable times : nat -> DateTime * DateTime * DateTime.

Lemma add_loop_display_name (n : nat) (d1 d2 directory : string)
    (uploads : list Upload) :
  n <> 1%nat ->
  forall i added e,
    add_loop X times i n d1 directory uploads added e
    = add_loop X times i n d2 directory uploads added e.
Proof.
  intros Hn. induction uploads as [|u uploads IH]; intros i added e; [done|].
  cbn [add_loop]. destruct (decide (up_filename u = EmptyString)); [apply IH|].
  rewrite !decide_False by done. destruct (times i) as [[t1 t2] t3].
  destruct (add_file X t1 t2 t3 _ _ _ _ e) as [e' [[]|x]]; [apply IH|done].
Qed.

(** X26. The display name of the form is used for a single upload only:
    when the request carries two or more files, counting those without a
    filename, which the loop skips, every file is added under its own
    filename, and the route does the same whatever the display name is. *)
Theorem add_route_batch_ignores_display_name (files : list Upload)
    (single : option Upload) (d1 d2 directory : string) (e : CabEditor) :
  (2 <= length files)%nat ->
  add_file_route X times files single d1 directory e
  = add_file_route X times files single d2 directory e.
Proof.
  intros Hlen. unfold add_file_route.
  destruct files as [|u files]; [simpl in Hlen; lia|].
  by rewrite (add_loop_display_name _ d1 d2) by (simpl in *; lia).
Qed.

(** The loop over a list in two parts. *)
Lemma add_loop_app (n : nat) (display_name directory : string)
    (pre post : list Upload) :
  forall i added e,
    add_loop X times i n display_name directory (pre ++ post) added e
    = match add_loop X times i n display_name directory pre added e with
      | (e1, Ok added1) =>
          add_loop X times (i + length pre) n display_name directory post added1 e1
      | (e1, Raise x) => (e1, Raise x)
      end.
Proof.
  induction pre as [|u pre IH]; intros i added e.
  - cbn [app add_loop length]. by rewrite Nat.add_0_r.
  - cbn [app add_loop length]. rewrite Nat.add_succ_r.
    destruct (decide (up_filename u = EmptyString)); [apply (IH (S i))|].
    destruct (times i) as [[t1 t2] t3].
    destruct (add_file X t1 t2 t3 _ _ _ _ e) as [e' [[]|x]]; [apply (IH (S i))|done].
Qed.

(** The number the loop counts. *)
Lemma add_loop_count (n : nat) (display_name directory : string)
    (uploads : list Upload) :
  forall i added e e' k,
    add_loop X times i n display_name directory uploads added e = (e', Ok k) ->
    k = (added + length (filter (fun u => up_filename u <> EmptyString) uploads))%nat.
Proof.
  induction uploads as [|u uploads IH]; intros i added e e' k H; cbn [add_loop] in H.
  - inversion H. cbn. lia.
  - destruct (decide (up_filename u = EmptyString)) as [Hu|Hu].
    + rewrite filter_cons_False by (by intros ?). by eapply IH.
    + rewrite filter_cons_True by done. cbn [length].
      destruct (times i) as [[t1 t2] t3].
      destruct (add_file X t1 t2 t3 _ _ _ _ e) as [e1 [[]|x]]; [|done].
      apply IH in H. lia.
Qed.

Lemma add_file_route_files (files : list Upload) (single : option Upload)
    (display_name directory : string) (e : CabEditor) :
  files <> [] ->
  add_file_route X times files single display_name directory e
  = match add_loop X times 0 (length files) display_name directory files 0 e with
    | (e', Ok added_count) => (e', Added added_count)
    | (e', Raise x) => (e', AddFailed x)
    end.
Proof. intros Hne. unfold add_file_route. by destruct files. Qed.

(** X27. The route does not add a batch as a whole. When [add_file]
    raises for one upload after the uploads before it went through, the
    route flashes the failure and the editor is left as that failing call
    left it, on top of what the uploads before it have added; the uploads
    after it are not looked at. *)
Theorem add_route_stops_at_first_failure (pre post : list Upload) (u : Upload)
    (single : option Upload) (display_name directory : string)
    (e e1 e2 : CabEditor) (k : nat) (x : exn) :
  let uploads := pre ++ u :: post in
  let n := length uploads in
  let now := times (length pre) in
  add_loop X times 0 n display_name directory pre 0 e = (e1, Ok k) ->
  up_filename u <> EmptyString ->
  add_file X now.1.1 now.1.2 now.2 (up_filename u) (up_payload u)
    (if decide (n = 1%nat) then display_name else EmptyString) directory e1
  = (e2, Raise x) ->
  add_file_route X times uploads single display_name directory e = (e2, AddFailed x).
Proof.
  intros uploads n now Hpre Hu Hfail.
  rewrite add_file_route_files by (unfold uploads; by destruct pre).
  fold n. unfold uploads. rewrite add_loop_app, Hpre. cbn [add_loop Nat.add].
  rewrite decide_False by done. fold now.
  destruct now as [[t1 t2] t3]. cbn [fst snd] in Hfail. by rewrite Hfail.
Qed.

(** X28. When no call of [add_file] raises, the number the route reports
    is the number of uploads that have a filename: those of the [files]
    field or, when that field is empty, the one of the [file] field. *)
Theorem add_route_count (files : list Upload) (single : option Upload)
    (display_name directory : string) (e e' : CabEditor) (k : nat) :
  add_file_route X times files single display_name directory e = (e', Added k) ->
  k = length (filter (fun u => up_filename u <> EmptyString)
                (match files with [] => option_list single | _ :: _ => files end)).
Proof.
  intros H. destruct files as [|u files].
  - unfold add_file_route in H. destruct single as [s|]; [|done].
    destruct (decide (up_filename s = EmptyString)) as [Hs|Hs]; [done|].
    destruct (add_loop X times 0 _ _ _ [s] 0 e) as [e1 [k1|x]] eqn:El; [|done].
    inversion H; subst. by apply add_loop_count in El.
  - rewrite add_file_route_files in H by done.
    destruct (add_loop X times 0 _ _ _ (u :: files) 0 e) as [e1 [k1|x]] eqn:El; [|done].
    inversion H; subst. by apply add_loop_count in El.
Qed.

End AddRouteFacts.

Definition ex_times (i : nat) : DateTime * DateTime * DateTime :=
  (ex_now, ex_now, ex_later).

Lemma add_route_batch_ignores_display_name_witness :
  add_file_route ex_externals ex_times
    [mkUpload "new.txt" [x6e]; mkUpload EmptyString []] None "shown.txt" EmptyString
    ex_editor_plain
  = add_file_route ex_externals ex_times
      [mkUpload "new.txt" [x6e]; mkUpload EmptyString []] None "other.txt" EmptyString
      ex_editor_plain.
Proof.
  apply (add_route_batch_ignores_display_name ex_externals ex_times
           [mkUpload "new.txt" [x6e]; mkUpload EmptyString []] None
           "shown.txt" "other.txt" EmptyString ex_editor_plain).
  simpl. lia.
Defined.

Lemma add_route_stops_at_first_failure_witness :
  add_file_route ex_externals ex_times
    ([mkUpload "new.txt" [x6e]] ++ mkUpload "empty.txt" [] :: [mkUpload "z.txt" [x7a]])
    None EmptyString EmptyString ex_editor_plain
  = ((add_file ex_externals ex_now ex_now ex_later "new.txt" [x6e] EmptyString
        EmptyString ex_editor_plain).1, AddFailed ValueError).
Proof.
  apply (add_route_stops_at_first_failure ex_externals ex_times
           [mkUpload "new.txt" [x6e]] [mkUpload "z.txt" [x7a]]
           (mkUpload "empty.txt" []) None EmptyString EmptyString ex_editor_plain
           (add_file ex_externals ex_now ex_now ex_later "new.txt" [x6e] EmptyString
              EmptyString ex_editor_plain).1 _ 1%nat).
  - vm_compute. reflexivity.
  - discriminate.
  - vm_compute. reflexivity.
Defined.

Lemma add_route_count_witness :
  2%nat = length (filter (fun u => up_filename u <> EmptyString)
                    [mkUpload "new.txt" [x6e]; mkUpload EmptyString [];
                     mkUpload "z.txt" [x7a]]).
Proof.
  apply (add_route_count ex_externals ex_times
           [mkUpload "new.txt" [x6e]; mkUpload EmptyString []; mkUpload "z.txt" [x7a]]
           None EmptyString EmptyString ex_editor_plain
           (add_file_route ex_externals ex_times
              [mkUpload "new.txt" [x6e]; mkUpload EmptyString []; mkUpload "z.txt" [x7a]]
              None EmptyString EmptyString ex_editor_plain).1).
  vm_compute. reflexivity.
Defined.
